(** * General-ledger ETL pipeline: extract, transform, load

    A shallow embedding of the Python pipeline (extract/, transform/, load/,
    models/) together with the properties its specification states.

    Conventions of the embedding:
    - a Python value that the code handles dynamically (parsed JSON, the
      dictionaries produced by [model_dump]) is a [pyval];
    - a function that may raise returns a [result]; [Raise e] is the
      exception [e] leaving the function;
    - a pydantic model is a record, kept in a module named after the class,
      with its [model_dump] and, where the code builds instances from keyword
      arguments, its constructor [init];
    - effects (sleeping, HTTP calls, files, SQL statements) are threaded
      through an explicit state. Logging is not modelled. *)

From Stdlib Require Import ZArith List String Ascii Bool Lia SpecFloat Sorted.
From stdpp Require Import base option list gmap strings.
From Equations Require Import Equations.
Import ListNotations.
Open Scope string_scope.
Open Scope list_scope.
Open Scope Z_scope.
Set Warnings "-register-all".

(** ** Python values, exceptions and dictionaries *)

Module Py.

(** The exceptions the pipeline can raise. The specification calls
    [ValueError] InputError, [HTTPError] and [ConnectionError] (both
    [requests.RequestException]) TransportError, and the plain [Exception]
    of the exhausted retry loop RetryExhausted. *)
Inductive exn : Type :=
| ValueError
| TypeError
| AttributeError
| KeyError
| IndexError
| JSONDecodeError
| ValidationError
| HTTPError (status : Z)
| ConnectionError
| FileNotFoundError
| DatabaseError
| Exception (msg : string).

Inductive result (A : Type) : Type :=
| Ok (a : A)
| Raise (e : exn).
Arguments Ok {A} a.
Arguments Raise {A} e.

#[export] Instance result_ret : MRet result := fun _ a => Ok a.
#[export] Instance result_bind : MBind result := fun _ _ f m =>
  match m with
  | Ok a => f a
  | Raise e => Raise e
  end.

Definition is_ok {A} (r : result A) : bool :=
  match r with Ok _ => true | Raise _ => false end.

(** [datetime.date] and [datetime.datetime]. *)
Record date : Type := Date { year : Z; month : Z; day : Z }.
Record datetime : Type :=
  DateTime { on : date; hour : Z; minute : Z; second : Z; microsecond : Z }.

(** A Python [float] is an IEEE 754 binary64 value; it is kept in the
    format in which the Standard Library specifies floating-point numbers
    (sign, mantissa, exponent). The pipeline never computes with floats. *)
Abbreviation float := spec_float.

Inductive pyval : Type :=
| PNone
| PBool (b : bool)
| PInt (n : Z)
| PFloat (f : float)
| PStr (s : string)
| PDate (d : date)
| PDateTime (d : datetime)
| PList (l : list pyval)
| PDict (d : list (string * pyval)).

(** A [dict] keeps its keys in insertion order; keys are unique. *)
Abbreviation dict := (list (string * pyval)).

Fixpoint dict_lookup (k : string) (d : dict) : option pyval :=
  match d with
  | [] => None
  | (k', v) :: d' => if String.eqb k k' then Some v else dict_lookup k d'
  end.

(** [d[k] = v]: overwrite in place, or append a new key. *)
Fixpoint dict_set (k : string) (v : pyval) (d : dict) : dict :=
  match d with
  | [] => [(k, v)]
  | (k', v') :: d' =>
      if String.eqb k k' then (k', v) :: d' else (k', v') :: dict_set k v d'
  end.

(** [d[k].append(v)] for a key holding a list. *)
Fixpoint dict_append (k : string) (v : pyval) (d : dict) : result dict :=
  match d with
  | [] => Raise KeyError
  | (k', v') :: d' =>
      if String.eqb k k' then
        match v' with
        | PList l => Ok ((k', PList (l ++ [v])) :: d')
        | _ => Raise AttributeError
        end
      else d'' ← dict_append k v d'; Ok ((k', v') :: d'')
  end.

(** The [exclude=] argument of [model_dump]. *)
Definition dict_exclude (exclude : list string) (d : dict) : dict :=
  List.filter (fun kv => negb (existsb (String.eqb (fst kv)) exclude)) d.

Definition keys (d : dict) : list string := List.map fst d.

(** Comparison of a float with an integer is exact in Python. *)
Definition float_eq_Z (f : float) (a : Z) : bool :=
  match f with
  | S754_zero _ => a =? 0
  | S754_finite s m e =>
      let n := if s then Z.neg m else Z.pos m in
      if 0 <=? e then n * 2 ^ e =? a else n =? a * 2 ^ (- e)
  | _ => false
  end.

(** [v == a] for an integer [a]. [True == 1] and [101.0 == 101] hold. *)
Definition eq_int (v : pyval) (a : Z) : bool :=
  match v with
  | PInt n => n =? a
  | PBool b => Z.b2z b =? a
  | PFloat f => float_eq_Z f a
  | _ => false
  end.

(** Truth value testing ([if v], [not v]). *)
Definition truthy (v : pyval) : bool :=
  match v with
  | PNone => false
  | PBool b => b
  | PInt n => negb (n =? 0)
  | PFloat f => match f with S754_zero _ => false | _ => true end
  | PStr s => negb (String.eqb s "")
  | PDate _ | PDateTime _ => true
  | PList l => match l with [] => false | _ => true end
  | PDict d => match d with [] => false | _ => true end
  end.

(** [v.get(k)]: only dictionaries have it. *)
Definition get (v : pyval) (k : string) : result pyval :=
  match v with
  | PDict d => Ok (default PNone (dict_lookup k d))
  | _ => Raise AttributeError
  end.

(** [v[k]] for a string key. *)
Definition getitem (v : pyval) (k : string) : result pyval :=
  match v with
  | PDict d =>
      match dict_lookup k d with
      | Some x => Ok x
      | None => Raise KeyError
      end
  | _ => Raise TypeError
  end.

(** [for x in v]: the items the loop visits. *)
Definition iter (v : pyval) : result (list pyval) :=
  match v with
  | PList l => Ok l
  | PDict d => Ok (List.map (fun kv => PStr (fst kv)) d)
  | PStr s =>
      Ok (List.map (fun c => PStr (String c EmptyString)) (list_ascii_of_string s))
  | _ => Raise TypeError
  end.

(** [for x in xs: s = body(s, x)] with the loop state passed explicitly;
    an exception raised by the body leaves the loop. *)
Fixpoint for_each {A S : Type} (xs : list A) (body : S → A → result S) (s : S)
  : result S :=
  match xs with
  | [] => Ok s
  | x :: xs' => s' ← body s x; for_each xs' body s'
  end.

(** [sep.join(parts)]. *)
Fixpoint join (sep : string) (parts : list string) : string :=
  match parts with
  | [] => ""
  | [p] => p
  | p :: ps => p +:+ sep +:+ join sep ps
  end.

(** *** Reading keyword arguments in a model constructor

    With [populate_by_name=True] a field is read from its alias or from
    its own name. The constructors below are only applied to dictionaries
    whose values come out of [model_dump], so a value that is present has
    the declared type already; a value of another type is rejected here
    (pydantic's lax conversions are never exercised by the pipeline). *)
Definition kwarg (d : dict) (name alias : string) : option pyval :=
  match dict_lookup alias d with
  | Some v => Some v
  | None => dict_lookup name d
  end.

Definition req_int d name alias : result Z :=
  match kwarg d name alias with Some (PInt n) => Ok n | _ => Raise ValidationError end.
Definition req_float d name alias : result float :=
  match kwarg d name alias with Some (PFloat f) => Ok f | _ => Raise ValidationError end.
Definition req_str d name alias : result string :=
  match kwarg d name alias with Some (PStr s) => Ok s | _ => Raise ValidationError end.
Definition req_bool d name alias : result bool :=
  match kwarg d name alias with Some (PBool b) => Ok b | _ => Raise ValidationError end.
Definition req_date d name alias : result date :=
  match kwarg d name alias with Some (PDate x) => Ok x | _ => Raise ValidationError end.
Definition req_datetime d name alias : result datetime :=
  match kwarg d name alias with Some (PDateTime x) => Ok x | _ => Raise ValidationError end.
Definition req_dict d name alias : result dict :=
  match kwarg d name alias with Some (PDict x) => Ok x | _ => Raise ValidationError end.
Definition req_list d name alias : result (list pyval) :=
  match kwarg d name alias with Some (PList x) => Ok x | _ => Raise ValidationError end.
Definition opt_int d name alias : result (option Z) :=
  match kwarg d name alias with
  | None | Some PNone => Ok None
  | Some (PInt n) => Ok (Some n)
  | _ => Raise ValidationError
  end.
Definition opt_str d name alias : result (option string) :=
  match kwarg d name alias with
  | None | Some PNone => Ok None
  | Some (PStr s) => Ok (Some s)
  | _ => Raise ValidationError
  end.
(** A list field with [default_factory=list]. *)
Definition default_list d name alias : result (list pyval) :=
  match kwarg d name alias with
  | None => Ok []
  | Some (PList x) => Ok x
  | _ => Raise ValidationError
  end.

Definition of_opt_int (o : option Z) : pyval := from_option PInt PNone o.
Definition of_opt_str (o : option string) : pyval := from_option PStr PNone o.

End Py.
Import Py.

(** ** models/general_ledger_account.py *)

Module GeneralLedgerAccount.

Inductive t : Type := Build {
  id : Z;
  account_number : option string;
  name : string;
  description : option string;
  type : string;
  sub_type : string;
  is_default_gl_account : bool;
  default_account_name : option string;
  is_contra_account : bool;
  is_bank_account : bool;
  cash_flow_classification : option string;
  exclude_from_cash_balances : bool;
  (** [Optional[list[GeneralLedgerAccount]]]: an explicit [null] in the
      payload is kept as [None]; a missing key gives the empty list. *)
  sub_accounts : option (list t);
  is_active : bool;
  parent_gl_account_id : option Z
}.

Fixpoint model_dump (a : t) : dict :=
  [ ("id", PInt (id a));
    ("account_number", of_opt_str (account_number a));
    ("name", PStr (name a));
    ("description", of_opt_str (description a));
    ("type", PStr (type a));
    ("sub_type", PStr (sub_type a));
    ("is_default_gl_account", PBool (is_default_gl_account a));
    ("default_account_name", of_opt_str (default_account_name a));
    ("is_contra_account", PBool (is_contra_account a));
    ("is_bank_account", PBool (is_bank_account a));
    ("cash_flow_classification", of_opt_str (cash_flow_classification a));
    ("exclude_from_cash_balances", PBool (exclude_from_cash_balances a));
    ("sub_accounts",
      match sub_accounts a with
      | None => PNone
      | Some subs => PList (List.map (fun s => PDict (model_dump s)) subs)
      end);
    ("is_active", PBool (is_active a));
    ("parent_gl_account_id", of_opt_int (parent_gl_account_id a)) ].

End GeneralLedgerAccount.

Module GeneralLedgerAccountFlattened.

Record t : Type := Build {
  id : Z;
  account_number : option string;
  name : string;
  description : option string;
  type : string;
  sub_type : string;
  is_default_gl_account : bool;
  default_account_name : option string;
  is_contra_account : bool;
  is_bank_account : bool;
  cash_flow_classification : option string;
  exclude_from_cash_balances : bool;
  is_active : bool;
  parent_gl_account_id : option Z
}.

(** The constructor, called with keyword arguments. *)
Definition init (kwargs : dict) : result t :=
  f1 ← req_int kwargs "id" "Id";
  f2 ← opt_str kwargs "account_number" "AccountNumber";
  f3 ← req_str kwargs "name" "Name";
  f4 ← opt_str kwargs "description" "Description";
  f5 ← req_str kwargs "type" "Type";
  f6 ← req_str kwargs "sub_type" "SubType";
  f7 ← req_bool kwargs "is_default_gl_account" "IsDefaultGLAccount";
  f8 ← opt_str kwargs "default_account_name" "DefaultAccountName";
  f9 ← req_bool kwargs "is_contra_account" "IsContraAccount";
  f10 ← req_bool kwargs "is_bank_account" "IsBankAccount";
  f11 ← opt_str kwargs "cash_flow_classification" "CashFlowClassification";
  f12 ← req_bool kwargs "exclude_from_cash_balances" "ExcludeFromCashBalances";
  f13 ← req_bool kwargs "is_active" "IsActive";
  f14 ← opt_int kwargs "parent_gl_account_id" "ParentGLAccountId";
  Ok (Build f1 f2 f3 f4 f5 f6 f7 f8 f9 f10 f11 f12 f13 f14).

Definition model_dump (a : t) : dict :=
  [ ("id", PInt (id a));
    ("account_number", of_opt_str (account_number a));
    ("name", PStr (name a));
    ("description", of_opt_str (description a));
    ("type", PStr (type a));
    ("sub_type", PStr (sub_type a));
    ("is_default_gl_account", PBool (is_default_gl_account a));
    ("default_account_name", of_opt_str (default_account_name a));
    ("is_contra_account", PBool (is_contra_account a));
    ("is_bank_account", PBool (is_bank_account a));
    ("cash_flow_classification", of_opt_str (cash_flow_classification a));
    ("exclude_from_cash_balances", PBool (exclude_from_cash_balances a));
    ("is_active", PBool (is_active a));
    ("parent_gl_account_id", of_opt_int (parent_gl_account_id a)) ].

End GeneralLedgerAccountFlattened.

(** ** transform/transform_general_ledger_accounts.py *)

(** Iterating an [Optional[list]]: [None] is not iterable. *)
Definition iter_optional {A : Type} (o : option (list A)) : result (list A) :=
  match o with
  | Some l => Ok l
  | None => Raise TypeError
  end.

Definition transform_general_ledger_accounts
    (accounts : list GeneralLedgerAccount.t)
  : result (list GeneralLedgerAccountFlattened.t) :=
  for_each accounts (fun transformed account =>
    flat ← GeneralLedgerAccountFlattened.init
              (dict_exclude ["sub_accounts"] (GeneralLedgerAccount.model_dump account));
    let transformed := transformed ++ [flat] in
    subs ← iter_optional (GeneralLedgerAccount.sub_accounts account);
    for_each subs (fun transformed sub_account =>
      flat ← GeneralLedgerAccountFlattened.init
                (dict_exclude ["sub_accounts"]
                   (GeneralLedgerAccount.model_dump sub_account));
      Ok (transformed ++ [flat])) transformed) [].

(** ** models/general_ledger_transactions.py *)

(** Validation of every item of a list; one invalid item fails the list. *)
Fixpoint traverse {A B : Type} (f : A → result B) (l : list A) : result (list B) :=
  match l with
  | [] => Ok []
  | x :: l' => y ← f x; ys ← traverse f l'; Ok (y :: ys)
  end.

(** A nested model is given to a constructor as a dictionary. *)
Definition nested {B : Type} (init : dict → result B) (v : pyval) : result B :=
  match v with
  | PDict d => init d
  | _ => Raise ValidationError
  end.

Module UnitAgreement.
Record t : Type := Build { id : Z; type : string; href : string }.

Definition model_dump (u : t) : dict :=
  [ ("id", PInt (id u)); ("type", PStr (type u)); ("href", PStr (href u)) ].

Definition init (kwargs : dict) : result t :=
  f1 ← req_int kwargs "id" "Id";
  f2 ← req_str kwargs "type" "Type";
  f3 ← req_str kwargs "href" "Href";
  Ok (Build f1 f2 f3).
End UnitAgreement.

Module PaymentDetail.
Record t : Type := Build {
  payment_method : string;
  payee : option string;
  is_internal_transaction : bool;
  internal_transaction_status : option string
}.

Definition model_dump (p : t) : dict :=
  [ ("payment_method", PStr (payment_method p));
    ("payee", of_opt_str (payee p));
    ("is_internal_transaction", PBool (is_internal_transaction p));
    ("internal_transaction_status", of_opt_str (internal_transaction_status p)) ].

Definition init (kwargs : dict) : result t :=
  f1 ← req_str kwargs "payment_method" "PaymentMethod";
  f2 ← opt_str kwargs "payee" "Payee";
  f3 ← req_bool kwargs "is_internal_transaction" "IsInternalTransaction";
  f4 ← opt_str kwargs "internal_transaction_status" "InternalTransactionStatus";
  Ok (Build f1 f2 f3 f4).
End PaymentDetail.

Module DepositDetails.
Record t : Type := Build {
  bank_gl_account_id : option Z;
  (** [List[Any]]: the items are kept as they are. *)
  payment_transactions : list pyval
}.

Definition model_dump (p : t) : dict :=
  [ ("bank_gl_account_id", of_opt_int (bank_gl_account_id p));
    ("payment_transactions", PList (payment_transactions p)) ].

Definition init (kwargs : dict) : result t :=
  f1 ← opt_int kwargs "bank_gl_account_id" "BankGLAccountId";
  f2 ← default_list kwargs "payment_transactions" "PaymentTransactions";
  Ok (Build f1 f2).
End DepositDetails.

Module Unit.
Record t : Type := Build { id : Z; href : string }.

Definition model_dump (u : t) : dict :=
  [ ("id", PInt (id u)); ("href", PStr (href u)) ].

Definition init (kwargs : dict) : result t :=
  f1 ← req_int kwargs "id" "Id";
  f2 ← req_str kwargs "href" "Href";
  Ok (Build f1 f2).
End Unit.

Module AccountingEntity.
Record t : Type := Build {
  id : Z;
  accounting_entity_type : string;
  href : string;
  unit : Unit.t
}.

Definition model_dump (e : t) : dict :=
  [ ("id", PInt (id e));
    ("accounting_entity_type", PStr (accounting_entity_type e));
    ("href", PStr (href e));
    ("unit", PDict (Unit.model_dump (unit e))) ].

Definition init (kwargs : dict) : result t :=
  f1 ← req_int kwargs "id" "Id";
  f2 ← req_str kwargs "accounting_entity_type" "AccountingEntityType";
  f3 ← req_str kwargs "href" "Href";
  f4 ← req_dict kwargs "unit" "Unit" ≫= Unit.init;
  Ok (Build f1 f2 f3 f4).
End AccountingEntity.

Module JournalLine.
Record t : Type := Build {
  gl_account : GeneralLedgerAccount.t;
  amount : float;
  is_cash_posting : bool;
  reference_number : option string;
  memo : string;
  accounting_entity : AccountingEntity.t
}.

Definition model_dump (l : t) : dict :=
  [ ("gl_account", PDict (GeneralLedgerAccount.model_dump (gl_account l)));
    ("amount", PFloat (amount l));
    ("is_cash_posting", PBool (is_cash_posting l));
    ("reference_number", of_opt_str (reference_number l));
    ("memo", PStr (memo l));
    ("accounting_entity", PDict (AccountingEntity.model_dump (accounting_entity l))) ].
End JournalLine.

Module JournalLineTransformed.
Record t : Type := Build {
  amount : float;
  is_cash_posting : bool;
  reference_number : option string;
  memo : string;
  general_ledger_account_id : Z;
  accounting_entity : AccountingEntity.t
}.

Definition model_dump (l : t) : dict :=
  [ ("amount", PFloat (amount l));
    ("is_cash_posting", PBool (is_cash_posting l));
    ("reference_number", of_opt_str (reference_number l));
    ("memo", PStr (memo l));
    ("general_ledger_account_id", PInt (general_ledger_account_id l));
    ("accounting_entity", PDict (AccountingEntity.model_dump (accounting_entity l))) ].

Definition init (kwargs : dict) : result t :=
  f1 ← req_float kwargs "amount" "Amount";
  f2 ← req_bool kwargs "is_cash_posting" "IsCashPosting";
  f3 ← opt_str kwargs "reference_number" "ReferenceNumber";
  f4 ← req_str kwargs "memo" "Memo";
  f5 ← req_int kwargs "general_ledger_account_id" "general_ledger_account_id";
  f6 ← req_dict kwargs "accounting_entity" "AccountingEntity" ≫= AccountingEntity.init;
  Ok (Build f1 f2 f3 f4 f5 f6).
End JournalLineTransformed.

Module Journal.
Record t : Type := Build { memo : string; lines : list JournalLine.t }.

Definition model_dump (j : t) : dict :=
  [ ("memo", PStr (memo j));
    ("lines", PList (List.map (fun l => PDict (JournalLine.model_dump l)) (lines j))) ].
End Journal.

Module GeneralLedgerTransaction.
Record t : Type := Build {
  id : Z;
  date : Py.date;
  transaction_type : string;
  total_amount : float;
  check_number : string;
  unit_agreement : UnitAgreement.t;
  unit_id : Z;
  unit_number : string;
  payment_detail : PaymentDetail.t;
  deposit_details : DepositDetails.t;
  journal : Journal.t;
  last_updated_date_time : Py.datetime
}.

Definition model_dump (x : t) : dict :=
  [ ("id", PInt (id x));
    ("date", PDate (date x));
    ("transaction_type", PStr (transaction_type x));
    ("total_amount", PFloat (total_amount x));
    ("check_number", PStr (check_number x));
    ("unit_agreement", PDict (UnitAgreement.model_dump (unit_agreement x)));
    ("unit_id", PInt (unit_id x));
    ("unit_number", PStr (unit_number x));
    ("payment_detail", PDict (PaymentDetail.model_dump (payment_detail x)));
    ("deposit_details", PDict (DepositDetails.model_dump (deposit_details x)));
    ("journal", PDict (Journal.model_dump (journal x)));
    ("last_updated_date_time", PDateTime (last_updated_date_time x)) ].
End GeneralLedgerTransaction.

Module GeneralLedgerTransactionTransformed.
Record t : Type := Build {
  id : Z;
  date : Py.date;
  transaction_type : string;
  total_amount : float;
  check_number : string;
  unit_agreement : UnitAgreement.t;
  unit_id : Z;
  unit_number : string;
  payment_detail : PaymentDetail.t;
  deposit_details : DepositDetails.t;
  journal_memo : string;
  lines : list JournalLineTransformed.t;
  last_updated_date_time : Py.datetime
}.

Definition model_dump (x : t) : dict :=
  [ ("id", PInt (id x));
    ("date", PDate (date x));
    ("transaction_type", PStr (transaction_type x));
    ("total_amount", PFloat (total_amount x));
    ("check_number", PStr (check_number x));
    ("unit_agreement", PDict (UnitAgreement.model_dump (unit_agreement x)));
    ("unit_id", PInt (unit_id x));
    ("unit_number", PStr (unit_number x));
    ("payment_detail", PDict (PaymentDetail.model_dump (payment_detail x)));
    ("deposit_details", PDict (DepositDetails.model_dump (deposit_details x)));
    ("journal_memo", PStr (journal_memo x));
    ("lines",
      PList (List.map (fun l => PDict (JournalLineTransformed.model_dump l)) (lines x)));
    ("last_updated_date_time", PDateTime (last_updated_date_time x)) ].

Definition init (kwargs : dict) : result t :=
  f1 ← req_int kwargs "id" "Id";
  f2 ← req_date kwargs "date" "Date";
  f3 ← req_str kwargs "transaction_type" "TransactionType";
  f4 ← req_float kwargs "total_amount" "TotalAmount";
  f5 ← req_str kwargs "check_number" "CheckNumber";
  f6 ← req_dict kwargs "unit_agreement" "UnitAgreement" ≫= UnitAgreement.init;
  f7 ← req_int kwargs "unit_id" "UnitId";
  f8 ← req_str kwargs "unit_number" "UnitNumber";
  f9 ← req_dict kwargs "payment_detail" "PaymentDetail" ≫= PaymentDetail.init;
  f10 ← req_dict kwargs "deposit_details" "DepositDetails" ≫= DepositDetails.init;
  f11 ← req_str kwargs "journal_memo" "journal_memo";
  f12 ← req_list kwargs "lines" "lines" ≫= traverse (nested JournalLineTransformed.init);
  f13 ← req_datetime kwargs "last_updated_date_time" "LastUpdatedDateTime";
  Ok (Build f1 f2 f3 f4 f5 f6 f7 f8 f9 f10 f11 f12 f13).
End GeneralLedgerTransactionTransformed.

(** ** models/general_ledger_account_transactions.py *)

Module GeneralLedgerAccountTransactions.
Record t : Type := Build { account_id : Z; transaction_id : Z }.

Definition model_dump (x : t) : dict :=
  [ ("account_id", PInt (account_id x));
    ("transaction_id", PInt (transaction_id x)) ].
End GeneralLedgerAccountTransactions.

(** ** transform/transform_general_ledger_transactions.py *)

Definition transform_general_ledger_transactions
    (transactions : list GeneralLedgerTransaction.t)
  : result (list GeneralLedgerTransactionTransformed.t) :=
  st ← for_each transactions
    (fun (st : list GeneralLedgerTransactionTransformed.t * gset Z) transaction =>
      let '(results, stored_ids) := st in
      if bool_decide (GeneralLedgerTransaction.id transaction ∈ stored_ids) then
        (* continue *)
        Ok (results, stored_ids)
      else
        let stored_ids := stored_ids ∪ {[ GeneralLedgerTransaction.id transaction ]} in
        let journal := GeneralLedgerTransaction.journal transaction in
        let transformed_transaction :=
          dict_exclude ["journal"] (GeneralLedgerTransaction.model_dump transaction) in
        let transformed_transaction :=
          dict_set "journal_memo" (PStr (Journal.memo journal)) transformed_transaction in
        let transformed_transaction :=
          dict_set "lines" (PList []) transformed_transaction in
        transformed_transaction ←
          for_each (Journal.lines journal) (fun transformed_transaction line =>
            let base_line := dict_exclude ["gl_account"] (JournalLine.model_dump line) in
            let base_line :=
              dict_set "general_ledger_account_id"
                (PInt (GeneralLedgerAccount.id (JournalLine.gl_account line))) base_line in
            dict_append "lines" (PDict base_line) transformed_transaction)
          transformed_transaction;
        r ← GeneralLedgerTransactionTransformed.init transformed_transaction;
        Ok (results ++ [r], stored_ids))
    ([], ∅);
  Ok st.1.

(** ** JSON documents

    A Python [str] that is handed to a JSON parser is modelled by what the
    parser makes of it: the value it denotes, or nothing. *)

Inductive json_text : Type :=
| Json (v : pyval)
| NotJson.

(** Values that [json.dumps] can write: no dates below any depth. *)
Fixpoint json_serialisable (v : pyval) : bool :=
  match v with
  | PDate _ | PDateTime _ => false
  | PList l => forallb json_serialisable l
  | PDict d => forallb (fun kv => json_serialisable (snd kv)) d
  | _ => true
  end.

Definition json_loads (s : json_text) : result pyval :=
  match s with
  | Json v => Ok v
  | NotJson => Raise JSONDecodeError
  end.

Definition json_dumps (v : pyval) : result json_text :=
  if json_serialisable v then Ok (Json v) else Raise TypeError.

(** [TypeAdapter(list[M]).validate_json]: the document must be an array and
    every item must validate; otherwise a single [ValidationError] is raised
    and no list is produced. How one item is validated is pydantic's
    business and is a parameter here. *)
Definition validate_json {M : Type} (validate_item : pyval → option M)
    (s : json_text) : result (list M) :=
  match s with
  | Json (PList items) =>
      traverse (fun v => match validate_item v with
                         | Some m => Ok m
                         | None => Raise ValidationError
                         end) items
  | _ => Raise ValidationError
  end.

(** ** The HTTP side: requests and the clock

    [server n] is the outcome of the [n]-th call of [requests.get];
    [slept] lists the arguments of [time.sleep], oldest first. *)

Inductive reply : Type :=
| Response (status_code : Z) (text : json_text)
| ConnectionFailed.

Record world : Type := World {
  server : nat → reply;
  calls : nat;
  slept : list Z
}.

Definition io (A : Type) : Type := world → result A * world.

#[export] Instance io_ret : MRet io := fun _ a w => (Ok a, w).
#[export] Instance io_bind : MBind io := fun _ _ f m w =>
  match m w with
  | (Ok a, w') => f a w'
  | (Raise e, w') => (Raise e, w')
  end.

Definition raise {A : Type} (e : exn) : io A := fun w => (Raise e, w).
Definition lift {A : Type} (r : result A) : io A := fun w => (r, w).

Definition requests_get : io reply := fun w =>
  (Ok (server w (calls w)), World (server w) (S (calls w)) (slept w)).

Definition time_sleep (seconds : Z) : io () := fun w =>
  (Ok (), World (server w) (calls w) (slept w ++ [seconds])).

(** [response.raise_for_status()]. *)
Definition raise_for_status (status_code : Z) : result () :=
  if (400 <=? status_code) && (status_code <? 600)
  then Raise (HTTPError status_code)
  else Ok ().

(** ** extract/extract_general_ledger_transactions.py *)

(** The inner loop of the search: the lines of one transaction. [result_]
    is the list built so far; a match appends the transaction and breaks. *)
Fixpoint search_lines (lines : list pyval) (json_transaction : pyval)
    (general_account_id : Z) (result_ : list pyval) : result (list pyval) :=
  match lines with
  | [] => Ok result_
  | line :: lines' =>
      gl ← get line "GLAccount";
      if negb (truthy gl) then
        search_lines lines' json_transaction general_account_id result_
      else
        account ← getitem line "GLAccount";
        account_id ← getitem account "Id";
        if eq_int account_id general_account_id then
          Ok (result_ ++ [json_transaction])
        else
          search_lines lines' json_transaction general_account_id result_
  end.

Definition transactions_json_search (json_transactions : pyval)
    (general_account_id : Z) : result json_text :=
  items ← iter json_transactions;
  result_ ← for_each items (fun result_ json_transaction =>
    j ← get json_transaction "Journal";
    if negb (truthy j) then Ok result_
    else
      journal ← getitem json_transaction "Journal";
      ls ← get journal "Lines";
      if negb (truthy ls) then Ok result_
      else
        lines ← getitem journal "Lines" ≫= iter;
        search_lines lines json_transaction general_account_id result_) [];
  json_dumps (PList result_).

Definition fetch_transactions_from_json (json_data : json_text)
    (general_account_id : Z) : result json_text :=
  full_json_transactions ← json_loads json_data;
  transactions_json_search full_json_transactions general_account_id.

Definition maximum_retries : Z := 5.
Definition initial_delay : Z := 2.

(** The [while current_retries < maximum_retries] loop. Each pass that
    does not leave the function raises [current_retries] by one, so the
    distance to [maximum_retries] is a measure. The second obligation is
    the unfolding equation of the loop, proved here by cases on one pass. *)
#[local] Unset Equations With Funext.
#[local] Set Warnings "-solve_obligation_error".
Equations? fetch_loop (delay current_retries : Z) (w : world)
  : result json_text * world
  by wf (Z.to_nat (maximum_retries - current_retries)) lt :=
  fetch_loop delay current_retries w :=
    match Z_lt_dec current_retries maximum_retries with
    | left _ =>
        match requests_get w with
        | (Ok (Response status_code text), w1) =>
            if status_code =? 429 then
              match time_sleep delay w1 with
              | (_, w2) => fetch_loop (delay * 2) (current_retries + 1) w2
              end
            else
              match raise_for_status status_code with
              | Ok _ => (Ok text, w1)
              | Raise e => (Raise e, w1)
              end
        | (Ok ConnectionFailed, w1) => (Raise ConnectionError, w1)
        | (Raise e, w1) => (Raise e, w1)
        end
    | right _ =>
        (Raise (Exception "Max retries exceeded while fetching transactions from API"), w)
    end.
Proof. lia. Qed.
Next Obligation.
  unfold fetch_loop.
  match goal with
  | |- context [ @FixWf ?A ?R ?WF ?P ?f ?x ] =>
      let step := fresh in
      set (step := fun y (_ : R y x) => @FixWf A R WF P f y) in *;
      unshelve erewrite (@FixWf_unfold_step A R WF P f x _ step)
  end.
  - intros [d [c w']] f g Hfg. cbn [pr1 pr2]. unfold fetch_loop_functional.
    destruct (Z_lt_dec c maximum_retries); [|reflexivity].
    destruct (requests_get w') as [[[status_code text|]|e] w1]; try reflexivity.
    destruct (status_code =? 429); [|reflexivity].
    destruct (time_sleep d w1) as [u w2]. apply Hfg.
  - unfold fetch_loop_functional, fetch_loop_unfold.
    destruct (Z_lt_dec current_retries maximum_retries); reflexivity.
  - reflexivity.
Defined.

Definition fetch_transactions_from_api (general_account_id : Z)
    (start_date end_date : option date) : io json_text :=
  match start_date, end_date with
  | Some _, Some _ => fetch_loop initial_delay 0
  | _, _ => raise ValueError
  end.

(** The per-item validators of the two [TypeAdapter]s are parameters: the
    functions below only rely on what [validate_json] does with them. *)
Section Extract.

Variable validate_account : pyval → option GeneralLedgerAccount.t.
Variable validate_transaction : pyval → option GeneralLedgerTransaction.t.

(** [GeneralLedgerAccounts] and [GeneralLedgerTransactions]. *)
Definition GeneralLedgerAccounts_validate_json := validate_json validate_account.
Definition GeneralLedgerTransactions_validate_json := validate_json validate_transaction.

Definition get_general_ledger_transactions (general_account_id : Z)
    (start_date end_date : option date) (json_data : option json_text)
  : io (list GeneralLedgerTransaction.t) :=
  if negb (truthy (PInt general_account_id)) then raise ValueError
  else
    json_transactions ←
      match json_data with
      | Some json_data => lift (fetch_transactions_from_json json_data general_account_id)
      | None =>
          match start_date, end_date with
          | Some _, Some _ =>
              fetch_transactions_from_api general_account_id start_date end_date
          | _, _ => raise ValueError
          end
      end;
    lift (GeneralLedgerTransactions_validate_json json_transactions).

(** ** extract/extract_general_ledger_accounts.py *)

Definition get_general_ledger_accounts (json_data : option json_text)
  : io (list GeneralLedgerAccount.t) :=
  json_accounts ←
    match json_data with
    | Some json_data => mret json_data
    | None =>
        response ← requests_get;
        match response with
        | Response status_code text =>
            _ ← lift (raise_for_status status_code); mret text
        | ConnectionFailed => raise ConnectionError
        end
    end;
  lift (GeneralLedgerAccounts_validate_json json_accounts).

(** ** transform/transform_account_participation.py *)

Fixpoint for_each_io {A S : Type} (xs : list A) (body : S → A → io S) (s : S)
  : io S :=
  match xs with
  | [] => mret s
  | x :: xs' => s' ← body s x; for_each_io xs' body s'
  end.

(** The set of account ids is given as the duplicate-free list in which
    the loop visits it; Python does not fix that order. *)
Definition map_account_participation (general_ledger_accounts_ids : list Z)
    (general_ledger_transactions_json_data : json_text)
  : io (list GeneralLedgerAccountTransactions.t * list GeneralLedgerTransaction.t) :=
  for_each_io general_ledger_accounts_ids
    (fun (st : list GeneralLedgerAccountTransactions.t
               * list GeneralLedgerTransaction.t) account_id =>
      let '(transactions_per_account, all_transactions) := st in
      transactions ←
        get_general_ledger_transactions account_id None None
          (Some general_ledger_transactions_json_data);
      match transactions with
      | [] => mret (transactions_per_account, all_transactions)
      | _ =>
          let all_transactions := all_transactions ++ transactions in
          let transactions_per_account :=
            fold_left (fun acc transaction =>
              acc ++ [GeneralLedgerAccountTransactions.Build account_id
                        (GeneralLedgerTransaction.id transaction)])
              transactions transactions_per_account in
          mret (transactions_per_account, all_transactions)
      end)
    ([], []).

End Extract.

(** ** load/load_into_snowflake.py *)

(** What the loader needs of a pydantic model. *)
Class BaseModel (M : Type) : Type := model_dump : M → dict.

#[export] Instance GeneralLedgerAccountFlattened_model
  : BaseModel GeneralLedgerAccountFlattened.t := GeneralLedgerAccountFlattened.model_dump.
#[export] Instance GeneralLedgerTransactionTransformed_model
  : BaseModel GeneralLedgerTransactionTransformed.t :=
  GeneralLedgerTransactionTransformed.model_dump.
#[export] Instance GeneralLedgerAccountTransactions_model
  : BaseModel GeneralLedgerAccountTransactions.t := GeneralLedgerAccountTransactions.model_dump.

(** A value of a CSV row: a scalar written as it is, or the JSON text that
    [json.dumps] made of a nested value. *)
Inductive cell : Type :=
| Plain (v : pyval)
| Dumped (s : json_text).

(** A statement given to [cursor.execute], with its bound parameters. *)
Record statement : Type := Statement { sql : string; params : list string }.

(** Everything the loader touches: the files under /tmp (a file is the
    list of rows written to it), the clock read by [datetime.now()], and the
    warehouse connection, which records the statements it ran and may
    reject a statement. *)
Record warehouse : Type := Warehouse {
  files : gmap string (list (list cell));
  now : nat → string;
  ticks : nat;
  rejects : statement → bool;
  executed : list statement
}.

Definition db (A : Type) : Type := warehouse → result A * warehouse.

#[export] Instance db_ret : MRet db := fun _ a w => (Ok a, w).
#[export] Instance db_bind : MBind db := fun _ _ f m w =>
  match m w with
  | (Ok a, w') => f a w'
  | (Raise e, w') => (Raise e, w')
  end.

Definition db_raise {A : Type} (e : exn) : db A := fun w => (Raise e, w).
Definition db_lift {A : Type} (r : result A) : db A := fun w => (r, w).

Definition datetime_now_isoformat : db string := fun w =>
  (Ok (now w (ticks w)),
   Warehouse (files w) (now w) (S (ticks w)) (rejects w) (executed w)).

(** [open(path, "w")]: the file exists and is empty afterwards. *)
Definition open_w (path : string) : db () := fun w =>
  (Ok (), Warehouse (<[path := []]> (files w)) (now w) (ticks w) (rejects w) (executed w)).

(** [open(path, "rb")]. *)
Definition open_rb (path : string) : db () := fun w =>
  match files w !! path with
  | Some _ => (Ok (), w)
  | None => (Raise FileNotFoundError, w)
  end.

Definition write_row (path : string) (row : list cell) : db () := fun w =>
  (Ok (),
   Warehouse (<[path := default [] (files w !! path) ++ [row]]> (files w))
     (now w) (ticks w) (rejects w) (executed w)).

Definition cursor_execute (query : string) (args : list string) : db () := fun w =>
  if rejects w (Statement query args) then (Raise DatabaseError, w)
  else (Ok (), Warehouse (files w) (now w) (ticks w) (rejects w)
                 (executed w ++ [Statement query args])).

Fixpoint for_each_db {A : Type} (xs : list A) (body : A → db ()) : db () :=
  match xs with
  | [] => mret ()
  | x :: xs' => _ ← body x; for_each_db xs' body
  end.

Definition preprocess_row (row : dict) (run_id : string)
  : db (list (string * cell)) :=
  let row := dict_set "run_id" (PStr run_id) row in
  inserted_at ← datetime_now_isoformat;
  let row := dict_set "inserted_at" (PStr inserted_at) row in
  db_lift (traverse (fun kv : string * pyval =>
    match snd kv with
    | PDict _ | PList _ => s ← json_dumps (snd kv); Ok (fst kv, Dumped s)
    | v => Ok (fst kv, Plain v)
    end) row).

(** [csv.DictWriter.writerow]: a key outside the field names is an error,
    a missing one is written as the empty string. *)
Definition writerow (path : string) (fieldnames : list string)
    (row : list (string * cell)) : db () :=
  if forallb (fun kv => existsb (String.eqb (fst kv)) fieldnames) row then
    write_row path
      (List.map (fun f =>
         default (Plain (PStr ""))
           (snd <$> List.find (fun kv => String.eqb f (fst kv)) row)) fieldnames)
  else db_raise ValueError.

Definition export_data_to_csv {M : Type} `{BaseModel M} (data : list M)
    (file_name run_id : string) : db () :=
  let path := "/tmp/" +:+ file_name in
  _ ← open_w path;
  match data with
  | [] => db_raise IndexError
  | first :: _ =>
      let fieldnames := keys (model_dump first) ++ ["run_id"; "inserted_at"] in
      _ ← write_row path (List.map (fun f => Plain (PStr f)) fieldnames);
      for_each_db data (fun row =>
        let row_without_metadata := model_dump row in
        treated_row ← preprocess_row row_without_metadata run_id;
        writerow path fieldnames treated_row)
  end.

Definition dquote : string := String (ascii_of_nat 34) EmptyString.

(** After COPY INTO the source reads [cursor.rowcount] and, when it is
    positive, [cursor.fetchone()[0]], for a log message only; the connection
    is taken to answer both, so the reading is left out, as is the logging. *)
Definition stage_file_in_snowflake (file_name table_name : string) : db () :=
  let path := "/tmp/" +:+ file_name in
  _ ← open_rb path;
  _ ← cursor_execute "USE SCHEMA GENERAL_LEDGER_STAGING" [];
  _ ← cursor_execute
        ("PUT file://" +:+ path +:+ " @%" +:+ table_name +:+ " OVERWRITE = TRUE") [];
  cursor_execute
    ("copy into " +:+ table_name +:+ " from @%" +:+ table_name +:+ "/" +:+ file_name
     +:+ ".gz file_format = (type = csv field_optionally_enclosed_by = '" +:+ dquote
     +:+ "' skip_header = 1 escape='\\') on_error = 'abort_statement'") [].

(** The match condition of the merge. *)
Definition id_matching (id_matching_columns : list string) : string :=
  join " AND "
    (List.map (fun column => "target." +:+ column +:+ " = source." +:+ column)
       id_matching_columns).

Definition merge_query (staging_table target_table : string)
    (columns id_matching_columns : list string) : string :=
  "MERGE INTO " +:+ target_table +:+ " AS target USING (SELECT * FROM "
  +:+ staging_table +:+ " WHERE run_id = %s) AS source ON "
  +:+ id_matching id_matching_columns
  +:+ " WHEN NOT MATCHED THEN INSERT (" +:+ join ", " columns
  +:+ ") VALUES (" +:+ join ", " columns +:+ ")".

(** [id_matching_columns] is optional and defaults to the single column
    [id]. *)
Definition merge_staging_table_into_target_table
    (staging_table target_table : string) (columns : list string)
    (run_id : string) (id_matching_columns : option (list string)) : db () :=
  let id_matching_columns := default ["id"] id_matching_columns in
  cursor_execute
    (merge_query staging_table target_table columns id_matching_columns) [run_id].

(** [data[0].model_dump().keys()]. *)
Definition first_keys {M : Type} `{BaseModel M} (data : list M) : db (list string) :=
  match data with
  | [] => db_raise IndexError
  | first :: _ => mret (keys (model_dump first))
  end.

Definition load_general_ledger_accounts_into_snowflake
    (general_ledger_accounts : list GeneralLedgerAccountFlattened.t)
    (run_id : string) : db () :=
  let file_name := "general_ledger_accounts_" +:+ run_id +:+ ".csv" in
  _ ← export_data_to_csv general_ledger_accounts file_name run_id;
  _ ← stage_file_in_snowflake file_name "account";
  columns ← first_keys general_ledger_accounts;
  merge_staging_table_into_target_table
    "general_ledger_staging.account" "general_ledger.account" columns run_id None.

Definition load_general_ledger_transactions_into_snowflake
    (general_ledger_transactions : list GeneralLedgerTransactionTransformed.t)
    (run_id : string) : db () :=
  let file_name := "general_ledger_transactions_" +:+ run_id +:+ ".csv" in
  _ ← export_data_to_csv general_ledger_transactions file_name run_id;
  _ ← stage_file_in_snowflake file_name "transaction";
  columns ← first_keys general_ledger_transactions;
  merge_staging_table_into_target_table
    "general_ledger_staging.transaction" "general_ledger.transaction" columns run_id None.

Definition load_general_ledger_account_transactions_into_snowflake
    (general_ledger_account_transactions : list GeneralLedgerAccountTransactions.t)
    (run_id : string) : db () :=
  let file_name := "general_ledger_account_transactions_" +:+ run_id +:+ ".csv" in
  _ ← export_data_to_csv general_ledger_account_transactions file_name run_id;
  _ ← stage_file_in_snowflake file_name "account_transactions";
  columns ← first_keys general_ledger_account_transactions;
  merge_staging_table_into_target_table
    "general_ledger_staging.account_transactions" "general_ledger.account_transactions"
    columns run_id (Some ["account_id"; "transaction_id"]).

(** ** A validator of the declared shapes, and sample data

    [Strict] reads a JSON object field by field, by alias or by name, and
    accepts a value only if it already has the declared type. It is one
    possible instance of the validator parameters of section [Extract] and
    is used for the worked examples. *)

Module Strict.

Definition to_option {A : Type} (r : result A) : option A :=
  match r with Ok a => Some a | Raise _ => None end.

Definition digit (c : ascii) : option Z :=
  let n := Z.of_nat (nat_of_ascii c) in
  if (48 <=? n) && (n <=? 57) then Some (n - 48) else None.

Fixpoint number (cs : list ascii) (acc : Z) : option Z :=
  match cs with
  | [] => Some acc
  | c :: cs' => d ← digit c; number cs' (10 * acc + d)
  end.

Definition is_char (c : ascii) (s : string) : bool :=
  String.eqb (String c EmptyString) s.

(** [YYYY-MM-DD]. *)
Definition parse_date_chars (cs : list ascii) : option date :=
  match cs with
  | [y1; y2; y3; y4; s1; m1; m2; s2; d1; d2] =>
      if is_char s1 "-" && is_char s2 "-" then
        y ← number [y1; y2; y3; y4] 0;
        m ← number [m1; m2] 0;
        d ← number [d1; d2] 0;
        Some (Date y m d)
      else None
  | _ => None
  end.

Definition parse_date (s : string) : option date :=
  parse_date_chars (list_ascii_of_string s).

(** [YYYY-MM-DDTHH:MM:SS]. *)
Definition parse_datetime (s : string) : option datetime :=
  let cs := list_ascii_of_string s in
  match drop 10 cs with
  | [t; h1; h2; c1; m1; m2; c2; s1; s2] =>
      if is_char t "T" && is_char c1 ":" && is_char c2 ":" then
        d ← parse_date_chars (take 10 cs);
        h ← number [h1; h2] 0;
        m ← number [m1; m2] 0;
        sec ← number [s1; s2] 0;
        Some (DateTime d h m sec 0)
      else None
  | _ => None
  end.

Fixpoint validate_account (v : pyval) : option GeneralLedgerAccount.t :=
  match v with
  | PDict d =>
      let fix subs (d' : dict) : option (option (list GeneralLedgerAccount.t)) :=
        match d' with
        | [] => Some (Some [])
        | (k, x) :: rest =>
            if String.eqb k "SubAccounts" || String.eqb k "sub_accounts" then
              match x with
              | PNone => Some None
              | PList l =>
                  (fix all (l : list pyval) : option (list GeneralLedgerAccount.t) :=
                     match l with
                     | [] => Some []
                     | y :: l' =>
                         a ← validate_account y; r ← all l'; Some (a :: r)
                     end) l ≫= (fun r => Some (Some r))
              | _ => None
              end
            else subs rest
        end in
      f13 ← subs d;
      f1 ← to_option (req_int d "id" "Id");
      f2 ← to_option (opt_str d "account_number" "AccountNumber");
      f3 ← to_option (req_str d "name" "Name");
      f4 ← to_option (opt_str d "description" "Description");
      f5 ← to_option (req_str d "type" "Type");
      f6 ← to_option (req_str d "sub_type" "SubType");
      f7 ← to_option (req_bool d "is_default_gl_account" "IsDefaultGLAccount");
      f8 ← to_option (opt_str d "default_account_name" "DefaultAccountName");
      f9 ← to_option (req_bool d "is_contra_account" "IsContraAccount");
      f10 ← to_option (req_bool d "is_bank_account" "IsBankAccount");
      f11 ← to_option (opt_str d "cash_flow_classification" "CashFlowClassification");
      f12 ← to_option (req_bool d "exclude_from_cash_balances" "ExcludeFromCashBalances");
      f14 ← to_option (req_bool d "is_active" "IsActive");
      f15 ← to_option (opt_int d "parent_gl_account_id" "ParentGLAccountId");
      Some (GeneralLedgerAccount.Build f1 f2 f3 f4 f5 f6 f7 f8 f9 f10 f11 f12 f13 f14 f15)
  | _ => None
  end.

Definition validate_line (v : pyval) : option JournalLine.t :=
  match v with
  | PDict d =>
      f1 ← kwarg d "gl_account" "GLAccount" ≫= validate_account;
      f2 ← to_option (req_float d "amount" "Amount");
      f3 ← to_option (req_bool d "is_cash_posting" "IsCashPosting");
      f4 ← to_option (opt_str d "reference_number" "ReferenceNumber");
      f5 ← to_option (req_str d "memo" "Memo");
      f6 ← to_option (req_dict d "accounting_entity" "AccountingEntity"
                        ≫= AccountingEntity.init);
      Some (JournalLine.Build f1 f2 f3 f4 f5 f6)
  | _ => None
  end.

Definition validate_journal (v : pyval) : option Journal.t :=
  match v with
  | PDict d =>
      f1 ← to_option (req_str d "memo" "Memo");
      f2 ← to_option (req_list d "lines" "Lines") ≫= mapM validate_line;
      Some (Journal.Build f1 f2)
  | _ => None
  end.

Definition validate_transaction (v : pyval) : option GeneralLedgerTransaction.t :=
  match v with
  | PDict d =>
      f1 ← to_option (req_int d "id" "Id");
      f2 ← to_option (req_str d "date" "Date") ≫= parse_date;
      f3 ← to_option (req_str d "transaction_type" "TransactionType");
      f4 ← to_option (req_float d "total_amount" "TotalAmount");
      f5 ← to_option (req_str d "check_number" "CheckNumber");
      f6 ← to_option (req_dict d "unit_agreement" "UnitAgreement" ≫= UnitAgreement.init);
      f7 ← to_option (req_int d "unit_id" "UnitId");
      f8 ← to_option (req_str d "unit_number" "UnitNumber");
      f9 ← to_option (req_dict d "payment_detail" "PaymentDetail" ≫= PaymentDetail.init);
      f10 ← to_option (req_dict d "deposit_details" "DepositDetails"
                         ≫= DepositDetails.init);
      f11 ← kwarg d "journal" "Journal" ≫= validate_journal;
      f12 ← to_option (req_str d "last_updated_date_time" "LastUpdatedDateTime")
              ≫= parse_datetime;
      Some (GeneralLedgerTransaction.Build f1 f2 f3 f4 f5 f6 f7 f8 f9 f10 f11 f12)
  | _ => None
  end.

End Strict.

Module Sample.

Definition account (id : Z) (name : string)
    (sub_accounts : option (list GeneralLedgerAccount.t)) : GeneralLedgerAccount.t :=
  GeneralLedgerAccount.Build id (Some "1000") name None "Asset" "CurrentAsset"
    false None false true (Some "OperatingActivities") false sub_accounts true None.

Definition account_json (id : Z) (name : string) : pyval :=
  PDict [ ("Id", PInt id); ("AccountNumber", PStr "1000"); ("Name", PStr name);
          ("Description", PNone); ("Type", PStr "Asset");
          ("SubType", PStr "CurrentAsset"); ("IsDefaultGLAccount", PBool false);
          ("DefaultAccountName", PNone); ("IsContraAccount", PBool false);
          ("IsBankAccount", PBool true);
          ("CashFlowClassification", PStr "OperatingActivities");
          ("ExcludeFromCashBalances", PBool false); ("SubAccounts", PList []);
          ("IsActive", PBool true); ("ParentGLAccountId", PNone) ].

(** The float 100.5. *)
Definition amount : float := S754_finite false 201 (-1).

Definition entity : AccountingEntity.t :=
  AccountingEntity.Build 7 "Rental" "/rentals/7" (Unit.Build 70 "/units/70").

Definition entity_json : pyval :=
  PDict [ ("Id", PInt 7); ("AccountingEntityType", PStr "Rental");
          ("Href", PStr "/rentals/7");
          ("Unit", PDict [ ("Id", PInt 70); ("Href", PStr "/units/70") ]) ].

Definition line (account_id : Z) : JournalLine.t :=
  JournalLine.Build (account account_id "Cash" (Some [])) amount true None
    "rent" entity.

Definition line_json (account_id : Z) : pyval :=
  PDict [ ("GLAccount", account_json account_id "Cash"); ("Amount", PFloat amount);
          ("IsCashPosting", PBool true); ("ReferenceNumber", PNone);
          ("Memo", PStr "rent"); ("AccountingEntity", entity_json) ].

(** A transaction with the given id and journal memo, posting one line to
    each of the given accounts. *)
Definition transaction (id : Z) (memo : string) (account_ids : list Z)
  : GeneralLedgerTransaction.t :=
  GeneralLedgerTransaction.Build id (Date 2024 1 15) "Payment" amount "101"
    (UnitAgreement.Build 5 "Lease" "/leases/5") 70 "A1"
    (PaymentDetail.Build "Check" (Some "Tenant") false None)
    (DepositDetails.Build None [])
    (Journal.Build memo (List.map line account_ids))
    (DateTime (Date 2024 1 16) 10 30 0 0).

Definition transaction_json (id : Z) (memo : string) (account_ids : list Z) : pyval :=
  PDict [ ("Id", PInt id); ("Date", PStr "2024-01-15");
          ("TransactionType", PStr "Payment"); ("TotalAmount", PFloat amount);
          ("CheckNumber", PStr "101");
          ("UnitAgreement",
            PDict [ ("Id", PInt 5); ("Type", PStr "Lease"); ("Href", PStr "/leases/5") ]);
          ("UnitId", PInt 70); ("UnitNumber", PStr "A1");
          ("PaymentDetail",
            PDict [ ("PaymentMethod", PStr "Check"); ("Payee", PStr "Tenant");
                    ("IsInternalTransaction", PBool false);
                    ("InternalTransactionStatus", PNone) ]);
          ("DepositDetails",
            PDict [ ("BankGLAccountId", PNone); ("PaymentTransactions", PList []) ]);
          ("Journal",
            PDict [ ("Memo", PStr memo);
                    ("Lines", PList (List.map line_json account_ids)) ]);
          ("LastUpdatedDateTime", PStr "2024-01-16T10:30:00") ].

(** A server that answers the first [n] calls with status 429 and every
    later call with [final]. *)
Definition limited (n : nat) (final : reply) : world :=
  World (fun k => if (k <? n)%nat then Response 429 NotJson else final) 0 [].

Definition offline : world := World (fun _ => ConnectionFailed) 0 [].

Definition empty_warehouse : warehouse :=
  Warehouse ∅ (fun _ => "2024-01-16T10:30:00") 0 (fun _ => false) [].

End Sample.

(** ** The flat records, field by field

    What the specification calls the FlatAccount of an account, the
    FlatJournalLine of a line and the FlatTransaction of a transaction. The
    transformations are not defined through these; they are shown to
    compute them. *)

Definition flatten_account (a : GeneralLedgerAccount.t) : GeneralLedgerAccountFlattened.t :=
  {| GeneralLedgerAccountFlattened.id := GeneralLedgerAccount.id a;
     GeneralLedgerAccountFlattened.account_number := GeneralLedgerAccount.account_number a;
     GeneralLedgerAccountFlattened.name := GeneralLedgerAccount.name a;
     GeneralLedgerAccountFlattened.description := GeneralLedgerAccount.description a;
     GeneralLedgerAccountFlattened.type := GeneralLedgerAccount.type a;
     GeneralLedgerAccountFlattened.sub_type := GeneralLedgerAccount.sub_type a;
     GeneralLedgerAccountFlattened.is_default_gl_account :=
       GeneralLedgerAccount.is_default_gl_account a;
     GeneralLedgerAccountFlattened.default_account_name :=
       GeneralLedgerAccount.default_account_name a;
     GeneralLedgerAccountFlattened.is_contra_account :=
       GeneralLedgerAccount.is_contra_account a;
     GeneralLedgerAccountFlattened.is_bank_account := GeneralLedgerAccount.is_bank_account a;
     GeneralLedgerAccountFlattened.cash_flow_classification :=
       GeneralLedgerAccount.cash_flow_classification a;
     GeneralLedgerAccountFlattened.exclude_from_cash_balances :=
       GeneralLedgerAccount.exclude_from_cash_balances a;
     GeneralLedgerAccountFlattened.is_active := GeneralLedgerAccount.is_active a;
     GeneralLedgerAccountFlattened.parent_gl_account_id :=
       GeneralLedgerAccount.parent_gl_account_id a |}.

Definition flatten_line (l : JournalLine.t) : JournalLineTransformed.t :=
  {| JournalLineTransformed.amount := JournalLine.amount l;
     JournalLineTransformed.is_cash_posting := JournalLine.is_cash_posting l;
     JournalLineTransformed.reference_number := JournalLine.reference_number l;
     JournalLineTransformed.memo := JournalLine.memo l;
     JournalLineTransformed.general_ledger_account_id :=
       GeneralLedgerAccount.id (JournalLine.gl_account l);
     JournalLineTransformed.accounting_entity := JournalLine.accounting_entity l |}.

Definition flatten_transaction (x : GeneralLedgerTransaction.t)
  : GeneralLedgerTransactionTransformed.t :=
  {| GeneralLedgerTransactionTransformed.id := GeneralLedgerTransaction.id x;
     GeneralLedgerTransactionTransformed.date := GeneralLedgerTransaction.date x;
     GeneralLedgerTransactionTransformed.transaction_type :=
       GeneralLedgerTransaction.transaction_type x;
     GeneralLedgerTransactionTransformed.total_amount :=
       GeneralLedgerTransaction.total_amount x;
     GeneralLedgerTransactionTransformed.check_number :=
       GeneralLedgerTransaction.check_number x;
     GeneralLedgerTransactionTransformed.unit_agreement :=
       GeneralLedgerTransaction.unit_agreement x;
     GeneralLedgerTransactionTransformed.unit_id := GeneralLedgerTransaction.unit_id x;
     GeneralLedgerTransactionTransformed.unit_number :=
       GeneralLedgerTransaction.unit_number x;
     GeneralLedgerTransactionTransformed.payment_detail :=
       GeneralLedgerTransaction.payment_detail x;
     GeneralLedgerTransactionTransformed.deposit_details :=
       GeneralLedgerTransaction.deposit_details x;
     GeneralLedgerTransactionTransformed.journal_memo :=
       Journal.memo (GeneralLedgerTransaction.journal x);
     GeneralLedgerTransactionTransformed.lines :=
       List.map flatten_line (Journal.lines (GeneralLedgerTransaction.journal x));
     GeneralLedgerTransactionTransformed.last_updated_date_time :=
       GeneralLedgerTransaction.last_updated_date_time x |}.

(** The transactions the deduplicating loop keeps, given the ids it has
    stored so far. *)
Fixpoint kept (stored_ids : gset Z) (transactions : list GeneralLedgerTransaction.t)
  : list GeneralLedgerTransaction.t :=
  match transactions with
  | [] => []
  | x :: rest =>
      if bool_decide (GeneralLedgerTransaction.id x ∈ stored_ids) then kept stored_ids rest
      else x :: kept (stored_ids ∪ {[ GeneralLedgerTransaction.id x ]}) rest
  end.

(** ** Notions used to state the properties *)

(** One pass of the outer loop: the account, then its direct sub-accounts. *)
Definition account_with_subs (a : GeneralLedgerAccount.t)
  : list GeneralLedgerAccountFlattened.t :=
  flatten_account a
    :: List.map flatten_account (default [] (GeneralLedgerAccount.sub_accounts a)).

(** The dictionary built for one journal line. *)
Definition base_line (line : JournalLine.t) : dict :=
  dict_set "general_ledger_account_id"
    (PInt (GeneralLedgerAccount.id (JournalLine.gl_account line)))
    (dict_exclude ["gl_account"] (JournalLine.model_dump line)).

(** *** Searching the payload *)

Definition field (k : string) (v : pyval) : option pyval :=
  match v with
  | PDict d => dict_lookup k d
  | _ => None
  end.

(** The line posts to the account: its [GLAccount] has an [Id] equal to the
    account id. *)
Definition line_hits (general_account_id : Z) (line : pyval) : bool :=
  match field "GLAccount" line ≫= field "Id" with
  | Some account_id => eq_int account_id general_account_id
  | None => false
  end.

Definition journal_lines (json_transaction : pyval) : list pyval :=
  match field "Journal" json_transaction ≫= field "Lines" with
  | Some (PList lines) => lines
  | _ => []
  end.

(** The transaction has at least one journal line posting to the account. *)
Definition touches (general_account_id : Z) (json_transaction : pyval) : bool :=
  existsb (line_hits general_account_id) (journal_lines json_transaction).

(** The shape the search relies on: a transaction is an object; its
    [Journal], if it has one that is not empty, is an object; the [Lines]
    of that, if not empty, are an array of objects; and the [GLAccount] of
    a line, if not empty, is an object with an [Id]. *)
Definition line_shaped (line : pyval) : bool :=
  match line with
  | PDict d =>
      match dict_lookup "GLAccount" d with
      | None => true
      | Some g =>
          negb (truthy g)
          || match g with
             | PDict account => bool_decide (is_Some (dict_lookup "Id" account))
             | _ => false
             end
      end
  | _ => false
  end.

Definition transaction_shaped (json_transaction : pyval) : bool :=
  match json_transaction with
  | PDict d =>
      match dict_lookup "Journal" d with
      | None => true
      | Some j =>
          negb (truthy j)
          || match j with
             | PDict journal =>
                 match dict_lookup "Lines" journal with
                 | None => true
                 | Some ls =>
                     negb (truthy ls)
                     || match ls with
                        | PList lines => forallb line_shaped lines
                        | _ => false
                        end
                 end
             | _ => false
             end
      end
  | _ => false
  end.

(** A payload element that touches the given account and is no valid
    transaction:
    it only has a journal with one line. *)
Definition bare_transaction_json (account_id : Z) : pyval :=
  PDict [ ("Journal",
            PDict [ ("Lines",
                      PList [ PDict [ ("GLAccount", PDict [ ("Id", PInt account_id) ]) ] ]) ]) ].

(** *** Retrying fetcher *)

Definition rate_limited (r : reply) : bool :=
  match r with
  | Response status_code _ => status_code =? 429
  | ConnectionFailed => false
  end.

(** How many of the calls [from], [from + 1], ... are answered with status
    429 before the first other answer, looking at most at [attempts] calls. *)
Fixpoint leading_rate_limits (server : nat → reply) (from attempts : nat) : nat :=
  match attempts with
  | O => O
  | S n =>
      if rate_limited (server from) then S (leading_rate_limits server (S from) n)
      else O
  end.

(** The first [k] delays of a backoff that starts at [delay] and doubles. *)
Definition backoff_delays (delay : Z) (k : nat) : list Z :=
  List.map (fun i => delay * 2 ^ Z.of_nat i) (seq 0 k).

(** What the fetch makes of the answer that is not a rate limit. *)
Definition settle (r : reply) : result json_text :=
  match r with
  | Response status_code text =>
      if (400 <=? status_code) && (status_code <? 600)
      then Raise (HTTPError status_code)
      else Ok text
  | ConnectionFailed => Raise ConnectionError
  end.

Definition retries_exhausted : exn :=
  Exception "Max retries exceeded while fetching transactions from API".

(** *** Stage-and-merge loader *)

(** The merge statement the specification describes: a target, a staging
    table read through a filter on [run_id], key columns to match on, and
    clauses for matched and unmatched rows. [render] writes it out. *)
Inductive merge_clause : Type :=
| WhenMatchedUpdate (columns : list string)
| WhenMatchedDelete
| WhenNotMatchedInsert (columns : list string).

Record merge_statement : Type := Merge {
  merge_target : string;
  merge_source : string;
  merge_keys : list string;
  merge_clauses : list merge_clause
}.

Definition key_equality (column : string) : string :=
  "target." +:+ column +:+ " = source." +:+ column.

Definition render_clause (c : merge_clause) : string :=
  match c with
  | WhenMatchedUpdate columns =>
      " WHEN MATCHED THEN UPDATE SET "
      +:+ join ", " (List.map (fun c => "target." +:+ c +:+ " = source." +:+ c) columns)
  | WhenMatchedDelete => " WHEN MATCHED THEN DELETE"
  | WhenNotMatchedInsert columns =>
      " WHEN NOT MATCHED THEN INSERT (" +:+ join ", " columns
      +:+ ") VALUES (" +:+ join ", " columns +:+ ")"
  end.

Definition render (m : merge_statement) : string :=
  "MERGE INTO " +:+ merge_target m +:+ " AS target USING (SELECT * FROM "
  +:+ merge_source m +:+ " WHERE run_id = %s) AS source ON "
  +:+ join " AND " (List.map key_equality (merge_keys m))
  +:+ String.concat "" (List.map render_clause (merge_clauses m)).

(** The state after [cursor.execute] has run a statement. *)
Definition ran (s : statement) (w : warehouse) : warehouse :=
  Warehouse (files w) (now w) (ticks w) (rejects w) (executed w ++ [s]).

(** The state after [open(path, "w")]. *)
Definition truncated (path : string) (w : warehouse) : warehouse :=
  Warehouse (<[path := []]> (files w)) (now w) (ticks w) (rejects w) (executed w).

(** ** main.py

    The script reads the two payload files, extracts, transforms, maps and
    then runs the three loaders on one connection, accounts first. The
    payloads are given as they were read; the connection is taken as
    established, and what the connection does when its [with] block is left
    is not modelled. [set_order] is the order in which Python iterates a
    set. *)
Section Main.

Variable set_order : gset Z → list Z.
Variable validate_account : pyval → option GeneralLedgerAccount.t.
Variable validate_transaction : pyval → option GeneralLedgerTransaction.t.

(** The body of the [with] block. *)
Definition load_all
    (flattened_general_ledger_accounts : list GeneralLedgerAccountFlattened.t)
    (transformed_transactions : list GeneralLedgerTransactionTransformed.t)
    (transactions_per_account : list GeneralLedgerAccountTransactions.t)
    (run_id : string) : db () :=
  _ ← load_general_ledger_accounts_into_snowflake flattened_general_ledger_accounts run_id;
  _ ← load_general_ledger_transactions_into_snowflake transformed_transactions run_id;
  load_general_ledger_account_transactions_into_snowflake transactions_per_account run_id.

Definition main (general_ledger_json_data general_ledger_transactions_json_data : json_text)
    (run_id : string) (w : world) (wh : warehouse) : result () * world * warehouse :=
  match get_general_ledger_accounts validate_account (Some general_ledger_json_data) w with
  | (Raise e, w) => (Raise e, w, wh)
  | (Ok general_ledger_accounts, w) =>
      match transform_general_ledger_accounts general_ledger_accounts with
      | Raise e => (Raise e, w, wh)
      | Ok flattened_general_ledger_accounts =>
          let general_ledger_accounts_ids :=
            set_order (list_to_set
              (List.map GeneralLedgerAccountFlattened.id flattened_general_ledger_accounts)) in
          match map_account_participation validate_transaction
                  general_ledger_accounts_ids general_ledger_transactions_json_data w with
          | (Raise e, w) => (Raise e, w, wh)
          | (Ok (transactions_per_account, all_transactions), w) =>
              match transform_general_ledger_transactions all_transactions with
              | Raise e => (Raise e, w, wh)
              | Ok transformed_transactions =>
                  let (r, wh) :=
                    load_all flattened_general_ledger_accounts transformed_transactions
                      transactions_per_account run_id wh in
                  (r, w, wh)
              end
          end
      end
  end.

End Main.

(** *** Exporting and loading *)

(** How [preprocess_row] writes a value: nested values as JSON text. *)
Definition cell_of (v : pyval) : cell :=
  match v with
  | PDict _ | PList _ => Dumped (Json v)
  | _ => Plain v
  end.

(** A value [preprocess_row] can write. *)
Definition writable (v : pyval) : bool :=
  match v with
  | PDict _ | PList _ => json_serialisable v
  | _ => true
  end.

(** The row of the CSV file for a dumped record, exported at clock reading
    [tick]. *)
Definition csv_row (now : nat → string) (run_id : string) (tick : nat) (row : dict)
  : list cell :=
  List.map (fun kv => cell_of (snd kv)) row
  ++ [Plain (PStr run_id); Plain (PStr (now tick))].

(** The rows for a list of dumped records, exported from [tick] on. *)
Fixpoint csv_rows (now : nat → string) (run_id : string) (tick : nat) (rows : list dict)
  : list (list cell) :=
  match rows with
  | [] => []
  | row :: rows' => csv_row now run_id tick row :: csv_rows now run_id (S tick) rows'
  end.

(** The three statements of [stage_file_in_snowflake]. *)
Definition stage_statements (file_name table_name : string) : list statement :=
  [ Statement "USE SCHEMA GENERAL_LEDGER_STAGING" [];
    Statement ("PUT file:///tmp/" +:+ file_name +:+ " @%" +:+ table_name
               +:+ " OVERWRITE = TRUE") [];
    Statement ("copy into " +:+ table_name +:+ " from @%" +:+ table_name +:+ "/"
               +:+ file_name
               +:+ ".gz file_format = (type = csv field_optionally_enclosed_by = '"
               +:+ dquote +:+ "' skip_header = 1 escape='\\') on_error = 'abort_statement'")
      [] ].

(** The state after the connection has run the statements. *)
Definition ran_all (ss : list statement) (w : warehouse) : warehouse :=
  Warehouse (files w) (now w) (ticks w) (rejects w) (executed w ++ ss).

(** The statements given to the connection one after the other, up to the
    first one it rejects. *)
Fixpoint execute_all (ss : list statement) : db () :=
  match ss with
  | [] => mret ()
  | s :: ss' => _ ← cursor_execute (sql s) (params s); execute_all ss'
  end.

(** The statement of [merge_staging_table_into_target_table]. *)
Definition merge_of (staging_table target_table : string) (columns : list string)
    (run_id : string) (id_matching_columns : option (list string)) : statement :=
  Statement
    (merge_query staging_table target_table columns (default ["id"] id_matching_columns))
    [run_id].

(** The statements of a list that the connection runs when it is given
    them in order: those before the first one it rejects. *)
Fixpoint accepted (rejects : statement → bool) (ss : list statement) : list statement :=
  match ss with
  | [] => []
  | s :: ss' => if rejects s then [] else s :: accepted rejects ss'
  end.

(** The outcome of giving the statements to the connection. *)
Definition outcome (rejects : statement → bool) (ss : list statement) : result () :=
  if existsb rejects ss then Raise DatabaseError else Ok ().

(** The state after a successful export of the dumped records [rows]. *)
Definition exported (file_name run_id : string) (rows : list dict) (w : warehouse)
  : warehouse :=
  Warehouse
    (<["/tmp/" +:+ file_name :=
         List.map (fun f => Plain (PStr f))
           (keys (List.hd [] rows) ++ ["run_id"; "inserted_at"])
         :: csv_rows (now w) run_id (ticks w) rows]> (files w))
    (now w) (ticks w + length rows) (rejects w) (executed w).

(** The sum of a list of delays. *)
Definition total (delays : list Z) : Z := fold_right Z.add 0 delays.

(** * Properties *)

(** Running the [result] monad one step, leaving loop bodies folded. *)
Ltac run :=
  cbn [for_each mbind result_bind mret result_ret iter_optional
       default from_option Datatypes.id].

(** ** Account flattener *)

Lemma init_dump_account (a : GeneralLedgerAccount.t) :
  GeneralLedgerAccountFlattened.init
    (dict_exclude ["sub_accounts"] (GeneralLedgerAccount.model_dump a))
  = Ok (flatten_account a).
Proof.
  destruct a as [i an n d ty st dg dn ca ba cf ex subs act par].
  destruct an, d, dn, cf, par; reflexivity.
Qed.

Lemma for_each_sub_accounts (subs : list GeneralLedgerAccount.t)
    (transformed : list GeneralLedgerAccountFlattened.t) :
  for_each subs (fun transformed sub_account =>
      flat ← GeneralLedgerAccountFlattened.init
                (dict_exclude ["sub_accounts"]
                   (GeneralLedgerAccount.model_dump sub_account));
      Ok (transformed ++ [flat])) transformed
  = Ok (transformed ++ List.map flatten_account subs).
Proof.
  revert transformed. induction subs as [|s subs IH]; intros transformed.
  - cbn. by rewrite app_nil_r.
  - run. rewrite init_dump_account. run.
    rewrite IH, <- app_assoc. reflexivity.
Qed.

Lemma transform_accounts_from (accounts : list GeneralLedgerAccount.t)
    (transformed : list GeneralLedgerAccountFlattened.t) :
  Forall (fun a => GeneralLedgerAccount.sub_accounts a ≠ None) accounts →
  for_each accounts (fun transformed account =>
    flat ← GeneralLedgerAccountFlattened.init
              (dict_exclude ["sub_accounts"] (GeneralLedgerAccount.model_dump account));
    let transformed := transformed ++ [flat] in
    subs ← iter_optional (GeneralLedgerAccount.sub_accounts account);
    for_each subs (fun transformed sub_account =>
      flat ← GeneralLedgerAccountFlattened.init
                (dict_exclude ["sub_accounts"]
                   (GeneralLedgerAccount.model_dump sub_account));
      Ok (transformed ++ [flat])) transformed) transformed
  = Ok (transformed ++ concat (List.map account_with_subs accounts)).
Proof.
  intros Hsubs. revert transformed.
  induction Hsubs as [|a accounts Ha _ IH]; intros transformed.
  - cbn. by rewrite app_nil_r.
  - run. rewrite init_dump_account. run.
    cbn [List.map concat]. unfold account_with_subs at 1.
    destruct (GeneralLedgerAccount.sub_accounts a) as [subs|]; [|done].
    run. rewrite for_each_sub_accounts. run. rewrite IH.
    rewrite <- !app_assoc. reflexivity.
Qed.

(** On accounts that all carry a list of sub-accounts (possibly empty)
    the flattener returns, for each account in turn, the account followed
    by its direct sub-accounts in their order; nothing is recursed into
    and nothing is deduplicated. *)
Lemma transform_accounts_order (accounts : list GeneralLedgerAccount.t) :
  Forall (fun a => GeneralLedgerAccount.sub_accounts a ≠ None) accounts →
  transform_general_ledger_accounts accounts
  = Ok (concat (List.map account_with_subs accounts)).
Proof.
  intros H. unfold transform_general_ledger_accounts.
  by rewrite transform_accounts_from.
Qed.

(** The loop stops with [TypeError] at the first account whose
    [sub_accounts] is [None]. *)
Lemma transform_accounts_none (before after : list GeneralLedgerAccount.t)
    (a : GeneralLedgerAccount.t) :
  Forall (fun a => GeneralLedgerAccount.sub_accounts a ≠ None) before →
  GeneralLedgerAccount.sub_accounts a = None →
  transform_general_ledger_accounts (before ++ a :: after) = Raise TypeError.
Proof.
  intros Hbefore Ha. unfold transform_general_ledger_accounts.
  cut (∀ transformed : list GeneralLedgerAccountFlattened.t,
         for_each (a :: after) (fun transformed account =>
           flat ← GeneralLedgerAccountFlattened.init
                     (dict_exclude ["sub_accounts"]
                        (GeneralLedgerAccount.model_dump account));
           let transformed := transformed ++ [flat] in
           subs ← iter_optional (GeneralLedgerAccount.sub_accounts account);
           for_each subs (fun transformed sub_account =>
             flat ← GeneralLedgerAccountFlattened.init
                       (dict_exclude ["sub_accounts"]
                          (GeneralLedgerAccount.model_dump sub_account));
             Ok (transformed ++ [flat])) transformed) transformed
         = Raise TypeError).
  { intros Hstop. generalize (@nil GeneralLedgerAccountFlattened.t) at 3.
    induction Hbefore as [|b before Hb _ IH]; intros transformed.
    - apply Hstop.
    - cbn [app]. run. rewrite init_dump_account. run.
      destruct (GeneralLedgerAccount.sub_accounts b) as [subs|]; [|done].
      run. rewrite for_each_sub_accounts. run. apply IH. }
  intros transformed. run. rewrite init_dump_account, Ha. reflexivity.
Qed.

(** C6: evaluation at the input on which the flattener departs from the
    stated contract. An account whose [sub_accounts] is [None] (the payload
    said [null]) is a well-typed input; the claim wants its flat record
    returned, the loop over its sub-accounts raises [TypeError] instead.
    With a list of sub-accounts the stated order is what is returned, also
    when the sub-accounts themselves carry [None]: they are not recursed
    into. *)
Theorem transform_accounts_null_sub_accounts :
  transform_general_ledger_accounts [Sample.account 1 "A" None] = Raise TypeError
  ∧ transform_general_ledger_accounts
      [Sample.account 1 "A" (Some [Sample.account 2 "B" None; Sample.account 3 "C" None])]
    = Ok [flatten_account (Sample.account 1 "A" None);
          flatten_account (Sample.account 2 "B" None);
          flatten_account (Sample.account 3 "C" None)].
Proof. split; reflexivity. Qed.

(** C7: an account flattened on its own. With an empty list of
    sub-accounts the result is exactly one flat account, and each of the
    fourteen fields of that record equals the field of the same name of the
    input; only [sub_accounts] has no counterpart. An account whose
    [sub_accounts] is [None] has no sub-account either (the payload said
    [null]), but for it the loop over the sub-accounts raises [TypeError]
    and no record is returned: the claim fails on this input. *)
Theorem transform_account_alone (a : GeneralLedgerAccount.t) :
  transform_general_ledger_accounts [a]
  = match GeneralLedgerAccount.sub_accounts a with
    | None => Raise TypeError
    | Some [] => Ok [flatten_account a]
    | Some (sub_account :: sub_accounts) =>
        Ok (flatten_account a :: List.map flatten_account (sub_account :: sub_accounts))
    end
  ∧ GeneralLedgerAccountFlattened.id (flatten_account a) = GeneralLedgerAccount.id a
  ∧ GeneralLedgerAccountFlattened.account_number (flatten_account a)
    = GeneralLedgerAccount.account_number a
  ∧ GeneralLedgerAccountFlattened.name (flatten_account a) = GeneralLedgerAccount.name a
  ∧ GeneralLedgerAccountFlattened.description (flatten_account a)
    = GeneralLedgerAccount.description a
  ∧ GeneralLedgerAccountFlattened.type (flatten_account a) = GeneralLedgerAccount.type a
  ∧ GeneralLedgerAccountFlattened.sub_type (flatten_account a)
    = GeneralLedgerAccount.sub_type a
  ∧ GeneralLedgerAccountFlattened.is_default_gl_account (flatten_account a)
    = GeneralLedgerAccount.is_default_gl_account a
  ∧ GeneralLedgerAccountFlattened.default_account_name (flatten_account a)
    = GeneralLedgerAccount.default_account_name a
  ∧ GeneralLedgerAccountFlattened.is_contra_account (flatten_account a)
    = GeneralLedgerAccount.is_contra_account a
  ∧ GeneralLedgerAccountFlattened.is_bank_account (flatten_account a)
    = GeneralLedgerAccount.is_bank_account a
  ∧ GeneralLedgerAccountFlattened.cash_flow_classification (flatten_account a)
    = GeneralLedgerAccount.cash_flow_classification a
  ∧ GeneralLedgerAccountFlattened.exclude_from_cash_balances (flatten_account a)
    = GeneralLedgerAccount.exclude_from_cash_balances a
  ∧ GeneralLedgerAccountFlattened.is_active (flatten_account a)
    = GeneralLedgerAccount.is_active a
  ∧ GeneralLedgerAccountFlattened.parent_gl_account_id (flatten_account a)
    = GeneralLedgerAccount.parent_gl_account_id a
  ∧ transform_general_ledger_accounts [Sample.account 1 "Main Account" None]
    = Raise TypeError
  ∧ transform_general_ledger_accounts [Sample.account 1 "Main Account" (Some [])]
    = Ok [flatten_account (Sample.account 1 "Main Account" (Some []))].
Proof.
  split; [|repeat split].
  destruct (GeneralLedgerAccount.sub_accounts a) as [sub_accounts|] eqn:Hsubs.
  - rewrite transform_accounts_order.
    + cbn. unfold account_with_subs. rewrite Hsubs, app_nil_r. by destruct sub_accounts.
    + constructor; [|constructor]. by rewrite Hsubs.
  - by apply (transform_accounts_none [] [] a).
Qed.

(** ** Transaction deduplicator and flattener *)

Lemma Forall2_map_diag {A B : Type} (P : A → B → Prop) (f : A → B) (l : list A) :
  (∀ x, P x (f x)) → Forall2 P l (List.map f l).
Proof. intros H. induction l; cbn; constructor; auto. Qed.

Lemma dict_lookup_set_eq (k : string) (v : pyval) (d : dict) :
  dict_lookup k (dict_set k v d) = Some v.
Proof.
  induction d as [|[k' v'] d IH]; cbn.
  - by rewrite String.eqb_refl.
  - destruct (String.eqb k k') eqn:E; cbn; by rewrite E.
Qed.

Lemma dict_set_set (k : string) (v v' : pyval) (d : dict) :
  dict_set k v' (dict_set k v d) = dict_set k v' d.
Proof.
  induction d as [|[k' w] d IH]; cbn.
  - by rewrite String.eqb_refl.
  - destruct (String.eqb k k') eqn:E; cbn; rewrite E; [done|]. by rewrite IH.
Qed.

Lemma dict_append_set (k : string) (v : pyval) (d : dict) (items : list pyval) :
  dict_lookup k d = Some (PList items) →
  dict_append k v d = Ok (dict_set k (PList (items ++ [v])) d).
Proof.
  induction d as [|[k' w] d IH]; cbn; [done|].
  destruct (String.eqb k k').
  - intros [= ->]. reflexivity.
  - intros H. rewrite (IH H). reflexivity.
Qed.

Lemma lines_loop (lines : list JournalLine.t) (d : dict) (items : list pyval) :
  for_each lines (fun transformed_transaction line =>
      dict_append "lines" (PDict (base_line line)) transformed_transaction)
    (dict_set "lines" (PList items) d)
  = Ok (dict_set "lines"
          (PList (items ++ List.map (fun l => PDict (base_line l)) lines)) d).
Proof.
  revert items. induction lines as [|l lines IH]; intros items.
  - cbn. by rewrite app_nil_r.
  - run. rewrite (dict_append_set _ _ _ items) by apply dict_lookup_set_eq.
    run. rewrite dict_set_set, IH. cbn [List.map].
    by rewrite <- app_assoc.
Qed.

Lemma init_base_line (line : JournalLine.t) :
  JournalLineTransformed.init (base_line line) = Ok (flatten_line line).
Proof.
  destruct line as [acc am cp rn me [ei et eh [ui uh]]].
  destruct rn; reflexivity.
Qed.

Lemma traverse_base_lines (lines : list JournalLine.t) :
  traverse (nested JournalLineTransformed.init)
    (List.map (fun l => PDict (base_line l)) lines)
  = Ok (List.map flatten_line lines).
Proof.
  induction lines as [|l lines IH]; [done|].
  cbn [List.map traverse nested]. rewrite init_base_line. run.
  rewrite IH. reflexivity.
Qed.

(** The dictionary the loop body builds for a transaction it has not seen
    is accepted by the constructor and gives the flat transaction. *)
Lemma init_transformed (x : GeneralLedgerTransaction.t) :
  GeneralLedgerTransactionTransformed.init
    (dict_set "lines"
       (PList ([] ++ List.map (fun l => PDict (base_line l))
                       (Journal.lines (GeneralLedgerTransaction.journal x))))
       (dict_set "journal_memo" (PStr (Journal.memo (GeneralLedgerTransaction.journal x)))
          (dict_exclude ["journal"] (GeneralLedgerTransaction.model_dump x))))
  = Ok (flatten_transaction x).
Proof.
  cbn [app].
  pose proof (traverse_base_lines (Journal.lines (GeneralLedgerTransaction.journal x))) as Hl.
  destruct x as [i d tt ta cn [ui ut uh] uid un [pm pe it its] [bk pt] [me ls] lu].
  unfold flatten_transaction.
  cbn [GeneralLedgerTransaction.journal Journal.lines Journal.memo
       GeneralLedgerTransaction.id GeneralLedgerTransaction.date
       GeneralLedgerTransaction.transaction_type GeneralLedgerTransaction.total_amount
       GeneralLedgerTransaction.check_number GeneralLedgerTransaction.unit_agreement
       GeneralLedgerTransaction.unit_id GeneralLedgerTransaction.unit_number
       GeneralLedgerTransaction.payment_detail GeneralLedgerTransaction.deposit_details
       GeneralLedgerTransaction.last_updated_date_time] in *.
  revert Hl.
  generalize (List.map (fun l => PDict (base_line l)) ls) as items.
  generalize (List.map flatten_line ls) as flat.
  intros flat items Hl.
  destruct pe, its, bk; cbn -[traverse]; rewrite Hl; reflexivity.
Qed.

Lemma transactions_loop (transactions : list GeneralLedgerTransaction.t)
    (results : list GeneralLedgerTransactionTransformed.t) (stored_ids : gset Z) :
  ∃ stored_ids',
    for_each transactions
      (fun (st : list GeneralLedgerTransactionTransformed.t * gset Z) transaction =>
        let '(results, stored_ids) := st in
        if bool_decide (GeneralLedgerTransaction.id transaction ∈ stored_ids) then
          Ok (results, stored_ids)
        else
          let stored_ids := stored_ids ∪ {[ GeneralLedgerTransaction.id transaction ]} in
          let journal := GeneralLedgerTransaction.journal transaction in
          let transformed_transaction :=
            dict_exclude ["journal"] (GeneralLedgerTransaction.model_dump transaction) in
          let transformed_transaction :=
            dict_set "journal_memo" (PStr (Journal.memo journal)) transformed_transaction in
          let transformed_transaction :=
            dict_set "lines" (PList []) transformed_transaction in
          transformed_transaction ←
            for_each (Journal.lines journal) (fun transformed_transaction line =>
              let base_line := dict_exclude ["gl_account"] (JournalLine.model_dump line) in
              let base_line :=
                dict_set "general_ledger_account_id"
                  (PInt (GeneralLedgerAccount.id (JournalLine.gl_account line))) base_line in
              dict_append "lines" (PDict base_line) transformed_transaction)
            transformed_transaction;
          r ← GeneralLedgerTransactionTransformed.init transformed_transaction;
          Ok (results ++ [r], stored_ids))
      (results, stored_ids)
    = Ok (results ++ List.map flatten_transaction (kept stored_ids transactions),
          stored_ids').
Proof.
  revert results stored_ids.
  induction transactions as [|x rest IH]; intros results stored_ids.
  - exists stored_ids. cbn. by rewrite app_nil_r.
  - run. cbn [kept]. case_bool_decide.
    + run. apply IH.
    + rewrite (lines_loop _ _ []). run. rewrite init_transformed. run.
      destruct (IH (results ++ [flatten_transaction x])
                  (stored_ids ∪ {[GeneralLedgerTransaction.id x]})) as [s' Hs'].
      exists s'. cbn [List.map]. rewrite <- app_assoc in Hs'. exact Hs'.
Qed.

Lemma transform_transactions_kept (transactions : list GeneralLedgerTransaction.t) :
  transform_general_ledger_transactions transactions
  = Ok (List.map flatten_transaction (kept ∅ transactions)).
Proof.
  unfold transform_general_ledger_transactions.
  destruct (transactions_loop transactions [] ∅) as [s' Hs'].
  refine (eq_trans (f_equal (fun m => m ≫= (fun st => Ok st.1)) Hs') _).
  reflexivity.
Qed.

(** The transactions kept are what a reader expects of "first occurrence
    wins". *)

Lemma kept_not_stored (stored_ids : gset Z) (transactions : list GeneralLedgerTransaction.t)
    (k : GeneralLedgerTransaction.t) :
  k ∈ kept stored_ids transactions → GeneralLedgerTransaction.id k ∉ stored_ids.
Proof.
  revert stored_ids. induction transactions as [|x rest IH]; intros stored_ids; cbn.
  - by intros ?%elem_of_nil.
  - case_bool_decide as Hx.
    + apply IH.
    + intros [->|Hk]%elem_of_cons; [done|]. apply IH in Hk. set_solver.
Qed.

Lemma kept_sublist (stored_ids : gset Z) (transactions : list GeneralLedgerTransaction.t) :
  sublist (kept stored_ids transactions) transactions.
Proof.
  revert stored_ids. induction transactions as [|x rest IH]; intros stored_ids; cbn.
  - constructor.
  - case_bool_decide; [apply sublist_cons|apply sublist_skip]; apply IH.
Qed.

Lemma kept_NoDup (stored_ids : gset Z) (transactions : list GeneralLedgerTransaction.t) :
  NoDup (List.map GeneralLedgerTransaction.id (kept stored_ids transactions)).
Proof.
  revert stored_ids. induction transactions as [|x rest IH]; intros stored_ids; cbn.
  - constructor.
  - case_bool_decide; [apply IH|]. cbn. constructor; [|apply IH].
    intros Hin. apply list_elem_of_In, in_map_iff in Hin as (k & Hid & Hk).
    apply list_elem_of_In, kept_not_stored in Hk. set_solver.
Qed.

Lemma kept_covers (stored_ids : gset Z) (transactions : list GeneralLedgerTransaction.t)
    (x : GeneralLedgerTransaction.t) :
  x ∈ transactions →
  GeneralLedgerTransaction.id x ∈ stored_ids
  ∨ ∃ k, k ∈ kept stored_ids transactions
         ∧ GeneralLedgerTransaction.id k = GeneralLedgerTransaction.id x.
Proof.
  revert stored_ids. induction transactions as [|y rest IH]; intros stored_ids.
  - by intros ?%elem_of_nil.
  - cbn. intros [->|Hx]%elem_of_cons.
    + case_bool_decide; [by left|]. right. exists y. split; [left|done].
    + case_bool_decide as Hy.
      * apply IH, Hx.
      * destruct (IH (stored_ids ∪ {[GeneralLedgerTransaction.id y]}) Hx)
          as [Hin|(k & Hk & Hid)].
        -- apply elem_of_union in Hin as [Hin|Hin%elem_of_singleton]; [by left|].
           right. exists y. split; [left|done].
        -- right. exists k. split; [by right|done].
Qed.

Lemma kept_first (stored_ids : gset Z) (transactions : list GeneralLedgerTransaction.t)
    (k : GeneralLedgerTransaction.t) :
  k ∈ kept stored_ids transactions →
  List.find (fun x => GeneralLedgerTransaction.id x =? GeneralLedgerTransaction.id k)
    transactions = Some k.
Proof.
  revert stored_ids. induction transactions as [|y rest IH]; intros stored_ids; cbn.
  - by intros ?%elem_of_nil.
  - case_bool_decide as Hy.
    + intros Hk. pose proof (kept_not_stored _ _ _ Hk) as Hks.
      destruct (Z.eqb_spec (GeneralLedgerTransaction.id y) (GeneralLedgerTransaction.id k))
        as [E|_]; [congruence|]. by apply IH in Hk.
    + intros [->|Hk]%elem_of_cons; [by rewrite Z.eqb_refl|].
      pose proof (kept_not_stored _ _ _ Hk) as Hks.
      destruct (Z.eqb_spec (GeneralLedgerTransaction.id y) (GeneralLedgerTransaction.id k))
        as [E|_]; [set_solver|]. by apply IH in Hk.
Qed.

#[local] Set Warnings "-clear-no-such-hyp".

Lemma kept_app (stored_ids : gset Z) (first rest : list GeneralLedgerTransaction.t) :
  kept stored_ids (first ++ rest)
  = kept stored_ids first
    ++ kept (stored_ids ∪ list_to_set (List.map GeneralLedgerTransaction.id first)) rest.
Proof.
  revert stored_ids. induction first as [|x first IH]; intros stored_ids.
  - cbn. f_equal. set_solver.
  - cbn [app kept List.map list_to_set]. case_bool_decide as Hin.
    + rewrite IH. do 2 f_equal. set_solver.
    + cbn [app]. rewrite IH. do 3 f_equal. set_solver.
Qed.

Lemma kept_snoc (transactions : list GeneralLedgerTransaction.t)
    (x : GeneralLedgerTransaction.t) :
  kept ∅ (transactions ++ [x])
  = kept ∅ transactions
    ++ (if bool_decide (GeneralLedgerTransaction.id x
                        ∈ List.map GeneralLedgerTransaction.id transactions)
        then [] else [x]).
Proof.
  rewrite kept_app. f_equal. cbn [kept].
  rewrite (bool_decide_ext _ (GeneralLedgerTransaction.id x
                              ∈ List.map GeneralLedgerTransaction.id transactions));
    [done|set_solver].
Qed.

(** The positions of the input at which the kept transactions stand. *)
Lemma sorted_shift (positions : list nat) :
  StronglySorted Nat.lt positions → StronglySorted Nat.lt (List.map S positions).
Proof.
  induction 1 as [|i ps Hs IH Hall]; cbn [List.map]; constructor; [done|].
  apply Forall_forall. intros j (k & <- & Hk)%list_elem_of_In%in_map_iff.
  rewrite Forall_forall in Hall. apply list_elem_of_In in Hk.
  specialize (Hall k Hk). unfold Nat.lt in *. lia.
Qed.

Lemma elem_of_shift (i : nat) (positions : list nat) :
  S i ∈ List.map S positions ↔ i ∈ positions.
Proof.
  split.
  - intros (k & [= ->] & Hk)%list_elem_of_In%in_map_iff. by apply list_elem_of_In.
  - intros Hi. apply list_elem_of_In, in_map_iff. exists i.
    split; [done|by apply list_elem_of_In].
Qed.

Lemma kept_positions (stored_ids : gset Z) (transactions : list GeneralLedgerTransaction.t) :
  ∃ positions : list nat,
    StronglySorted Nat.lt positions
    ∧ Forall2 (fun i k => transactions !! i = Some k) positions
        (kept stored_ids transactions)
    ∧ ∀ i x, transactions !! i = Some x →
        (i ∈ positions
         ↔ ((GeneralLedgerTransaction.id x ∉ stored_ids)
            ∧ ∀ j y, (j < i)%nat → transactions !! j = Some y →
                GeneralLedgerTransaction.id y ≠ GeneralLedgerTransaction.id x)).
Proof.
  revert stored_ids. induction transactions as [|x rest IH]; intros stored_ids.
  - exists []. split; [constructor|]. split; [constructor|]. intros i y Hy.
    by rewrite lookup_nil in Hy.
  - cbn [kept]. case_bool_decide as Hx.
    + destruct (IH stored_ids) as (ps & Hs & Hk & Hm). exists (List.map S ps).
      split; [by apply sorted_shift|]. split.
      { clear -Hk. induction Hk; cbn [List.map]; by constructor. }
      intros [|i] y Hy; cbn in Hy.
      * injection Hy as <-. split; [|by intros [? _]].
        by intros (k & [=] & _)%list_elem_of_In%in_map_iff.
      * rewrite elem_of_shift, (Hm i y Hy). split.
        -- intros [Hn Hbefore]. split; [done|]. intros [|j] z Hj Hz; cbn in Hz.
           ++ injection Hz as <-. congruence.
           ++ apply (Hbefore j); [lia|done].
        -- intros [Hn Hbefore]. split; [done|]. intros j z Hj Hz.
           apply (Hbefore (S j)); [lia|done].
    + destruct (IH (stored_ids ∪ {[ GeneralLedgerTransaction.id x ]}))
        as (ps & Hs & Hk & Hm).
      exists (0%nat :: List.map S ps). split.
      { constructor; [by apply sorted_shift|]. apply Forall_forall.
        intros j (k & <- & _)%list_elem_of_In%in_map_iff. unfold Nat.lt. lia. }
      split.
      { constructor; [done|]. clear -Hk. induction Hk; cbn [List.map]; by constructor. }
      intros [|i] y Hy; cbn in Hy.
      * injection Hy as <-. split; [|intros _; left].
        intros _. split; [done|]. intros j z Hj. lia.
      * rewrite elem_of_cons, elem_of_shift, (Hm i y Hy). split.
        -- intros [[=]|[Hn Hbefore]]. split; [set_solver|].
           intros [|j] z Hj Hz; cbn in Hz.
           ++ injection Hz as <-. set_solver.
           ++ apply (Hbefore j); [lia|done].
        -- intros [Hn Hbefore]. right. split.
           ++ pose proof (Hbefore 0%nat x ltac:(lia) eq_refl). set_solver.
           ++ intros j z Hj Hz. apply (Hbefore (S j)); [lia|done].
Qed.

(** C1: for every input list, [transform_general_ledger_transactions]
    returns the flat transactions of a sub-sequence [firsts] of the input
    that holds exactly one transaction per distinct id, namely the first one
    of the input with that id; its fields are the ones flattened, nothing of
    a later duplicate is used. The order is the first-seen order: [firsts]
    are the transactions standing at the positions of the input, taken in
    increasing order, before which no transaction has the same id. For
    [T(id=1,memo=orig), T(id=1,memo=dup), T(id=2)] this gives exactly two
    results, the first with id 1 and memo [orig]. *)
Theorem transform_transactions_first_occurrence_wins :
  (∀ transactions : list GeneralLedgerTransaction.t,
     ∃ (firsts : list GeneralLedgerTransaction.t)
       (out : list GeneralLedgerTransactionTransformed.t),
       transform_general_ledger_transactions transactions = Ok out
       ∧ out = List.map flatten_transaction firsts
       ∧ sublist firsts transactions
       ∧ NoDup (List.map GeneralLedgerTransactionTransformed.id out)
       ∧ (∀ x, x ∈ transactions →
            ∃ r, r ∈ out
                 ∧ GeneralLedgerTransactionTransformed.id r = GeneralLedgerTransaction.id x)
       ∧ (∀ k, k ∈ firsts →
            List.find
              (fun x => GeneralLedgerTransaction.id x =? GeneralLedgerTransaction.id k)
              transactions = Some k)
       ∧ (∃ positions : list nat,
            StronglySorted Nat.lt positions
            ∧ Forall2 (fun i k => transactions !! i = Some k) positions firsts
            ∧ ∀ i x, transactions !! i = Some x →
                (i ∈ positions
                 ↔ ∀ j y, (j < i)%nat → transactions !! j = Some y →
                     GeneralLedgerTransaction.id y ≠ GeneralLedgerTransaction.id x)))
  ∧ (∀ (transactions : list GeneralLedgerTransaction.t) (x : GeneralLedgerTransaction.t)
       (out : list GeneralLedgerTransactionTransformed.t),
       transform_general_ledger_transactions transactions = Ok out →
       transform_general_ledger_transactions (transactions ++ [x])
       = Ok (if bool_decide (GeneralLedgerTransaction.id x
                             ∈ List.map GeneralLedgerTransaction.id transactions)
             then out else out ++ [flatten_transaction x]))
  ∧ (∃ r1 r2,
       transform_general_ledger_transactions
         [Sample.transaction 1 "orig" [101]; Sample.transaction 1 "dup" [102];
          Sample.transaction 2 "other" [101]]
       = Ok [r1; r2]
       ∧ r1 = flatten_transaction (Sample.transaction 1 "orig" [101])
       ∧ GeneralLedgerTransactionTransformed.id r1 = 1
       ∧ GeneralLedgerTransactionTransformed.journal_memo r1 = "orig"
       ∧ r2 = flatten_transaction (Sample.transaction 2 "other" [101])).
Proof.
  split; [|split].
  - intros transactions.
    exists (kept ∅ transactions), (List.map flatten_transaction (kept ∅ transactions)).
    split; [apply transform_transactions_kept|].
    split; [done|]. split; [apply kept_sublist|].
    split; [rewrite List.map_map; apply kept_NoDup|].
    split; [|split; [apply kept_first|]].
    + intros x Hx. destruct (kept_covers ∅ _ _ Hx) as [Hin|(k & Hk & Hid)]; [set_solver|].
      exists (flatten_transaction k). split; [|exact Hid].
      by apply list_elem_of_In, in_map, list_elem_of_In.
    + destruct (kept_positions ∅ transactions) as (ps & Hs & Hk & Hm).
      exists ps. split; [done|]. split; [done|]. intros i x Hx.
      rewrite (Hm i x Hx). split; [by intros [_ ?]|]. intros Hbefore. split; [set_solver|done].
  - intros transactions x out Hout. rewrite transform_transactions_kept in Hout.
    injection Hout as <-. rewrite transform_transactions_kept, kept_snoc.
    case_bool_decide; [by rewrite app_nil_r|by rewrite List.map_app].
  - eexists _, _. split; [reflexivity|]. repeat split.
Qed.

(** C2: each transaction the loop processes (the kept ones, in order)
    gives an output whose [journal_memo] is the journal's memo and whose
    lines match the journal's lines one to one and in order: line [i] takes
    its account id from the embedded account of journal line [i] and copies
    every other field; the output line type has no field for the embedded
    account. An empty journal gives empty lines, and the function returns
    normally. *)
Theorem transform_transactions_journal_flattened :
  ∀ transactions : list GeneralLedgerTransaction.t,
    ∃ out : list GeneralLedgerTransactionTransformed.t,
      transform_general_ledger_transactions transactions = Ok out
      ∧ Forall2 (fun x r =>
          let journal := GeneralLedgerTransaction.journal x in
          GeneralLedgerTransactionTransformed.journal_memo r = Journal.memo journal
          ∧ length (GeneralLedgerTransactionTransformed.lines r)
            = length (Journal.lines journal)
          ∧ Forall2 (fun line flat =>
              JournalLineTransformed.general_ledger_account_id flat
                = GeneralLedgerAccount.id (JournalLine.gl_account line)
              ∧ JournalLineTransformed.amount flat = JournalLine.amount line
              ∧ JournalLineTransformed.is_cash_posting flat = JournalLine.is_cash_posting line
              ∧ JournalLineTransformed.reference_number flat
                = JournalLine.reference_number line
              ∧ JournalLineTransformed.memo flat = JournalLine.memo line
              ∧ JournalLineTransformed.accounting_entity flat
                = JournalLine.accounting_entity line)
              (Journal.lines journal) (GeneralLedgerTransactionTransformed.lines r)
          ∧ (Journal.lines journal = [] → GeneralLedgerTransactionTransformed.lines r = []))
        (kept ∅ transactions) out.
Proof.
  intros transactions.
  exists (List.map flatten_transaction (kept ∅ transactions)).
  split; [apply transform_transactions_kept|].
  apply Forall2_map_diag. intros x. cbn.
  split; [done|]. split; [by rewrite length_map|]. split.
  - apply Forall2_map_diag. intros line. repeat split.
  - by intros ->.
Qed.

(** ** Searching the payload *)

Lemma search_lines_shaped (lines : list pyval) (json_transaction : pyval)
    (general_account_id : Z) (result_ : list pyval) :
  forallb line_shaped lines = true →
  search_lines lines json_transaction general_account_id result_
  = Ok (if existsb (line_hits general_account_id) lines
        then result_ ++ [json_transaction] else result_).
Proof.
  induction lines as [|line lines IH]; [done|].
  cbn [forallb existsb]. intros [Hline Hlines]%andb_prop. specialize (IH Hlines).
  destruct line as [| | | | | | | |d]; try discriminate Hline.
  cbn [search_lines get mbind result_bind]. unfold line_hits at 1.
  cbn [line_shaped field] in *.
  destruct (dict_lookup "GLAccount" d) as [g|] eqn:Hg;
    cbn [default from_option Datatypes.id mbind option_bind].
  - destruct (truthy g) eqn:Ht; cbn [negb orb] in *.
    + destruct g as [| | | | | | | |account]; try discriminate Hline.
      apply bool_decide_eq_true in Hline as [i Hi].
      cbn [getitem mbind result_bind field]. rewrite Hg. cbn [getitem mbind result_bind].
      rewrite Hi. cbn [mbind result_bind].
      destruct (eq_int i general_account_id); [done|exact IH].
    + rewrite IH.
      destruct g as [| | | | | | | |account]; cbn [field]; try reflexivity.
      destruct account; [reflexivity|discriminate Ht].
  - cbn [truthy negb]. exact IH.
Qed.

Lemma falsy_has_no_field (v : pyval) (k : string) :
  truthy v = false → field k v = None.
Proof. destruct v as [| | | | | | | |[|? ?]]; cbn; done. Qed.

Lemma search_item (json_transaction : pyval) (general_account_id : Z)
    (result_ : list pyval) :
  transaction_shaped json_transaction = true →
  (j ← get json_transaction "Journal";
   if negb (truthy j) then Ok result_
   else
     journal ← getitem json_transaction "Journal";
     ls ← get journal "Lines";
     if negb (truthy ls) then Ok result_
     else
       lines ← getitem journal "Lines" ≫= iter;
       search_lines lines json_transaction general_account_id result_)
  = Ok (if touches general_account_id json_transaction
        then result_ ++ [json_transaction] else result_).
Proof.
  intros Hshape. unfold touches, journal_lines.
  destruct json_transaction as [| | | | | | | |d]; try discriminate Hshape.
  cbn [transaction_shaped get getitem field mbind result_bind] in *.
  destruct (dict_lookup "Journal" d) as [j|] eqn:Hj;
    cbn [default from_option Datatypes.id mbind option_bind truthy negb]; [|done].
  destruct (truthy j) eqn:Htj; cbn [negb orb] in *.
  2:{ by rewrite (falsy_has_no_field _ _ Htj). }
  destruct j as [| | | | | | | |journal]; try discriminate Hshape.
  cbn [get getitem field mbind result_bind].
  destruct (dict_lookup "Lines" journal) as [ls|] eqn:Hls;
    cbn [default from_option Datatypes.id mbind option_bind truthy negb]; [|done].
  destruct (truthy ls) eqn:Htls; cbn [negb orb] in *.
  2:{ destruct ls as [| | | | | | |[|? ?]|]; done. }
  destruct ls as [| | | | | | |lines|]; try discriminate Hshape.
  cbn [iter mbind result_bind]. by apply search_lines_shaped.
Qed.

Lemma search_loop (items : list pyval) (general_account_id : Z) (result_ : list pyval) :
  forallb transaction_shaped items = true →
  for_each items (fun result_ json_transaction =>
    j ← get json_transaction "Journal";
    if negb (truthy j) then Ok result_
    else
      journal ← getitem json_transaction "Journal";
      ls ← get journal "Lines";
      if negb (truthy ls) then Ok result_
      else
        lines ← getitem journal "Lines" ≫= iter;
        search_lines lines json_transaction general_account_id result_) result_
  = Ok (result_ ++ List.filter (touches general_account_id) items).
Proof.
  revert result_. induction items as [|x items IH]; intros result_.
  - intros _. cbn. by rewrite app_nil_r.
  - cbn [forallb]. intros [Hx Hitems]%andb_prop.
    cbn [for_each]. rewrite (search_item _ _ _ Hx). cbn [mbind result_bind].
    rewrite (IH _ Hitems). cbn [List.filter].
    destruct (touches general_account_id x); [|done].
    by rewrite <- app_assoc.
Qed.

Lemma serialisable_filter (f : pyval → bool) (items : list pyval) :
  json_serialisable (PList items) = true →
  json_serialisable (PList (List.filter f items)) = true.
Proof.
  cbn [json_serialisable]. induction items as [|x items IH]; [done|].
  cbn [forallb List.filter]. intros [Hx Hitems]%andb_prop.
  destruct (f x); cbn [forallb]; [rewrite Hx|]; auto.
Qed.

(** On a payload that is an array of transaction-shaped JSON values the
    search returns the transactions touching the account, in payload
    order, each once. *)
Lemma transactions_json_search_filter (items : list pyval) (general_account_id : Z) :
  json_serialisable (PList items) = true →
  forallb transaction_shaped items = true →
  transactions_json_search (PList items) general_account_id
  = Ok (Json (PList (List.filter (touches general_account_id) items))).
Proof.
  intros Hjson Hshape. unfold transactions_json_search.
  cbn [iter mbind result_bind]. rewrite (search_loop _ _ _ Hshape).
  cbn [mbind result_bind app]. unfold json_dumps.
  by rewrite serialisable_filter.
Qed.

Section ExtractProperties.

Variable validate_account : pyval → option GeneralLedgerAccount.t.
Variable validate_transaction : pyval → option GeneralLedgerTransaction.t.

Lemma get_transactions_zero (start_date end_date : option date)
    (json_data : option json_text) (w : world) :
  get_general_ledger_transactions validate_transaction 0 start_date end_date json_data w
  = (Raise ValueError, w).
Proof. reflexivity. Qed.

(** Validation of a list whose items are all accepted. *)
Lemma traverse_accepted {M : Type} (validate_item : pyval → option M)
    (of_json : pyval → M) (items : list pyval) :
  (∀ v, v ∈ items → validate_item v = Some (of_json v)) →
  traverse (fun v => match validate_item v with
                     | Some m => Ok m
                     | None => Raise ValidationError
                     end) items
  = Ok (List.map of_json items).
Proof.
  induction items as [|x items IH]; intros H; [done|].
  cbn [traverse List.map]. rewrite (H x) by left.
  cbn [mbind result_bind]. rewrite IH; [done|].
  intros v Hv. apply H. by right.
Qed.

(** Validation of a list with an item that is not accepted. *)
Lemma traverse_rejected {M : Type} (validate_item : pyval → option M)
    (items : list pyval) (bad : pyval) :
  bad ∈ items → validate_item bad = None →
  traverse (fun v => match validate_item v with
                     | Some m => Ok m
                     | None => Raise ValidationError
                     end) items
  = Raise ValidationError.
Proof.
  intros Hin Hbad. induction items as [|x items IH]; [by apply elem_of_nil in Hin|].
  cbn [traverse]. apply elem_of_cons in Hin as [<-|Hin].
  - by rewrite Hbad.
  - destruct (validate_item x); [|done]. cbn [mbind result_bind].
    by rewrite (IH Hin).
Qed.

(** The offline fetch for a non-zero account id. *)
Lemma get_transactions_offline (general_account_id : Z) (items : list pyval)
    (w : world) :
  general_account_id ≠ 0 →
  json_serialisable (PList items) = true →
  forallb transaction_shaped items = true →
  get_general_ledger_transactions validate_transaction general_account_id None None
    (Some (Json (PList items))) w
  = (GeneralLedgerTransactions_validate_json validate_transaction
       (Json (PList (List.filter (touches general_account_id) items))), w).
Proof.
  intros Hid Hjson Hshape. unfold get_general_ledger_transactions.
  cbn [truthy]. destruct (Z.eqb_spec general_account_id 0) as [|_]; [done|].
  cbn [negb]. unfold fetch_transactions_from_json. cbn [json_loads mbind result_bind].
  rewrite (transactions_json_search_filter _ _ Hjson Hshape). reflexivity.
Qed.

End ExtractProperties.

(** ** Participation mapper *)

Section ParticipationProperties.

Variable validate_transaction : pyval → option GeneralLedgerTransaction.t.

Lemma participation_rows_fold (account_id : Z)
    (transactions : list GeneralLedgerTransaction.t)
    (rows : list GeneralLedgerAccountTransactions.t) :
  fold_left (fun acc transaction =>
    acc ++ [GeneralLedgerAccountTransactions.Build account_id
              (GeneralLedgerTransaction.id transaction)]) transactions rows
  = rows ++ List.map (fun transaction =>
              GeneralLedgerAccountTransactions.Build account_id
                (GeneralLedgerTransaction.id transaction)) transactions.
Proof.
  revert rows. induction transactions as [|x rest IH]; intros rows; cbn.
  - by rewrite app_nil_r.
  - by rewrite IH, <- app_assoc.
Qed.

(** The offline fetch never touches the world. *)
Lemma get_transactions_offline_world (general_account_id : Z) (payload : json_text)
    (w : world) :
  get_general_ledger_transactions validate_transaction general_account_id None None
    (Some payload) w
  = ((get_general_ledger_transactions validate_transaction general_account_id None None
        (Some payload) w).1, w).
Proof.
  unfold get_general_ledger_transactions.
  destruct (negb (truthy (PInt general_account_id))); [done|].
  unfold mbind, io_bind, lift.
  destruct (fetch_transactions_from_json payload general_account_id); done.
Qed.

(** One pass of the loop, for an account whose fetch succeeds. *)
Lemma participation_step (account_id : Z) (payload : json_text)
    (transactions : list GeneralLedgerTransaction.t) (w : world)
    (rows : list GeneralLedgerAccountTransactions.t)
    (all_transactions : list GeneralLedgerTransaction.t) :
  (get_general_ledger_transactions validate_transaction account_id None None
     (Some payload) w).1 = Ok transactions →
  (transactions ←
     get_general_ledger_transactions validate_transaction account_id None None
       (Some payload);
   match transactions with
   | [] => mret (rows, all_transactions)
   | _ =>
       mret (fold_left (fun acc transaction =>
               acc ++ [GeneralLedgerAccountTransactions.Build account_id
                         (GeneralLedgerTransaction.id transaction)]) transactions rows,
             all_transactions ++ transactions)
   end) w
  = (Ok (rows ++ List.map (fun transaction =>
                   GeneralLedgerAccountTransactions.Build account_id
                     (GeneralLedgerTransaction.id transaction)) transactions,
         all_transactions ++ transactions), w).
Proof.
  intros Hget. unfold mbind at 1, io_bind.
  rewrite get_transactions_offline_world, Hget.
  destruct transactions as [|x rest].
  - cbn. by rewrite !app_nil_r.
  - rewrite participation_rows_fold. reflexivity.
Qed.

Lemma participation_loop (ids : list Z) (payload : json_text) (w : world)
    (fetched : Z → list GeneralLedgerTransaction.t)
    (rows : list GeneralLedgerAccountTransactions.t)
    (all_transactions : list GeneralLedgerTransaction.t) :
  (∀ a, a ∈ ids →
     (get_general_ledger_transactions validate_transaction a None None
        (Some payload) w).1 = Ok (fetched a)) →
  for_each_io ids
    (fun (st : list GeneralLedgerAccountTransactions.t
               * list GeneralLedgerTransaction.t) account_id =>
      let '(transactions_per_account, all_transactions) := st in
      transactions ←
        get_general_ledger_transactions validate_transaction account_id None None
          (Some payload);
      match transactions with
      | [] => mret (transactions_per_account, all_transactions)
      | _ =>
          let all_transactions := all_transactions ++ transactions in
          let transactions_per_account :=
            fold_left (fun acc transaction =>
              acc ++ [GeneralLedgerAccountTransactions.Build account_id
                        (GeneralLedgerTransaction.id transaction)])
              transactions transactions_per_account in
          mret (transactions_per_account, all_transactions)
      end)
    (rows, all_transactions) w
  = (Ok (rows ++ concat (List.map (fun a =>
                    List.map (fun transaction =>
                      GeneralLedgerAccountTransactions.Build a
                        (GeneralLedgerTransaction.id transaction)) (fetched a)) ids),
         all_transactions ++ concat (List.map fetched ids)), w).
Proof.
  revert rows all_transactions.
  induction ids as [|a ids IH]; intros rows all_transactions Hfetch.
  - cbn. by rewrite !app_nil_r.
  - cbn [for_each_io]. unfold mbind at 1, io_bind at 1.
    pose proof (participation_step a payload (fetched a) w rows all_transactions
                  (Hfetch a ltac:(left))) as Hstep.
    cbv zeta. cbv zeta in Hstep. rewrite Hstep.
    rewrite IH by (intros b Hb; apply Hfetch; by right).
    cbn [List.map concat]. by rewrite <- !app_assoc.
Qed.

End ParticipationProperties.

(** Non-zero account ids and a payload that is a JSON array of
    transaction-shaped values whose elements touching a listed account all
    validate: the mapper returns normally, with the rows account by account
    in visiting order and the accumulated transactions in the same order. *)
Lemma participation_rows_per_account
    (validate_transaction : pyval → option GeneralLedgerTransaction.t)
    (of_json : pyval → GeneralLedgerTransaction.t)
    (ids : list Z) (items : list pyval) (w : world) :
  0 ∉ ids →
  json_serialisable (PList items) = true →
  forallb transaction_shaped items = true →
  (∀ a v, a ∈ ids → v ∈ items → touches a v = true →
          validate_transaction v = Some (of_json v)) →
  map_account_participation validate_transaction ids (Json (PList items)) w
  = (Ok (concat (List.map (fun a =>
                   List.map (fun v =>
                     GeneralLedgerAccountTransactions.Build a
                       (GeneralLedgerTransaction.id (of_json v)))
                     (List.filter (touches a) items)) ids),
         concat (List.map (fun a =>
                   List.map of_json (List.filter (touches a) items)) ids)), w).
Proof.
  intros Hzero Hjson Hshape Hvalid. unfold map_account_participation.
  rewrite (participation_loop validate_transaction ids (Json (PList items)) w
             (fun a => List.map of_json (List.filter (touches a) items))).
  - cbn [app]. do 2 f_equal. f_equal. f_equal.
    apply List.map_ext. intros a. by rewrite List.map_map.
  - intros a Ha. rewrite get_transactions_offline; [|set_solver|done|done].
    cbn [fst]. unfold GeneralLedgerTransactions_validate_json, validate_json.
    apply traverse_accepted. intros v Hv.
    apply list_elem_of_In, filter_In in Hv as [Hv Ht].
    apply (Hvalid a); [done|by apply list_elem_of_In|done].
Qed.

(** C3: evaluation at the input on which the mapper departs from the
    stated contract. For the account id 0 the mapper raises [ValueError]
    whatever the payload, so also when no transaction of the payload touches
    account 0 (the empty payload for one): [get_general_ledger_transactions]
    takes the id 0 for a missing id. Any other account id that no element of
    a well-formed payload touches gives no row, no transaction and no error;
    and for non-zero ids and a well-formed payload whose matching elements
    validate, the rows are, account by account in visiting order, one row
    [{account_id, transaction_id}] for each payload element with a journal
    line whose GLAccount Id equals the account id, in payload order, the
    accumulated transactions being the validated elements in the same order,
    so that an element touching two listed accounts appears once for each. *)
Theorem participation_zero_matches
    (validate_transaction : pyval → option GeneralLedgerTransaction.t) (w : world) :
  (∀ payload,
     map_account_participation validate_transaction [0] payload w = (Raise ValueError, w))
  ∧ map_account_participation validate_transaction [0] (Json (PList [])) w
    = (Raise ValueError, w)
  ∧ (∀ a items,
       a ≠ 0 →
       json_serialisable (PList items) = true →
       forallb transaction_shaped items = true →
       List.filter (touches a) items = [] →
       map_account_participation validate_transaction [a] (Json (PList items)) w
       = (Ok ([], []), w))
  ∧ (∀ (of_json : pyval → GeneralLedgerTransaction.t) ids items,
       0 ∉ ids →
       json_serialisable (PList items) = true →
       forallb transaction_shaped items = true →
       (∀ a v, a ∈ ids → v ∈ items → touches a v = true →
               validate_transaction v = Some (of_json v)) →
       map_account_participation validate_transaction ids (Json (PList items)) w
       = (Ok (concat (List.map (fun a =>
                        List.map (fun v =>
                          GeneralLedgerAccountTransactions.Build a
                            (GeneralLedgerTransaction.id (of_json v)))
                          (List.filter (touches a) items)) ids),
              concat (List.map (fun a =>
                        List.map of_json (List.filter (touches a) items)) ids)), w)).
Proof.
  split; [reflexivity|]. split; [reflexivity|]. split.
  - intros a items Ha Hjson Hshape Hnone.
    rewrite (participation_rows_per_account validate_transaction
               (fun _ => Sample.transaction 0 "" []) [a] items w);
      [|set_solver|done|done|].
    + cbn [List.map concat]. by rewrite Hnone.
    + intros b v Hb%list_elem_of_singleton Hv Ht. subst b.
      assert (Hin : In v (List.filter (touches a) items)).
      { apply filter_In. split; [by apply list_elem_of_In|done]. }
      by rewrite Hnone in Hin.
  - intros of_json ids items. apply participation_rows_per_account.
Qed.

Lemma participation_zero_matches_witness :
  map_account_participation Strict.validate_transaction [101; 102; 103]
    (Json (PList [Sample.transaction_json 1 "a" [101; 102];
                  Sample.transaction_json 2 "b" [102; 102]])) Sample.offline
  = (Ok ([GeneralLedgerAccountTransactions.Build 101 1;
          GeneralLedgerAccountTransactions.Build 102 1;
          GeneralLedgerAccountTransactions.Build 102 2],
         [Sample.transaction 1 "a" [101; 102];
          Sample.transaction 1 "a" [101; 102];
          Sample.transaction 2 "b" [102; 102]]), Sample.offline).
Proof.
  rewrite (proj2 (proj2 (proj2 (participation_zero_matches Strict.validate_transaction
                                  Sample.offline)))
             (fun v => default (Sample.transaction 0 "" [])
                         (Strict.validate_transaction v))).
  - vm_compute. reflexivity.
  - intros H. repeat (apply elem_of_cons in H as [H|H]; [discriminate H|]).
    by apply elem_of_nil in H.
  - vm_compute. reflexivity.
  - vm_compute. reflexivity.
  - intros a v _ Hv _.
    repeat (apply elem_of_cons in Hv as [->|Hv]; [vm_compute; reflexivity|]).
    by apply elem_of_nil in Hv.
Defined.

Section ZeroAccount.

Variable validate_transaction : pyval → option GeneralLedgerTransaction.t.

Lemma participation_aborts_from (ids : list Z) (payload : json_text) (w : world)
    (st : list GeneralLedgerAccountTransactions.t * list GeneralLedgerTransaction.t) :
  0 ∈ ids →
  ∃ e,
    for_each_io ids
      (fun (st : list GeneralLedgerAccountTransactions.t
                 * list GeneralLedgerTransaction.t) account_id =>
        let '(transactions_per_account, all_transactions) := st in
        transactions ←
          get_general_ledger_transactions validate_transaction account_id None None
            (Some payload);
        match transactions with
        | [] => mret (transactions_per_account, all_transactions)
        | _ =>
            let all_transactions := all_transactions ++ transactions in
            let transactions_per_account :=
              fold_left (fun acc transaction =>
                acc ++ [GeneralLedgerAccountTransactions.Build account_id
                          (GeneralLedgerTransaction.id transaction)])
                transactions transactions_per_account in
            mret (transactions_per_account, all_transactions)
        end) st w
    = (Raise e, w).
Proof.
  revert st. induction ids as [|a ids IH]; intros [rows txs] Hin.
  - by apply elem_of_nil in Hin.
  - cbn [for_each_io]. unfold mbind at 1, io_bind at 1.
    unfold mbind at 1, io_bind at 1.
    rewrite get_transactions_offline_world.
    destruct (get_general_ledger_transactions validate_transaction a None None
                (Some payload) w).1 as [transactions|e] eqn:Hget.
    + apply elem_of_cons in Hin as [<-|Hin].
      { by rewrite get_transactions_zero in Hget. }
      destruct transactions as [|x rest]; cbn [mret io_ret]; by apply IH.
    + by exists e.
Qed.

Lemma participation_first_failure (before after : list Z) (a : Z) (e : exn)
    (payload : json_text) (w : world) :
  (∀ b, b ∈ before →
     is_ok (get_general_ledger_transactions validate_transaction b None None
              (Some payload) w).1 = true) →
  (get_general_ledger_transactions validate_transaction a None None
     (Some payload) w).1 = Raise e →
  map_account_participation validate_transaction (before ++ a :: after) payload w
  = (Raise e, w).
Proof.
  intros Hbefore Ha. unfold map_account_participation.
  generalize (@nil GeneralLedgerAccountTransactions.t, @nil GeneralLedgerTransaction.t).
  induction before as [|b before IH]; intros [rows txs].
  - cbn [app for_each_io]. unfold mbind at 1, io_bind at 1.
    unfold mbind at 1, io_bind at 1.
    by rewrite get_transactions_offline_world, Ha.
  - cbn [app for_each_io]. unfold mbind at 1, io_bind at 1.
    unfold mbind at 1, io_bind at 1.
    rewrite get_transactions_offline_world.
    pose proof (Hbefore b ltac:(left)) as Hb.
    destruct (get_general_ledger_transactions validate_transaction b None None
                (Some payload) w).1 as [transactions|e']; [|discriminate Hb].
    destruct transactions as [|x rest]; cbn [mret io_ret];
      apply IH; intros c Hc; apply Hbefore; by right.
Qed.

(** C10: a set of account ids that contains 0 makes the mapper abort
    with the [ValueError] that [get_general_ledger_transactions] raises for
    the falsy id 0, although 0 is a well-typed account id: so it is for
    every payload that is a JSON array of transaction-shaped values whose
    elements touching a listed account validate, wherever 0 stands in the
    visiting order. In general the mapper stops at the first id whose fetch
    fails, with exactly that id's exception: with [ValueError] at id 0
    whenever every id visited before it is fetched and validated without
    error, and with the exception of an earlier id if that one fails; in
    every case a set containing 0 makes the mapper abort. *)
Theorem participation_zero_account (w : world) :
  (∀ start_date end_date json_data,
     get_general_ledger_transactions validate_transaction 0 start_date end_date
       json_data w = (Raise ValueError, w))
  ∧ (∀ (of_json : pyval → GeneralLedgerTransaction.t) ids items,
       0 ∈ ids →
       json_serialisable (PList items) = true →
       forallb transaction_shaped items = true →
       (∀ a v, a ∈ ids → v ∈ items → touches a v = true →
               validate_transaction v = Some (of_json v)) →
       map_account_participation validate_transaction ids (Json (PList items)) w
       = (Raise ValueError, w))
  ∧ (∀ payload ids, 0 ∈ ids →
       ∃ e, map_account_participation validate_transaction ids payload w = (Raise e, w))
  ∧ (∀ payload before after,
       (∀ a, a ∈ before →
          is_ok (get_general_ledger_transactions validate_transaction a None None
                   (Some payload) w).1 = true) →
       map_account_participation validate_transaction (before ++ 0 :: after) payload w
       = (Raise ValueError, w))
  ∧ (∀ payload before a after e,
       (∀ b, b ∈ before →
          is_ok (get_general_ledger_transactions validate_transaction b None None
                   (Some payload) w).1 = true) →
       (get_general_ledger_transactions validate_transaction a None None
          (Some payload) w).1 = Raise e →
       map_account_participation validate_transaction (before ++ a :: after) payload w
       = (Raise e, w)).
Proof.
  split; [intros; apply get_transactions_zero|].
  split; [|split; [|split]].
  - intros of_json ids items Hin Hjson Hshape Hvalid.
    apply list_elem_of_split_l in Hin as (before & after & -> & Hfresh).
    apply participation_first_failure; [|by rewrite get_transactions_zero].
    intros a Ha. assert (a ≠ 0) by (by intros ->).
    rewrite get_transactions_offline by done. cbn [fst].
    unfold GeneralLedgerTransactions_validate_json, validate_json.
    rewrite (traverse_accepted validate_transaction of_json); [done|].
    intros v Hv. apply list_elem_of_In, filter_In in Hv as [Hv Ht].
    apply (Hvalid a); [set_solver|by apply list_elem_of_In|done].
  - intros payload ids Hin. by apply participation_aborts_from.
  - intros payload before after Hbefore.
    apply participation_first_failure; [done|by rewrite get_transactions_zero].
  - intros payload before a after e. apply participation_first_failure.
Qed.

End ZeroAccount.

Lemma participation_zero_account_witness :
  map_account_participation Strict.validate_transaction [8; 0]
    (Json (PList [Sample.transaction_json 1 "a" [8; 102]])) Sample.offline
  = (Raise ValueError, Sample.offline).
Proof.
  apply (proj1 (proj2 (participation_zero_account Strict.validate_transaction
                         Sample.offline))
           (fun v => default (Sample.transaction 0 "" [])
                       (Strict.validate_transaction v))).
  - set_solver.
  - vm_compute. reflexivity.
  - vm_compute. reflexivity.
  - intros a v _ Hv _.
    repeat (apply elem_of_cons in Hv as [->|Hv]; [vm_compute; reflexivity|]).
    by apply elem_of_nil in Hv.
Defined.

(** ** Validation is all or nothing *)

(** C8: if any element of the collection given to
    [get_general_ledger_accounts] fails validation, the call raises
    [ValidationError] and returns no list at all, whether the payload was
    passed in or fetched; the validation step of the transactions behaves
    the same on the collection it is given, and so does
    [get_general_ledger_transactions] when an element that passes the
    account filter fails validation. *)
Theorem validation_all_or_nothing
    (validate_account : pyval → option GeneralLedgerAccount.t)
    (validate_transaction : pyval → option GeneralLedgerTransaction.t)
    (items : list pyval) (bad : pyval) (w : world) :
  bad ∈ items →
  (validate_account bad = None →
     get_general_ledger_accounts validate_account (Some (Json (PList items))) w
     = (Raise ValidationError, w)
     ∧ (∀ status_code,
          server w (calls w) = Response status_code (Json (PList items)) →
          raise_for_status status_code = Ok () →
          (get_general_ledger_accounts validate_account None w).1 = Raise ValidationError))
  ∧ (validate_transaction bad = None →
       GeneralLedgerTransactions_validate_json validate_transaction (Json (PList items))
       = Raise ValidationError
       ∧ (∀ general_account_id,
            general_account_id ≠ 0 →
            json_serialisable (PList items) = true →
            forallb transaction_shaped items = true →
            touches general_account_id bad = true →
            get_general_ledger_transactions validate_transaction general_account_id
              None None (Some (Json (PList items))) w
            = (Raise ValidationError, w))).
Proof.
  intros Hin. split; intros Hbad.
  - split.
    + unfold get_general_ledger_accounts, GeneralLedgerAccounts_validate_json, validate_json.
      unfold mbind, io_bind, mret, io_ret, lift.
      by rewrite (traverse_rejected _ _ _ Hin Hbad).
    + intros status_code Hreply Hstatus.
      unfold get_general_ledger_accounts, GeneralLedgerAccounts_validate_json, validate_json.
      unfold mbind, io_bind, mret, io_ret, requests_get, lift.
      rewrite Hreply, Hstatus. cbn [fst].
      by rewrite (traverse_rejected _ _ _ Hin Hbad).
  - split.
    + unfold GeneralLedgerTransactions_validate_json, validate_json.
      by rewrite (traverse_rejected _ _ _ Hin Hbad).
    + intros a Ha Hjson Hshape Htouch.
      rewrite get_transactions_offline by done.
      unfold GeneralLedgerTransactions_validate_json, validate_json.
      rewrite (traverse_rejected _ _ bad); [done| |done].
      apply list_elem_of_In, filter_In. split; [by apply list_elem_of_In|done].
Qed.

(** A collection with one well-formed and one malformed record: no partial
    list. *)
Lemma validation_all_or_nothing_witness :
  get_general_ledger_accounts Strict.validate_account
    (Some (Json (PList [Sample.account_json 1 "Cash"; PDict [("Id", PInt 2)]])))
    Sample.offline
  = (Raise ValidationError, Sample.offline)
  ∧ Strict.validate_account (Sample.account_json 1 "Cash")
    = Some (Sample.account 1 "Cash" (Some []))
  ∧ GeneralLedgerTransactions_validate_json Strict.validate_transaction
      (Json (PList [Sample.transaction_json 1 "a" [101]; bare_transaction_json 101]))
    = Raise ValidationError.
Proof.
  split; [|split; [vm_compute; reflexivity|]].
  - refine (proj1 (proj1 (validation_all_or_nothing Strict.validate_account
                            Strict.validate_transaction
                            [Sample.account_json 1 "Cash"; PDict [("Id", PInt 2)]]
                            (PDict [("Id", PInt 2)]) Sample.offline _) _)).
    + right. left.
    + vm_compute. reflexivity.
  - refine (proj1 (proj2 (validation_all_or_nothing Strict.validate_account
                            Strict.validate_transaction
                            [Sample.transaction_json 1 "a" [101]; bare_transaction_json 101]
                            (bare_transaction_json 101) Sample.offline _) _)).
    + right. left.
    + vm_compute. reflexivity.
Defined.

(** ** Retrying fetcher *)

Lemma backoff_delays_S (delay : Z) (k : nat) :
  backoff_delays delay (S k) = delay :: backoff_delays (delay * 2) k.
Proof.
  unfold backoff_delays. cbn [seq List.map]. f_equal.
  - cbn. lia.
  - rewrite <- seq_shift, List.map_map. apply List.map_ext. intros i.
    rewrite Nat2Z.inj_succ, Z.pow_succ_r by lia. lia.
Qed.

Lemma leading_rate_limits_all (server : nat → reply) (from attempts : nat) :
  leading_rate_limits server from attempts = attempts
  ↔ ∀ i, (i < attempts)%nat → rate_limited (server (from + i)%nat) = true.
Proof.
  revert from. induction attempts as [|n IH]; intros from; cbn.
  - split; [intros _ i Hi; lia|done].
  - destruct (rate_limited (server from)) eqn:E.
    + split.
      * intros [= Hn] i Hi. destruct i as [|i]; [by rewrite Nat.add_0_r|].
        replace (from + S i)%nat with (S from + i)%nat by lia.
        apply (proj1 (IH (S from)) Hn). lia.
      * intros H. f_equal. apply IH. intros i Hi.
        replace (S from + i)%nat with (from + S i)%nat by lia. apply H. lia.
    + split; [done|]. intros H. specialize (H 0%nat ltac:(lia)).
      rewrite Nat.add_0_r in H. congruence.
Qed.

Lemma fetch_loop_spec (n : nat) (delay current_retries : Z) (w : world) :
  current_retries = maximum_retries - Z.of_nat n →
  fetch_loop delay current_retries w
  = let k := leading_rate_limits (server w) (calls w) n in
    let sleeps := slept w ++ backoff_delays delay k in
    if (k =? n)%nat
    then (Raise retries_exhausted, World (server w) (calls w + k) sleeps)
    else (settle (server w (calls w + k)%nat),
          World (server w) (S (calls w + k)) sleeps).
Proof.
  revert delay current_retries w.
  induction n as [|n IH]; intros delay current_retries [srv c sl] Hcr;
    rewrite fetch_loop_equation_1; cbn [server calls slept].
  - destruct (Z_lt_dec current_retries maximum_retries) as [Hlt|_]; [cbn in Hcr; lia|].
    cbn. by rewrite Nat.add_0_r, app_nil_r.
  - destruct (Z_lt_dec current_retries maximum_retries) as [_|Hge]; [|lia].
    unfold requests_get. cbn [server calls slept leading_rate_limits].
    destruct (srv c) as [status_code text|] eqn:Hreply; cbn [rate_limited].
    + destruct (status_code =? 429) eqn:H429.
      * unfold time_sleep. cbn [server calls slept].
        rewrite (IH (delay * 2) (current_retries + 1)) by lia.
        cbn [server calls slept]. rewrite backoff_delays_S.
        cbn [Nat.eqb]. rewrite <- app_assoc. cbn [app].
        replace (S c + leading_rate_limits srv (S c) n)%nat
          with (c + S (leading_rate_limits srv (S c) n))%nat by lia.
        reflexivity.
      * cbn [Nat.eqb]. unfold backoff_delays. cbn [seq List.map].
        rewrite Nat.add_0_r, app_nil_r, Hreply. unfold settle, raise_for_status.
        by destruct ((400 <=? status_code) && (status_code <? 600)).
    + cbn [Nat.eqb]. unfold backoff_delays. cbn [seq List.map].
      by rewrite Nat.add_0_r, app_nil_r, Hreply.
Qed.

(** C5: with both dates given, the fetch is determined by the number [k]
    of leading 429 answers among the next five calls. It sleeps once per
    429 answer, for 2, 4, 8, ... seconds. If [k] is 5 it has made five calls
    and slept five times, the last time after the fifth answer, and raises
    the retries-exhausted exception; this is the only way to that exception.
    Otherwise call [k + 1] settles the fetch without further calls or
    sleeps: a 4xx or 5xx status raises [HTTPError] for that status, any
    other status returns the body as received. One 429 followed by a 200
    succeeds after exactly one sleep. *)
Theorem fetch_transactions_backoff
    (general_account_id : Z) (start_date end_date : date) (w : world) :
  let k := leading_rate_limits (server w) (calls w) 5 in
  let run := fetch_transactions_from_api general_account_id
               (Some start_date) (Some end_date) w in
  maximum_retries = 5
  ∧ run = (if (k =? 5)%nat
           then (Raise retries_exhausted,
                 World (server w) (calls w + 5) (slept w ++ [2; 4; 8; 16; 32]))
           else (settle (server w (calls w + k)%nat),
                 World (server w) (calls w + k + 1) (slept w ++ backoff_delays 2 k)))
  ∧ (run.1 = Raise retries_exhausted
     ↔ ∀ i, (i < 5)%nat → rate_limited (server w (calls w + i)%nat) = true)
  ∧ (∀ status_code text,
       server w (calls w) = Response status_code text →
       status_code ≠ 429 →
       run = (if (400 <=? status_code) && (status_code <? 600)
              then Raise (HTTPError status_code) else Ok text,
              World (server w) (calls w + 1) (slept w)))
  ∧ (∀ text,
       fetch_transactions_from_api general_account_id (Some start_date) (Some end_date)
         (Sample.limited 1 (Response 200 text))
       = (Ok text, World (server (Sample.limited 1 (Response 200 text))) 2 [2])).
Proof.
  intros k run.
  assert (Hrun : run = (if (k =? 5)%nat
           then (Raise retries_exhausted,
                 World (server w) (calls w + 5) (slept w ++ [2; 4; 8; 16; 32]))
           else (settle (server w (calls w + k)%nat),
                 World (server w) (calls w + k + 1) (slept w ++ backoff_delays 2 k)))).
  { subst run. unfold fetch_transactions_from_api, initial_delay.
    rewrite (fetch_loop_spec 5) by reflexivity. cbv zeta. fold k.
    destruct (Nat.eqb_spec k 5) as [->|_]; [reflexivity|].
    by rewrite Nat.add_1_r. }
  split; [reflexivity|]. split; [exact Hrun|]. split; [|split].
  - rewrite <- leading_rate_limits_all. fold k. rewrite Hrun.
    destruct (Nat.eqb_spec k 5) as [->|Hk]; [done|]. cbn [fst]. split; [|done].
    unfold settle. destruct (server w (calls w + k)%nat) as [status_code text|]; [|done].
    by destruct ((400 <=? status_code) && (status_code <? 600)).
  - intros status_code text Hreply H429. rewrite Hrun.
    assert (k = 0%nat) as ->.
    { subst k. cbn. rewrite Hreply. cbn. by apply Z.eqb_neq in H429 as ->. }
    cbn [Nat.eqb]. rewrite Nat.add_0_r, Hreply. unfold backoff_delays. cbn.
    by rewrite app_nil_r.
  - intros text. reflexivity.
Qed.

Lemma fetch_transactions_backoff_witness :
  fetch_transactions_from_api 3 (Some (Date 2024 1 1)) (Some (Date 2024 12 31))
    (Sample.limited 0 (Response 503 NotJson))
  = (Raise (HTTPError 503), World (server (Sample.limited 0 (Response 503 NotJson))) 1 [])
  ∧ (fetch_transactions_from_api 3 (Some (Date 2024 1 1)) (Some (Date 2024 12 31))
       (Sample.limited 5 (Response 200 (Json (PList [])))))
    = (Raise retries_exhausted,
       World (server (Sample.limited 5 (Response 200 (Json (PList []))))) 5
         [2; 4; 8; 16; 32]).
Proof.
  split.
  - refine (proj1 (proj2 (proj2 (proj2
        (fetch_transactions_backoff 3 (Date 2024 1 1) (Date 2024 12 31)
           (Sample.limited 0 (Response 503 NotJson)))))) 503 NotJson _ _).
    + reflexivity.
    + discriminate.
  - apply (proj1 (proj2
        (fetch_transactions_backoff 3 (Date 2024 1 1) (Date 2024 12 31)
           (Sample.limited 5 (Response 200 (Json (PList []))))))).
Defined.

(** ** Stage-and-merge loader *)

(** C4: the match condition is the conjunction, joined by AND, of
    [target.c = source.c] over the key columns in order; the default key
    gives [target.id = source.id] and the compound key of the participation
    table gives both equalities. The statement handed to the cursor is the
    rendering of a merge that reads the staging table filtered by
    [run_id = %s], with the supplied run id as the only bound parameter, and
    whose only clause is WHEN NOT MATCHED THEN INSERT: there is no matched
    clause, so no update and no delete. It is the only statement the call
    runs. *)
Theorem merge_is_insert_only_on_keys
    (staging_table target_table run_id : string) (columns : list string)
    (id_matching_columns : option (list string)) (w : warehouse) :
  let keys := default ["id"] id_matching_columns in
  let merge :=
    Statement (render (Merge target_table staging_table keys [WhenNotMatchedInsert columns]))
      [run_id] in
  id_matching [] = ""
  ∧ (∀ c, id_matching [c] = key_equality c)
  ∧ (∀ c c' cs,
       id_matching (c :: c' :: cs) = key_equality c +:+ " AND " +:+ id_matching (c' :: cs))
  ∧ id_matching (default ["id"] None) = "target.id = source.id"
  ∧ id_matching ["account_id"; "transaction_id"]
    = "target.account_id = source.account_id AND target.transaction_id = source.transaction_id"
  ∧ merge_query staging_table target_table columns keys
    = "MERGE INTO " +:+ target_table +:+ " AS target USING (SELECT * FROM "
      +:+ staging_table +:+ " WHERE run_id = %s) AS source ON " +:+ id_matching keys
      +:+ " WHEN NOT MATCHED THEN INSERT (" +:+ join ", " columns
      +:+ ") VALUES (" +:+ join ", " columns +:+ ")"
  ∧ merge_staging_table_into_target_table staging_table target_table columns run_id
      id_matching_columns w
    = if rejects w merge then (Raise DatabaseError, w) else (Ok (), ran merge w).
Proof.
  intros keys merge. repeat split.
Qed.

(** The three loaders on one record each: they return normally, the merge
    is the last statement they run, it is keyed as stated, and none of the
    statements mentions a matched clause, an update or a delete. *)
Example loaders_merge_insert_only :
  let mentions (word : string) (s : statement) : bool :=
    bool_decide (is_Some (String.index 0 word (sql s))) in
  let quiet (w : warehouse) : bool :=
    forallb (fun s => negb (mentions "WHEN MATCHED" s || mentions "UPDATE" s
                            || mentions "DELETE" s)) (executed w) in
  let accounts :=
    load_general_ledger_accounts_into_snowflake
      [flatten_account (Sample.account 1 "Cash" (Some []))] "run-1"
      Sample.empty_warehouse in
  let transactions :=
    load_general_ledger_transactions_into_snowflake
      [flatten_transaction (Sample.transaction 1 "rent" [101])] "run-1"
      Sample.empty_warehouse in
  let participation :=
    load_general_ledger_account_transactions_into_snowflake
      [GeneralLedgerAccountTransactions.Build 101 1] "run-1" Sample.empty_warehouse in
  accounts.1 = Ok () ∧ transactions.1 = Ok () ∧ participation.1 = Ok ()
  ∧ quiet accounts.2 = true ∧ quiet transactions.2 = true ∧ quiet participation.2 = true
  ∧ last (executed participation.2)
    = Some (Statement
        ("MERGE INTO general_ledger.account_transactions AS target USING "
         +:+ "(SELECT * FROM general_ledger_staging.account_transactions "
         +:+ "WHERE run_id = %s) AS source ON target.account_id = source.account_id "
         +:+ "AND target.transaction_id = source.transaction_id "
         +:+ "WHEN NOT MATCHED THEN INSERT (account_id, transaction_id) "
         +:+ "VALUES (account_id, transaction_id)") ["run-1"]).
Proof. vm_compute. repeat split. Qed.

(** C9: exporting the empty list raises [IndexError] (the header is taken
    from the first record), after the output file has been opened for
    writing; so each of the three loaders, whose first step is the export,
    raises [IndexError] on an empty batch and runs no statement. *)
Theorem empty_batch_is_an_error (file_name run_id : string) (w : warehouse) :
  (∀ (M : Type) (dump : BaseModel M),
     export_data_to_csv (@nil M) file_name run_id w
     = (Raise IndexError, truncated ("/tmp/" +:+ file_name) w))
  ∧ load_general_ledger_accounts_into_snowflake [] run_id w
    = (Raise IndexError,
       truncated ("/tmp/general_ledger_accounts_" +:+ run_id +:+ ".csv") w)
  ∧ load_general_ledger_transactions_into_snowflake [] run_id w
    = (Raise IndexError,
       truncated ("/tmp/general_ledger_transactions_" +:+ run_id +:+ ".csv") w)
  ∧ load_general_ledger_account_transactions_into_snowflake [] run_id w
    = (Raise IndexError,
       truncated ("/tmp/general_ledger_account_transactions_" +:+ run_id +:+ ".csv") w)
  ∧ (∀ path, executed (truncated path w) = executed w)
  ∧ (∀ (M : Type) (dump : BaseModel M), first_keys (@nil M) w = (Raise IndexError, w)).
Proof. repeat split. Qed.

(** * Further properties of the code *)

#[local] Set Warnings "-clear-no-such-hyp".

(** ** Account flattener, on every input *)

Lemma first_null_sub_accounts (accounts : list GeneralLedgerAccount.t) :
  ¬ Forall (fun a => GeneralLedgerAccount.sub_accounts a ≠ None) accounts →
  ∃ before a after,
    accounts = before ++ a :: after
    ∧ Forall (fun a => GeneralLedgerAccount.sub_accounts a ≠ None) before
    ∧ GeneralLedgerAccount.sub_accounts a = None.
Proof.
  induction accounts as [|x rest IH]; intros Hnot.
  - destruct Hnot. constructor.
  - destruct (GeneralLedgerAccount.sub_accounts x) as [subs|] eqn:Hx.
    + destruct IH as (before & a & after & -> & Hbefore & Ha).
      { intros Hrest. apply Hnot. constructor; [by rewrite Hx|done]. }
      exists (x :: before), a, after. split; [done|]. split; [|done].
      constructor; [by rewrite Hx|done].
    + exists [], x, rest. by repeat split.
Qed.

(** X1: when every top-level account carries a list of sub-accounts, the
    flattener returns one record per account and per direct sub-account:
    each account followed by its sub-accounts, in input order; the number of
    records is the number of accounts plus the number of direct
    sub-accounts. Sub-accounts of sub-accounts are not looked at. *)
Theorem flatten_accounts_with_lists (accounts : list GeneralLedgerAccount.t) :
  Forall (fun a => GeneralLedgerAccount.sub_accounts a ≠ None) accounts →
  ∃ out,
    transform_general_ledger_accounts accounts = Ok out
    ∧ out = concat (List.map (fun a =>
              flatten_account a
                :: List.map flatten_account
                     (default [] (GeneralLedgerAccount.sub_accounts a))) accounts)
    ∧ length out
      = (length accounts
         + list_sum (List.map (fun a =>
             length (default [] (GeneralLedgerAccount.sub_accounts a))) accounts))%nat.
Proof.
  intros H. eexists. split; [by apply transform_accounts_order|]. split; [done|].
  clear H. induction accounts as [|a rest IH]; [done|].
  cbn [List.map concat list_sum]. rewrite length_app, IH. unfold account_with_subs.
  cbn [length]. rewrite length_map. unfold list_sum. cbn [fold_right]. lia.
Qed.

Lemma flatten_accounts_with_lists_witness :
  ∃ out,
    transform_general_ledger_accounts
      [Sample.account 1 "A" (Some [Sample.account 2 "B" (Some [Sample.account 4 "D" None])]);
       Sample.account 3 "C" (Some [])] = Ok out
    ∧ List.map GeneralLedgerAccountFlattened.id out = [1; 2; 3]
    ∧ length out = 3%nat.
Proof.
  destruct (flatten_accounts_with_lists
      [Sample.account 1 "A" (Some [Sample.account 2 "B" (Some [Sample.account 4 "D" None])]);
       Sample.account 3 "C" (Some [])]) as (out & Hrun & -> & Hlen).
  - repeat constructor; discriminate.
  - eexists. split; [exact Hrun|]. split; reflexivity.
Defined.

(** X2: the flattener returns normally exactly when no top-level account
    has [sub_accounts = None]; otherwise it raises [TypeError], whatever
    comes after the first such account. A [None] in a sub-account does not
    matter. *)
Theorem flatten_accounts_succeeds_iff (accounts : list GeneralLedgerAccount.t) :
  (is_ok (transform_general_ledger_accounts accounts) = true
   ↔ Forall (fun a => GeneralLedgerAccount.sub_accounts a ≠ None) accounts)
  ∧ (is_ok (transform_general_ledger_accounts accounts) = false
     ↔ transform_general_ledger_accounts accounts = Raise TypeError).
Proof.
  assert (Forall (fun a => GeneralLedgerAccount.sub_accounts a ≠ None) accounts
          ∨ ¬ Forall (fun a => GeneralLedgerAccount.sub_accounts a ≠ None) accounts)
    as [Hall|Hnot].
  { induction accounts as [|a rest [IH|IH]].
    - left. constructor.
    - destruct (GeneralLedgerAccount.sub_accounts a) eqn:Ha.
      + left. constructor; [by rewrite Ha|done].
      + right. intros H. apply Forall_cons in H as [H _]. by apply H.
    - right. intros H. apply Forall_cons in H as [_ H]. by apply IH. }
  - rewrite (transform_accounts_order _ Hall). cbn. split; split; done.
  - destruct (first_null_sub_accounts _ Hnot) as (before & a & after & -> & Hb & Ha).
    rewrite (transform_accounts_none _ _ _ Hb Ha). cbn. split; split; done.
Qed.

(** ** Transaction deduplicator, more *)

Lemma kept_all (stored_ids : gset Z) (transactions : list GeneralLedgerTransaction.t) :
  NoDup (List.map GeneralLedgerTransaction.id transactions) →
  (∀ x, x ∈ transactions → GeneralLedgerTransaction.id x ∉ stored_ids) →
  kept stored_ids transactions = transactions.
Proof.
  revert stored_ids. induction transactions as [|x rest IH]; intros stored_ids Hnd Hfresh.
  - done.
  - cbn [List.map] in Hnd. apply NoDup_cons in Hnd as [Hx Hnd]. cbn [kept].
    case_bool_decide as Hin; [by apply Hfresh in Hin; [|left]|].
    f_equal. apply IH; [done|]. intros y Hy Hys.
    apply elem_of_union in Hys as [Hys|Hys%elem_of_singleton].
    + by apply (Hfresh y); [right|].
    + apply Hx. rewrite <- Hys. by apply list_elem_of_In, in_map, list_elem_of_In.
Qed.

Lemma kept_none (stored_ids : gset Z) (transactions : list GeneralLedgerTransaction.t) :
  (∀ x, x ∈ transactions → GeneralLedgerTransaction.id x ∈ stored_ids) →
  kept stored_ids transactions = [].
Proof.
  induction transactions as [|x rest IH]; intros Hall; [done|].
  cbn [kept]. rewrite bool_decide_eq_true_2 by (apply Hall; left).
  apply IH. intros y Hy. apply Hall. by right.
Qed.

(** X3: on a list whose transaction ids are pairwise distinct nothing is
    dropped: the result is the flat record of every input transaction, in
    input order. *)
Theorem transform_transactions_distinct_ids
    (transactions : list GeneralLedgerTransaction.t) :
  NoDup (List.map GeneralLedgerTransaction.id transactions) →
  transform_general_ledger_transactions transactions
  = Ok (List.map flatten_transaction transactions).
Proof.
  intros Hnd. rewrite transform_transactions_kept, kept_all; [done|done|set_solver].
Qed.

Lemma transform_transactions_distinct_ids_witness :
  transform_general_ledger_transactions
    [Sample.transaction 1 "a" [101]; Sample.transaction 2 "b" [101; 102]]
  = Ok [flatten_transaction (Sample.transaction 1 "a" [101]);
        flatten_transaction (Sample.transaction 2 "b" [101; 102])].
Proof.
  apply (transform_transactions_distinct_ids
           [Sample.transaction 1 "a" [101]; Sample.transaction 2 "b" [101; 102]]).
  cbn. repeat constructor; set_solver.
Defined.

(** X4: the result never has more records than the input, and appending
    transactions whose ids all occur earlier changes nothing; in particular
    transforming a list followed by itself gives the result for the list. *)
Theorem transform_transactions_absorbs_repeats
    (transactions repeats : list GeneralLedgerTransaction.t) :
  (∃ out, transform_general_ledger_transactions transactions = Ok out
          ∧ (length out ≤ length transactions)%nat)
  ∧ ((∀ x, x ∈ repeats →
        GeneralLedgerTransaction.id x ∈ List.map GeneralLedgerTransaction.id transactions) →
     transform_general_ledger_transactions (transactions ++ repeats)
     = transform_general_ledger_transactions transactions)
  ∧ transform_general_ledger_transactions (transactions ++ transactions)
    = transform_general_ledger_transactions transactions.
Proof.
  assert (Habsorb : ∀ repeats' : list GeneralLedgerTransaction.t,
    (∀ x, x ∈ repeats' →
       GeneralLedgerTransaction.id x ∈ List.map GeneralLedgerTransaction.id transactions) →
    transform_general_ledger_transactions (transactions ++ repeats')
    = transform_general_ledger_transactions transactions).
  { intros repeats' Hrep. rewrite !transform_transactions_kept, kept_app.
    rewrite (kept_none _ repeats'); [by rewrite app_nil_r|].
    intros x Hx. apply elem_of_union_r, elem_of_list_to_set, Hrep, Hx. }
  split; [|split].
  - eexists. split; [apply transform_transactions_kept|].
    rewrite length_map. apply sublist_length, kept_sublist.
  - apply Habsorb.
  - apply Habsorb. intros x Hx. by apply list_elem_of_In, in_map, list_elem_of_In.
Qed.

Lemma transform_transactions_absorbs_repeats_witness :
  transform_general_ledger_transactions
    ([Sample.transaction 1 "a" [101]; Sample.transaction 2 "b" [102]]
     ++ [Sample.transaction 2 "again" [101]])
  = transform_general_ledger_transactions
      [Sample.transaction 1 "a" [101]; Sample.transaction 2 "b" [102]].
Proof.
  refine (proj1 (proj2 (transform_transactions_absorbs_repeats
           [Sample.transaction 1 "a" [101]; Sample.transaction 2 "b" [102]]
           [Sample.transaction 2 "again" [101]])) _).
  intros x Hx. apply elem_of_cons in Hx as [->|Hx]; [|by apply elem_of_nil in Hx].
  cbn. set_solver.
Defined.

(** ** The search over the payload *)


(** X5: on a payload that is a JSON array of transaction-shaped values the
    search returns, as JSON, exactly the elements with a journal line whose
    GLAccount Id equals the account id: in payload order, each as often as
    it occurs in the payload however many of its lines match, so never more
    elements than the payload has. Elements without a journal and journals
    without lines are passed over. *)
Theorem search_selects_touching (items : list pyval) (general_account_id : Z) :
  json_serialisable (PList items) = true →
  forallb transaction_shaped items = true →
  ∃ found,
    transactions_json_search (PList items) general_account_id = Ok (Json (PList found))
    ∧ fetch_transactions_from_json (Json (PList items)) general_account_id
      = Ok (Json (PList found))
    ∧ found = List.filter (touches general_account_id) items
    ∧ sublist found items
    ∧ (∀ v, v ∈ found ↔ v ∈ items ∧ touches general_account_id v = true)
    ∧ (∀ d, dict_lookup "Journal" d = None → PDict d ∉ found)
    ∧ (∀ d journal, dict_lookup "Journal" d = Some (PDict journal) →
                    dict_lookup "Lines" journal = None → PDict d ∉ found).
Proof.
  intros Hjson Hshape. exists (List.filter (touches general_account_id) items).
  assert (Hin : ∀ v, v ∈ List.filter (touches general_account_id) items
                     ↔ v ∈ items ∧ touches general_account_id v = true).
  { intros v. rewrite !list_elem_of_In. apply filter_In. }
  split; [by apply transactions_json_search_filter|].
  split; [unfold fetch_transactions_from_json; cbn [json_loads mbind result_bind];
          by apply transactions_json_search_filter|].
  split; [done|]. split.
  { clear. induction items as [|x items IH]; cbn; [constructor|].
    destruct (touches general_account_id x); by constructor. }
  split; [exact Hin|]. split.
  - intros d Hd [_ Ht]%Hin. unfold touches, journal_lines in Ht.
    cbn [field] in Ht. rewrite Hd in Ht. discriminate Ht.
  - intros d journal Hd Hl [_ Ht]%Hin. unfold touches, journal_lines in Ht.
    cbn [field mbind option_bind] in Ht. rewrite Hd in Ht. cbn [field mbind option_bind] in Ht.
    rewrite Hl in Ht. discriminate Ht.
Qed.

Lemma search_selects_touching_witness :
  transactions_json_search
    (PList [Sample.transaction_json 1 "a" [101; 102]; Sample.transaction_json 2 "b" [102; 102];
            PDict [("Id", PInt 3)]]) 102
  = Ok (Json (PList [Sample.transaction_json 1 "a" [101; 102];
                     Sample.transaction_json 2 "b" [102; 102]])).
Proof.
  destruct (search_selects_touching
              [Sample.transaction_json 1 "a" [101; 102];
               Sample.transaction_json 2 "b" [102; 102]; PDict [("Id", PInt 3)]] 102)
    as (found & Hrun & _ & -> & _); [reflexivity|reflexivity|exact Hrun].
Defined.



(** ** The fetchers *)

Lemma leading_rate_limits_le (server : nat → reply) (from attempts : nat) :
  (leading_rate_limits server from attempts ≤ attempts)%nat.
Proof.
  revert from. induction attempts as [|n IH]; intros from; cbn; [lia|].
  destruct (rate_limited (server from)); [|lia]. specialize (IH (S from)). lia.
Qed.

(** X7: bounds of one fetch. It makes at least one and at most five calls,
    sleeps at most five times and at most 62 seconds in all, only adds to
    the record of sleeps, and makes as many calls as it sleeps or one more.
    Without both dates it raises [ValueError] and makes no call. *)
Theorem fetch_transactions_bounds
    (general_account_id : Z) (start_date end_date : date) (w : world) :
  let w' := (fetch_transactions_from_api general_account_id
               (Some start_date) (Some end_date) w).2 in
  (∃ sleeps,
     slept w' = slept w ++ sleeps
     ∧ (length sleeps ≤ 5)%nat
     ∧ 0 ≤ total sleeps ≤ 62
     ∧ (calls w' = calls w + length sleeps ∨ calls w' = calls w + length sleeps + 1)%nat)
  ∧ (calls w + 1 ≤ calls w' ≤ calls w + 5)%nat
  ∧ server w' = server w
  ∧ (∀ missing,
       fetch_transactions_from_api general_account_id None missing w = (Raise ValueError, w)
       ∧ fetch_transactions_from_api general_account_id missing None w
         = (Raise ValueError, w)).
Proof.
  intros w'. subst w'. unfold fetch_transactions_from_api, initial_delay.
  rewrite (fetch_loop_spec 5) by reflexivity. cbv zeta.
  pose proof (leading_rate_limits_le (server w) (calls w) 5) as Hk.
  set (k := leading_rate_limits (server w) (calls w) 5) in *.
  assert (Hk' : (k = 0 ∨ k = 1 ∨ k = 2 ∨ k = 3 ∨ k = 4 ∨ k = 5)%nat) by lia.
  split; [|split; [|split]].
  - exists (backoff_delays 2 k).
    destruct Hk' as [->|[->|[->|[->|[->| ->]]]]]; cbn -[Nat.add]; repeat split; try lia.
  - destruct Hk' as [->|[->|[->|[->|[->| ->]]]]]; cbn -[Nat.add]; lia.
  - by destruct (k =? 5)%nat.
  - intros [d|]; by split.
Qed.

Section FetcherProperties.

Variable validate_account : pyval → option GeneralLedgerAccount.t.
Variable validate_transaction : pyval → option GeneralLedgerTransaction.t.

(** X8: fetching transactions online. With both dates, the result is the
    validation of what the retrying fetch returned, and the world is as the
    fetch left it; the response is not filtered by account again, so when
    the first answer is a success whose elements all validate, every element
    of the response is returned. Without both dates the function raises
    [ValueError] and makes no call, and so it does for account id 0 even
    with dates. *)
Theorem get_transactions_online (general_account_id : Z) (w : world) :
  general_account_id ≠ 0 →
  (∀ start_date end_date,
     get_general_ledger_transactions validate_transaction general_account_id
       (Some start_date) (Some end_date) None w
     = let (r, w') := fetch_transactions_from_api general_account_id
                        (Some start_date) (Some end_date) w in
       (r ≫= GeneralLedgerTransactions_validate_json validate_transaction, w'))
  ∧ (∀ start_date end_date status_code items of_json,
       server w (calls w) = Response status_code (Json (PList items)) →
       status_code ≠ 429 →
       raise_for_status status_code = Ok () →
       (∀ v, v ∈ items → validate_transaction v = Some (of_json v)) →
       get_general_ledger_transactions validate_transaction general_account_id
         (Some start_date) (Some end_date) None w
       = (Ok (List.map of_json items), World (server w) (S (calls w)) (slept w)))
  ∧ (∀ missing,
       get_general_ledger_transactions validate_transaction general_account_id
         None missing None w = (Raise ValueError, w)
       ∧ get_general_ledger_transactions validate_transaction general_account_id
           missing None None w = (Raise ValueError, w))
  ∧ (∀ start_date end_date,
       get_general_ledger_transactions validate_transaction 0
         (Some start_date) (Some end_date) None w = (Raise ValueError, w)).
Proof.
  intros Hid.
  assert (Hgen : ∀ start_date end_date,
     get_general_ledger_transactions validate_transaction general_account_id
       (Some start_date) (Some end_date) None w
     = let (r, w') := fetch_transactions_from_api general_account_id
                        (Some start_date) (Some end_date) w in
       (r ≫= GeneralLedgerTransactions_validate_json validate_transaction, w')).
  { intros sd ed. unfold get_general_ledger_transactions. cbn [truthy].
    destruct (Z.eqb_spec general_account_id 0) as [|_]; [done|]. cbn [negb].
    unfold mbind at 1, io_bind, lift.
    destruct (fetch_transactions_from_api general_account_id (Some sd) (Some ed) w)
      as [[text|e] w']; reflexivity. }
  split; [exact Hgen|]. split; [|split].
  - intros sd ed status_code items of_json Hreply H429 Hstatus Hvalid.
    rewrite Hgen. unfold fetch_transactions_from_api, initial_delay.
    rewrite fetch_loop_equation_1.
    destruct (Z_lt_dec 0 maximum_retries) as [_|Hn]; [|by destruct Hn].
    unfold requests_get. rewrite Hreply.
    apply Z.eqb_neq in H429 as ->. rewrite Hstatus.
    cbn [mbind result_bind]. unfold GeneralLedgerTransactions_validate_json, validate_json.
    by rewrite (traverse_accepted _ of_json).
  - intros missing. unfold get_general_ledger_transactions. cbn [truthy].
    destruct (Z.eqb_spec general_account_id 0) as [|_]; [done|]. cbn [negb].
    by destruct missing.
  - reflexivity.
Qed.

(** X9: fetching the accounts online makes exactly one call and never
    sleeps: a 4xx or 5xx status, 429 included, raises [HTTPError] at once,
    a failed connection raises, and any other answer is validated as a
    whole. *)
Theorem get_accounts_online (w : world) :
  get_general_ledger_accounts validate_account None w
  = (match server w (calls w) with
     | Response status_code text =>
         if (400 <=? status_code) && (status_code <? 600)
         then Raise (HTTPError status_code)
         else GeneralLedgerAccounts_validate_json validate_account text
     | ConnectionFailed => Raise ConnectionError
     end, World (server w) (S (calls w)) (slept w))
  ∧ (∀ text, server w (calls w) = Response 429 text →
       get_general_ledger_accounts validate_account None w
       = (Raise (HTTPError 429), World (server w) (S (calls w)) (slept w))).
Proof.
  assert (Hgen : get_general_ledger_accounts validate_account None w
  = (match server w (calls w) with
     | Response status_code text =>
         if (400 <=? status_code) && (status_code <? 600)
         then Raise (HTTPError status_code)
         else GeneralLedgerAccounts_validate_json validate_account text
     | ConnectionFailed => Raise ConnectionError
     end, World (server w) (S (calls w)) (slept w))).
  { unfold get_general_ledger_accounts, mbind, io_bind, mret, io_ret, requests_get, lift,
      raise, raise_for_status.
    destruct (server w (calls w)) as [status_code text|]; [|done].
    by destruct ((400 <=? status_code) && (status_code <? 600)). }
  split; [exact Hgen|]. intros text Hreply. by rewrite Hgen, Hreply.
Qed.

(** X10: reading the accounts from a payload that is a JSON array returns
    normally exactly when every element validates, and then gives the
    validated elements one for one in payload order; the world is not
    touched. A payload that is not an array, or not JSON, raises
    [ValidationError]. *)
Theorem get_accounts_offline (items : list pyval) (w : world) :
  (Forall (fun v => is_Some (validate_account v)) items
   ↔ (∃ accounts,
        get_general_ledger_accounts validate_account (Some (Json (PList items))) w
        = (Ok accounts, w)
        ∧ Forall2 (fun v a => validate_account v = Some a) items accounts))
  ∧ (is_ok (get_general_ledger_accounts validate_account (Some (Json (PList items))) w).1
     = true → Forall (fun v => is_Some (validate_account v)) items)
  ∧ get_general_ledger_accounts validate_account (Some NotJson) w
    = (Raise ValidationError, w)
  ∧ (∀ v, (∀ l, v ≠ PList l) →
       get_general_ledger_accounts validate_account (Some (Json v)) w
       = (Raise ValidationError, w)).
Proof.
  assert (Hrun : get_general_ledger_accounts validate_account (Some (Json (PList items))) w
    = (traverse (fun v => match validate_account v with
                          | Some m => Ok m
                          | None => Raise ValidationError
                          end) items, w)) by reflexivity.
  assert (Hchar : ∀ l : list pyval,
    (Forall (fun v => is_Some (validate_account v)) l
     → ∃ accounts,
         traverse (fun v => match validate_account v with
                            | Some m => Ok m
                            | None => Raise ValidationError
                            end) l = Ok accounts
         ∧ Forall2 (fun v a => validate_account v = Some a) l accounts)
    ∧ (is_ok (traverse (fun v => match validate_account v with
                            | Some m => Ok m
                            | None => Raise ValidationError
                            end) l) = true
       → Forall (fun v => is_Some (validate_account v)) l)).
  { induction l as [|x l [IH1 IH2]].
    - split; [intros _; exists []; split; [done|constructor]|constructor].
    - split.
      + intros [[a Ha] Hl]%Forall_cons. destruct (IH1 Hl) as (accounts & Hrec & Hall).
        exists (a :: accounts). cbn [traverse]. rewrite Ha. cbn [mbind result_bind].
        rewrite Hrec. split; [done|by constructor].
      + cbn [traverse]. destruct (validate_account x) as [a|] eqn:Ha; [|discriminate].
        cbn [mbind result_bind].
        destruct (traverse _ l) as [accounts|e] eqn:Hrec; [|discriminate].
        intros _. constructor; [by rewrite Ha|]. by apply IH2. }
  rewrite Hrun. split; [|split; [|split]].
  - split.
    + intros Hall. destruct (proj1 (Hchar items) Hall) as (accounts & Hrec & H2).
      exists accounts. by rewrite Hrec.
    + intros (accounts & Hrec & _). apply (proj2 (Hchar items)).
      injection Hrec as Hrec. by rewrite Hrec.
  - apply Hchar.
  - reflexivity.
  - intros v Hv. destruct v; try reflexivity. by destruct (Hv l).
Qed.

End FetcherProperties.

Lemma get_transactions_online_witness :
  get_general_ledger_transactions Strict.validate_transaction 101
    (Some (Date 2024 1 1)) (Some (Date 2024 12 31)) None
    (Sample.limited 0
       (Response 200 (Json (PList [Sample.transaction_json 1 "a" [101];
                                   Sample.transaction_json 2 "b" [102]]))))
  = (Ok [Sample.transaction 1 "a" [101]; Sample.transaction 2 "b" [102]],
     World (server (Sample.limited 0
              (Response 200 (Json (PList [Sample.transaction_json 1 "a" [101];
                                          Sample.transaction_json 2 "b" [102]]))))) 1 []).
Proof.
  refine (proj1 (proj2 (get_transactions_online Strict.validate_transaction 101
            (Sample.limited 0
               (Response 200 (Json (PList [Sample.transaction_json 1 "a" [101];
                                           Sample.transaction_json 2 "b" [102]])))) _))
          (Date 2024 1 1) (Date 2024 12 31) 200
          [Sample.transaction_json 1 "a" [101]; Sample.transaction_json 2 "b" [102]]
          (fun v => default (Sample.transaction 0 "" []) (Strict.validate_transaction v))
          _ _ _ _).
  - discriminate.
  - reflexivity.
  - discriminate.
  - reflexivity.
  - intros v Hv.
    repeat (apply elem_of_cons in Hv as [->|Hv]; [vm_compute; reflexivity|]).
    by apply elem_of_nil in Hv.
Defined.

Lemma get_accounts_offline_witness :
  ∃ accounts,
    get_general_ledger_accounts Strict.validate_account
      (Some (Json (PList [Sample.account_json 1 "Cash"; Sample.account_json 2 "Rent"])))
      Sample.offline = (Ok accounts, Sample.offline)
    ∧ length accounts = 2%nat.
Proof.
  destruct (proj1 (proj1 (get_accounts_offline Strict.validate_account
              [Sample.account_json 1 "Cash"; Sample.account_json 2 "Rent"] Sample.offline)))
    as (accounts & Hrun & Hall).
  - repeat constructor; vm_compute; eauto.
  - exists accounts. split; [exact Hrun|]. by apply Forall2_length in Hall.
Defined.

(** ** The participation mapper, whenever it returns *)

Section ParticipationInvariants.

Variable validate_transaction : pyval → option GeneralLedgerTransaction.t.

Lemma participation_loop_returns (ids : list Z) (payload : json_text) (w w' : world)
    (rows0 rows : list GeneralLedgerAccountTransactions.t)
    (txs0 txs : list GeneralLedgerTransaction.t) :
  for_each_io ids
    (fun (st : list GeneralLedgerAccountTransactions.t
               * list GeneralLedgerTransaction.t) account_id =>
      let '(transactions_per_account, all_transactions) := st in
      transactions ←
        get_general_ledger_transactions validate_transaction account_id None None
          (Some payload);
      match transactions with
      | [] => mret (transactions_per_account, all_transactions)
      | _ =>
          let all_transactions := all_transactions ++ transactions in
          let transactions_per_account :=
            fold_left (fun acc transaction =>
              acc ++ [GeneralLedgerAccountTransactions.Build account_id
                        (GeneralLedgerTransaction.id transaction)])
              transactions transactions_per_account in
          mret (transactions_per_account, all_transactions)
      end) (rows0, txs0) w
  = (Ok (rows, txs), w') →
  w' = w
  ∧ ∃ rows1 txs1,
      rows = rows0 ++ rows1 ∧ txs = txs0 ++ txs1
      ∧ List.map GeneralLedgerAccountTransactions.transaction_id rows1
        = List.map GeneralLedgerTransaction.id txs1
      ∧ Forall (fun r => GeneralLedgerAccountTransactions.account_id r ∈ ids) rows1.
Proof.
  revert rows0 txs0. induction ids as [|a ids IH]; intros rows0 txs0.
  - cbn. intros [= <- <- <-]. split; [done|]. exists [], []. by rewrite !app_nil_r.
  - cbn [for_each_io]. unfold mbind at 1, io_bind at 1.
    destruct (get_general_ledger_transactions validate_transaction a None None
                (Some payload) w).1 as [fetched|e] eqn:Hget.
    + pose proof (participation_step validate_transaction a payload fetched w rows0 txs0
                    Hget) as Hstep.
      cbv zeta. cbv zeta in Hstep. rewrite Hstep. intros Hrest.
      apply IH in Hrest as (-> & rows1 & txs1 & -> & -> & Hids & Hin).
      split; [done|].
      exists (List.map (fun transaction =>
                GeneralLedgerAccountTransactions.Build a
                  (GeneralLedgerTransaction.id transaction)) fetched ++ rows1),
             (fetched ++ txs1).
      rewrite !app_assoc. split; [done|]. split; [done|]. split.
      * rewrite !List.map_app, List.map_map, Hids. reflexivity.
      * apply Forall_app. split.
        -- apply Forall_forall. intros r (x & <- & _)%list_elem_of_In%in_map_iff.
           cbn. left.
        -- eapply Forall_impl; [exact Hin|]. intros r Hr. by right.
    + unfold mbind at 1, io_bind at 1.
      rewrite get_transactions_offline_world, Hget. discriminate.
Qed.

(** X11: whenever the mapper returns, it has made no call and not slept;
    it has produced exactly one row per accumulated transaction, in the same
    order and carrying that transaction's id; every row carries an account
    id of the given set; and the set does not contain 0. *)
Theorem participation_rows_match_transactions (ids : list Z) (payload : json_text)
    (w w' : world) (rows : list GeneralLedgerAccountTransactions.t)
    (txs : list GeneralLedgerTransaction.t) :
  map_account_participation validate_transaction ids payload w = (Ok (rows, txs), w') →
  w' = w
  ∧ List.map GeneralLedgerAccountTransactions.transaction_id rows
    = List.map GeneralLedgerTransaction.id txs
  ∧ length rows = length txs
  ∧ Forall (fun r => GeneralLedgerAccountTransactions.account_id r ∈ ids) rows
  ∧ 0 ∉ ids.
Proof.
  intros Hrun. pose proof Hrun as Hrun'. unfold map_account_participation in Hrun'.
  apply participation_loop_returns in Hrun' as (-> & rows1 & txs1 & -> & -> & Hids & Hin).
  cbn [app]. split; [done|]. split; [done|]. split.
  { by rewrite <- (length_map GeneralLedgerAccountTransactions.transaction_id rows1), Hids,
      length_map. }
  split; [done|]. intros Hzero.
  destruct (participation_aborts_from validate_transaction ids payload w ([], []) Hzero)
    as [e He].
  pose proof (eq_trans (eq_sym He) Hrun) as Habsurd. discriminate Habsurd.
Qed.

(** X12: mapping and then deduplicating, as the script does. Whenever the
    mapper returns, transforming its accumulated transactions returns too,
    and rows and transformed transactions refer to the same transactions:
    every row's transaction id is the id of exactly one transformed
    transaction, and every transformed transaction is referred to by a
    row. *)
Theorem participation_then_transform (ids : list Z) (payload : json_text)
    (w w' : world) (rows : list GeneralLedgerAccountTransactions.t)
    (txs : list GeneralLedgerTransaction.t) :
  map_account_participation validate_transaction ids payload w = (Ok (rows, txs), w') →
  ∃ out,
    transform_general_ledger_transactions txs = Ok out
    ∧ NoDup (List.map GeneralLedgerTransactionTransformed.id out)
    ∧ (∀ r, r ∈ rows →
         GeneralLedgerAccountTransactions.transaction_id r
         ∈ List.map GeneralLedgerTransactionTransformed.id out)
    ∧ (∀ o, o ∈ out →
         GeneralLedgerTransactionTransformed.id o
         ∈ List.map GeneralLedgerAccountTransactions.transaction_id rows).
Proof.
  intros Hrun. unfold map_account_participation in Hrun.
  apply participation_loop_returns in Hrun as (-> & rows1 & txs1 & -> & -> & Hids & _).
  cbn [app]. exists (List.map flatten_transaction (kept ∅ txs1)).
  split; [apply transform_transactions_kept|].
  split; [rewrite List.map_map; apply kept_NoDup|]. split.
  - intros r Hr.
    assert (Hin : GeneralLedgerAccountTransactions.transaction_id r
                  ∈ List.map GeneralLedgerTransaction.id txs1).
    { rewrite <- Hids. by apply list_elem_of_In, in_map, list_elem_of_In. }
    apply list_elem_of_In, in_map_iff in Hin as (x & Hx & Hxin).
    destruct (kept_covers ∅ txs1 x) as [Hs|(k & Hk & Hid)];
      [by apply list_elem_of_In|set_solver|].
    rewrite <- Hx, <- Hid, List.map_map.
    apply list_elem_of_In, in_map_iff. exists k. split; [done|by apply list_elem_of_In].
  - intros o (k & <- & Hk)%list_elem_of_In%in_map_iff. cbn.
    rewrite Hids. apply list_elem_of_In, in_map.
    apply list_elem_of_In. eapply elem_of_sublist; [|apply kept_sublist].
    apply list_elem_of_In, Hk.
Qed.

End ParticipationInvariants.

Lemma participation_rows_match_transactions_witness :
  List.map GeneralLedgerAccountTransactions.transaction_id
    [GeneralLedgerAccountTransactions.Build 101 1; GeneralLedgerAccountTransactions.Build 102 1]
  = List.map GeneralLedgerTransaction.id
      [Sample.transaction 1 "a" [101; 102]; Sample.transaction 1 "a" [101; 102]].
Proof.
  refine (proj1 (proj2 (participation_rows_match_transactions Strict.validate_transaction
            [101; 102] (Json (PList [Sample.transaction_json 1 "a" [101; 102]]))
            Sample.offline Sample.offline
            [GeneralLedgerAccountTransactions.Build 101 1;
             GeneralLedgerAccountTransactions.Build 102 1]
            [Sample.transaction 1 "a" [101; 102]; Sample.transaction 1 "a" [101; 102]] _))).
  vm_compute. reflexivity.
Defined.

Lemma participation_then_transform_witness :
  ∃ out,
    transform_general_ledger_transactions
      [Sample.transaction 1 "a" [101; 102]; Sample.transaction 1 "a" [101; 102]] = Ok out
    ∧ NoDup (List.map GeneralLedgerTransactionTransformed.id out).
Proof.
  destruct (participation_then_transform Strict.validate_transaction
            [101; 102] (Json (PList [Sample.transaction_json 1 "a" [101; 102]]))
            Sample.offline Sample.offline
            [GeneralLedgerAccountTransactions.Build 101 1;
             GeneralLedgerAccountTransactions.Build 102 1]
            [Sample.transaction 1 "a" [101; 102]; Sample.transaction 1 "a" [101; 102]])
    as (out & Hrun & Hnd & _).
  - vm_compute. reflexivity.
  - exists out. by split.
Defined.

(** ** Export to CSV *)

Lemma dict_lookup_fresh (k : string) (d : dict) : k ∉ keys d → dict_lookup k d = None.
Proof.
  induction d as [|[k' v] d IH]; [done|]. cbn. intros Hk.
  destruct (String.eqb_spec k k') as [->|_]; [destruct Hk; left|].
  apply IH. intros Hin. apply Hk. by right.
Qed.

Lemma dict_set_fresh (k : string) (v : pyval) (d : dict) :
  k ∉ keys d → dict_set k v d = d ++ [(k, v)].
Proof.
  induction d as [|[k' v'] d IH]; [done|]. cbn. intros Hk.
  destruct (String.eqb_spec k k') as [->|_]; [destruct Hk; left|].
  f_equal. apply IH. intros Hin. apply Hk. by right.
Qed.

Lemma traverse_cells (row : dict) :
  forallb (fun kv => writable (snd kv)) row = true →
  traverse (fun kv : string * pyval =>
    match snd kv with
    | PDict _ | PList _ => s ← json_dumps (snd kv); Ok (fst kv, Dumped s)
    | v => Ok (fst kv, Plain v)
    end) row
  = Ok (List.map (fun kv => (fst kv, cell_of (snd kv))) row).
Proof.
  induction row as [|[k v] row IH]; [done|].
  cbn [forallb traverse List.map fst snd]. intros [Hv Hrow]%andb_prop.
  rewrite (IH Hrow).
  destruct v; cbn [writable] in Hv; cbn [cell_of mbind result_bind]; try reflexivity;
    unfold json_dumps; rewrite Hv; reflexivity.
Qed.

Lemma find_by_key (row : list (string * cell)) :
  NoDup (List.map fst row) →
  List.map (fun f =>
    default (Plain (PStr ""))
      (snd <$> List.find (fun kv => String.eqb f (fst kv)) row)) (List.map fst row)
  = List.map snd row.
Proof.
  induction row as [|[k c] row IH]; [done|].
  cbn [List.map fst snd]. intros [Hk Hnd]%NoDup_cons.
  cbn [List.find fst]. rewrite String.eqb_refl. cbn. f_equal.
  rewrite <- (IH Hnd). apply List.map_ext_in. intros f Hf.
  destruct (String.eqb_spec f k) as [->|_]; [|done].
  destruct Hk. by apply list_elem_of_In.
Qed.

Lemma keys_in_fieldnames (row : list (string * cell)) :
  forallb (fun kv => existsb (String.eqb (fst kv)) (List.map fst row)) row = true.
Proof.
  apply forallb_forall. intros [k c] Hin. apply existsb_exists. exists k.
  split; [|apply String.eqb_refl]. by apply (in_map fst) in Hin.
Qed.

(** One pass of the export loop on a record that can be written. *)
Lemma export_step (row : dict) (run_id path : string) (w : warehouse) :
  NoDup (keys row ++ ["run_id"; "inserted_at"]) →
  forallb (fun kv => writable (snd kv)) row = true →
  (treated_row ← preprocess_row row run_id;
   writerow path (keys row ++ ["run_id"; "inserted_at"]) treated_row) w
  = (Ok (),
     Warehouse
       (<[path := default [] (files w !! path) ++ [csv_row (now w) run_id (ticks w) row]]>
          (files w))
       (now w) (S (ticks w)) (rejects w) (executed w)).
Proof.
  intros Hnd Hw. unfold preprocess_row.
  assert (Hrun : "run_id" ∉ keys row).
  { intros Hin. apply NoDup_app in Hnd as (_ & Hdis & _). apply (Hdis _ Hin). left. }
  assert (Hins : "inserted_at" ∉ keys (row ++ [("run_id", PStr run_id)])).
  { unfold keys. rewrite List.map_app. cbn. intros [Hin|Hin]%elem_of_app.
    - apply NoDup_app in Hnd as (_ & Hdis & _). apply (Hdis _ Hin). right. left.
    - apply elem_of_cons in Hin as [Hin|Hin]; [discriminate Hin|by apply elem_of_nil in Hin]. }
  rewrite (dict_set_fresh _ _ _ Hrun).
  unfold mbind at 1, db_bind at 1. unfold mbind at 1, db_bind at 1.
  unfold datetime_now_isoformat. cbn [now ticks].
  rewrite (dict_set_fresh _ _ _ Hins). unfold db_lift.
  rewrite traverse_cells.
  2:{ rewrite !forallb_app, Hw. reflexivity. }
  unfold writerow.
  assert (Hkeys : keys row ++ ["run_id"; "inserted_at"]
                  = List.map fst
                      (List.map (fun kv : string * pyval => (fst kv, cell_of (snd kv)))
                         ((row ++ [("run_id", PStr run_id)])
                          ++ [("inserted_at", PStr (now w (ticks w)))]))).
  { rewrite List.map_map. cbn [fst]. unfold keys. rewrite !List.map_app, <- app_assoc.
    reflexivity. }
  rewrite Hkeys. rewrite keys_in_fieldnames.
  rewrite find_by_key by (by rewrite <- Hkeys).
  unfold write_row, csv_row. cbn [files now ticks rejects executed].
  rewrite !List.map_map, !List.map_app, <- app_assoc. reflexivity.
Qed.

Lemma export_loop {M : Type} `{BaseModel M} (data : list M) (fieldnames : list string)
    (run_id path : string) (content : list (list cell)) (w : warehouse) :
  NoDup fieldnames →
  files w !! path = Some content →
  Forall (fun r => keys (model_dump r) ++ ["run_id"; "inserted_at"] = fieldnames
                   ∧ forallb (fun kv => writable (snd kv)) (model_dump r) = true) data →
  for_each_db data (fun row =>
    let row_without_metadata := model_dump row in
    treated_row ← preprocess_row row_without_metadata run_id;
    writerow path fieldnames treated_row) w
  = (Ok (),
     Warehouse
       (<[path := content ++ csv_rows (now w) run_id (ticks w) (List.map model_dump data)]>
          (files w))
       (now w) (ticks w + length data) (rejects w) (executed w)).
Proof.
  intros Hnd Hfile Hall. revert content w Hfile.
  induction Hall as [|r data [Hk Hw] _ IH]; intros content [fs nw tk rj ex] Hfile;
    cbn [files now ticks rejects executed] in *.
  - cbn. rewrite app_nil_r, Nat.add_0_r, insert_id by done. reflexivity.
  - cbn [for_each_db]. unfold mbind at 1, db_bind at 1. cbv zeta. rewrite <- Hk.
    rewrite export_step by (by rewrite ?Hk). rewrite Hk.
    cbn [files now ticks rejects executed]. rewrite Hfile. cbn [default from_option Datatypes.id].
    rewrite (IH (content ++ [csv_row nw run_id tk (model_dump r)])) by apply lookup_insert_eq.
    cbn [files now ticks rejects executed List.map csv_rows length].
    rewrite insert_insert_eq, <- app_assoc. cbn [app].
    by replace (S tk + length data)%nat with (tk + S (length data))%nat by lia.
Qed.

Lemma export_ok {M : Type} `{BaseModel M}
    (first : M) (rest : list M) (file_name run_id : string) (w : warehouse) :
  NoDup (keys (model_dump first) ++ ["run_id"; "inserted_at"]) →
  Forall (fun r => keys (model_dump r) = keys (model_dump first)
                   ∧ forallb (fun kv => writable (snd kv)) (model_dump r) = true)
    (first :: rest) →
  export_data_to_csv (first :: rest) file_name run_id w
  = (Ok (),
     Warehouse
       (<["/tmp/" +:+ file_name :=
            List.map (fun f => Plain (PStr f))
              (keys (model_dump first) ++ ["run_id"; "inserted_at"])
            :: csv_rows (now w) run_id (ticks w) (List.map model_dump (first :: rest))]>
          (files w))
       (now w) (ticks w + length (first :: rest)) (rejects w) (executed w)).
Proof.
  intros Hnd Hall. unfold export_data_to_csv.
  unfold mbind at 1, db_bind at 1, open_w. unfold mbind at 1, db_bind at 1, write_row.
  cbn [files now ticks rejects executed].
  rewrite lookup_insert_eq. cbn [default from_option Datatypes.id app].
  rewrite insert_insert_eq.
  erewrite export_loop; [|exact Hnd|apply lookup_insert_eq|].
  - cbn [files now ticks rejects executed]. rewrite insert_insert_eq. reflexivity.
  - eapply Forall_impl; [exact Hall|]. intros r [-> Hw]. by split.
Qed.

(** X13: exporting a non-empty list of records that all dump the same
    field names, none of them [run_id] or [inserted_at], and whose nested
    values can be written as JSON, returns normally. The file then holds the
    header (the field names, then [run_id] and [inserted_at]) and one row per
    record in order; each row gives the record's values, nested ones as JSON
    text, then the run id and the time read for that row. The clock has been
    read once per record; nothing else has changed. *)
Theorem export_writes_header_and_rows {M : Type} `{BaseModel M}
    (first : M) (rest : list M) (file_name run_id : string) (w : warehouse) :
  NoDup (keys (model_dump first) ++ ["run_id"; "inserted_at"]) →
  Forall (fun r => keys (model_dump r) = keys (model_dump first)
                   ∧ forallb (fun kv => writable (snd kv)) (model_dump r) = true)
    (first :: rest) →
  export_data_to_csv (first :: rest) file_name run_id w
  = (Ok (),
     Warehouse
       (<["/tmp/" +:+ file_name :=
            List.map (fun f => Plain (PStr f))
              (keys (model_dump first) ++ ["run_id"; "inserted_at"])
            :: csv_rows (now w) run_id (ticks w) (List.map model_dump (first :: rest))]>
          (files w))
       (now w) (ticks w + length (first :: rest)) (rejects w) (executed w)).
Proof. apply export_ok. Qed.

Lemma export_writes_header_and_rows_witness :
  (export_data_to_csv
     [GeneralLedgerAccountTransactions.Build 101 1; GeneralLedgerAccountTransactions.Build 102 1]
     "rows.csv" "run-1" Sample.empty_warehouse).1 = Ok ()
  ∧ files (export_data_to_csv
             [GeneralLedgerAccountTransactions.Build 101 1;
              GeneralLedgerAccountTransactions.Build 102 1]
             "rows.csv" "run-1" Sample.empty_warehouse).2 !! "/tmp/rows.csv"
    = Some [ [Plain (PStr "account_id"); Plain (PStr "transaction_id");
              Plain (PStr "run_id"); Plain (PStr "inserted_at")];
             [Plain (PInt 101); Plain (PInt 1); Plain (PStr "run-1");
              Plain (PStr "2024-01-16T10:30:00")];
             [Plain (PInt 102); Plain (PInt 1); Plain (PStr "run-1");
              Plain (PStr "2024-01-16T10:30:00")] ].
Proof.
  rewrite (export_writes_header_and_rows (GeneralLedgerAccountTransactions.Build 101 1)
             [GeneralLedgerAccountTransactions.Build 102 1]).
  - split; [reflexivity|]. cbn [files snd]. rewrite lookup_insert_eq. reflexivity.
  - cbn. repeat constructor; set_solver.
  - repeat constructor.
Defined.

Lemma traverse_cells_result (row : dict) :
  (∃ cells, traverse (fun kv : string * pyval =>
      match snd kv with
      | PDict _ | PList _ => s ← json_dumps (snd kv); Ok (fst kv, Dumped s)
      | v => Ok (fst kv, Plain v)
      end) row = Ok cells)
  ∨ traverse (fun kv : string * pyval =>
      match snd kv with
      | PDict _ | PList _ => s ← json_dumps (snd kv); Ok (fst kv, Dumped s)
      | v => Ok (fst kv, Plain v)
      end) row = Raise TypeError.
Proof.
  match goal with |- context [traverse ?f _] => set (cell_for := f) end.
  induction row as [|[k v] row IH]; [left; by eexists|].
  cbn [traverse].
  assert (Hv : (∃ c, cell_for (k, v) = Ok c) ∨ cell_for (k, v) = Raise TypeError).
  { unfold cell_for. cbn [snd fst].
    destruct v; try (left; by eexists); unfold json_dumps;
      destruct (json_serialisable _); cbn; (by right) || (left; by eexists). }
  destruct Hv as [[c ->]| ->]; [|by right]. cbn [mbind result_bind].
  destruct IH as [[cells ->]| ->]; [left; by eexists|by right].
Qed.

Lemma export_step_frame (row : dict) (fieldnames : list string) (run_id path : string)
    (w : warehouse) :
  is_Some (files w !! path) →
  ∃ r w',
    (treated_row ← preprocess_row row run_id; writerow path fieldnames treated_row) w
    = (r, w')
    ∧ (r = Ok () ∨ r = Raise TypeError ∨ r = Raise ValueError)
    ∧ executed w' = executed w ∧ rejects w' = rejects w ∧ now w' = now w
    ∧ is_Some (files w' !! path)
    ∧ (∀ p, p ≠ path → files w' !! p = files w !! p)
    ∧ ticks w' = S (ticks w).
Proof.
  intros Hfile. unfold preprocess_row.
  unfold mbind at 1, db_bind at 1. unfold mbind at 1, db_bind at 1.
  unfold datetime_now_isoformat, db_lift.
  destruct (traverse_cells_result
              (dict_set "inserted_at" (PStr (now w (ticks w)))
                 (dict_set "run_id" (PStr run_id) row))) as [[cells ->]| ->].
  - unfold writerow. destruct (forallb _ cells).
    + do 2 eexists. split; [reflexivity|]. cbn [files now ticks rejects executed].
      repeat split; [by left|by rewrite lookup_insert_eq|].
      intros p Hp. by rewrite lookup_insert_ne.
    + do 2 eexists. split; [reflexivity|]. cbn [files now ticks rejects executed].
      repeat split; [by right; right|done..].
  - do 2 eexists. split; [reflexivity|]. cbn [files now ticks rejects executed].
    repeat split; [by right; left|done..].
Qed.

Lemma export_loop_frame {M : Type} `{BaseModel M} (data : list M) (fieldnames : list string)
    (run_id path : string) (w : warehouse) :
  is_Some (files w !! path) →
  ∃ r w',
    for_each_db data (fun row =>
      let row_without_metadata := model_dump row in
      treated_row ← preprocess_row row_without_metadata run_id;
      writerow path fieldnames treated_row) w
    = (r, w')
    ∧ (r = Ok () ∨ r = Raise TypeError ∨ r = Raise ValueError)
    ∧ executed w' = executed w ∧ rejects w' = rejects w ∧ now w' = now w
    ∧ is_Some (files w' !! path)
    ∧ (∀ p, p ≠ path → files w' !! p = files w !! p)
    ∧ (ticks w ≤ ticks w' ≤ ticks w + length data)%nat.
Proof.
  revert w. induction data as [|row data IH]; intros w Hfile.
  - exists (Ok ()), w. cbn. repeat split; (by left) || done || lia.
  - cbn [for_each_db]. unfold mbind at 1, db_bind at 1. cbv zeta.
    destruct (export_step_frame (model_dump row) fieldnames run_id path w Hfile)
      as (r & w1 & -> & Hr & Hex & Hrj & Hnow & Hfile1 & Hother & Hticks).
    destruct Hr as [->|[->| ->]].
    + destruct (IH w1 Hfile1)
        as (r & w2 & Hrun & Hr & Hex2 & Hrj2 & Hnow2 & Hfile2 & Hother2 & Ht2).
      exists r, w2. split; [exact Hrun|]. cbn [length].
      repeat split; try congruence; try lia.
      intros p Hp. rewrite Hother2, Hother; done.
    + exists (Raise TypeError), w1. cbn [length].
      repeat split; try done; try lia. by right; left.
    + exists (Raise ValueError), w1. cbn [length].
      repeat split; try done; try lia. by right; right.
Qed.

Lemma export_frame {M : Type} `{BaseModel M} (data : list M) (file_name run_id : string)
    (w : warehouse) :
  ∃ r w',
    export_data_to_csv data file_name run_id w = (r, w')
    ∧ (r = Ok () ∨ r = Raise IndexError ∨ r = Raise TypeError ∨ r = Raise ValueError)
    ∧ (r = Raise IndexError ↔ data = [])
    ∧ executed w' = executed w ∧ rejects w' = rejects w ∧ now w' = now w
    ∧ is_Some (files w' !! ("/tmp/" +:+ file_name))
    ∧ (∀ p, p ≠ "/tmp/" +:+ file_name → files w' !! p = files w !! p)
    ∧ (ticks w ≤ ticks w' ≤ ticks w + length data)%nat.
Proof.
  unfold export_data_to_csv. unfold mbind at 1, db_bind at 1, open_w.
  destruct data as [|first rest].
  - do 2 eexists. split; [reflexivity|]. cbn [files now ticks rejects executed length].
    repeat split; try done; try lia.
    + by right; left.
    + by rewrite lookup_insert_eq.
    + intros p Hp. by rewrite lookup_insert_ne.
  - unfold mbind at 1, db_bind at 1, write_row. cbn [files now ticks rejects executed].
    match goal with
    | |- context [for_each_db ?d ?b ?w0] =>
        destruct (export_loop_frame d
                    (keys (model_dump first) ++ ["run_id"; "inserted_at"])
                    run_id ("/tmp/" +:+ file_name) w0)
          as (r & w' & Hrun & Hr & Hex & Hrj & Hnow & Hfile & Hother & Ht)
    end.
    { cbn [files]. by rewrite lookup_insert_eq. }
    exists r, w'. split; [exact Hrun|]. cbn [files now ticks rejects executed] in *.
    repeat split; try done; try lia.
    + destruct Hr as [->|[->| ->]]; auto.
    + intros ->. by destruct Hr as [?|[?|?]].
    + intros p Hp. rewrite Hother by done. by rewrite !lookup_insert_ne.
Qed.

(** X14: whatever the records and whatever the outcome, the export leaves
    the connection alone (no statement is run), leaves every other file as it
    was, leaves its own file in place (it is created or emptied before the
    records are looked at) and reads the clock at most once per record. Once
    the file is open, it can only fail with [IndexError], [TypeError] (a
    nested value that JSON cannot write) or [ValueError] (a record with a
    field the first record does not have), and with [IndexError] exactly
    when there is no record. *)
Theorem export_stays_in_its_file {M : Type} `{BaseModel M} (data : list M)
    (file_name run_id : string) (w : warehouse) :
  let r := (export_data_to_csv data file_name run_id w).1 in
  let w' := (export_data_to_csv data file_name run_id w).2 in
  executed w' = executed w ∧ rejects w' = rejects w ∧ now w' = now w
  ∧ is_Some (files w' !! ("/tmp/" +:+ file_name))
  ∧ (∀ p, p ≠ "/tmp/" +:+ file_name → files w' !! p = files w !! p)
  ∧ (ticks w ≤ ticks w' ≤ ticks w + length data)%nat
  ∧ (r = Ok () ∨ r = Raise IndexError ∨ r = Raise TypeError ∨ r = Raise ValueError)
  ∧ (r = Raise IndexError ↔ data = []).
Proof.
  destruct (export_frame data file_name run_id w)
    as (r & w' & -> & Hr & Hempty & Hex & Hrj & Hnow & Hfile & Hother & Ht).
  cbn [fst snd]. repeat split; try done; try lia; apply Hempty.
Qed.

(** ** Staging and merging *)

Lemma execute_then {A : Type} (query : string) (args : list string) (rest : db A)
    (w : warehouse) :
  (_ ← cursor_execute query args; rest) w
  = if rejects w (Statement query args) then (Raise DatabaseError, w)
    else rest (ran_all [Statement query args] w).
Proof.
  unfold mbind, db_bind, cursor_execute, ran_all.
  by destruct (rejects w (Statement query args)).
Qed.

Lemma execute_last (query : string) (args : list string) (w : warehouse) :
  cursor_execute query args w
  = if rejects w (Statement query args) then (Raise DatabaseError, w)
    else (Ok (), ran_all [Statement query args] w).
Proof. reflexivity. Qed.

Lemma execute_all_run (ss : list statement) (w : warehouse) :
  execute_all ss w = (outcome (rejects w) ss, ran_all (accepted (rejects w) ss) w).
Proof.
  revert w. induction ss as [|[q a] ss IH]; intros [fs nw tk rj ex].
  - unfold ran_all. cbn. by rewrite app_nil_r.
  - cbn [execute_all sql params]. rewrite execute_then. unfold outcome.
    cbn [rejects existsb accepted].
    destruct (rj (Statement q a)) eqn:Hq.
    + unfold ran_all. cbn. by rewrite app_nil_r.
    + rewrite IH. unfold ran_all, outcome. cbn. by rewrite <- app_assoc.
Qed.

Lemma stage_is_execute_all (file_name table_name : string) (w : warehouse) :
  is_Some (files w !! ("/tmp/" +:+ file_name)) →
  stage_file_in_snowflake file_name table_name w
  = execute_all (stage_statements file_name table_name) w.
Proof.
  intros [content Hfile]. unfold stage_file_in_snowflake, stage_statements.
  cbv zeta. unfold mbind at 1, db_bind at 1, open_rb. rewrite Hfile.
  cbn [execute_all sql params]. rewrite !execute_then, execute_last.
  reflexivity.
Qed.

Lemma execute_all_app (ss ss' : list statement) (w : warehouse) :
  execute_all (ss ++ ss') w = (_ ← execute_all ss; execute_all ss') w.
Proof.
  revert w. induction ss as [|s ss IH]; intros w; [done|].
  cbn [app execute_all]. unfold mbind, db_bind in *.
  destruct (cursor_execute (sql s) (params s) w) as [[[]|e] w1]; [apply IH|done].
Qed.

Lemma accepted_prefix (rejects : statement → bool) (ss : list statement) :
  ∃ k, accepted rejects ss = take k ss
       ∧ Forall (fun s => rejects s = false) (take k ss)
       ∧ (outcome rejects ss = Ok () ∧ accepted rejects ss = ss
          ∨ outcome rejects ss = Raise DatabaseError
            ∧ ∃ s, ss !! k = Some s ∧ rejects s = true).
Proof.
  unfold outcome. induction ss as [|s ss (k & Hk & Hacc & Hr)].
  - exists 0%nat. repeat split; [constructor|by left].
  - cbn [accepted existsb]. destruct (rejects s) eqn:Hs.
    + exists 0%nat. repeat split; [constructor|]. right. split; [done|]. by exists s.
    + exists (S k). cbn [take orb]. rewrite Hk. repeat split; [by constructor|].
      destruct Hr as [[-> Hall]|[-> Hs']]; [left|right; done].
      split; [done|]. by rewrite <- Hk, Hall.
Qed.

(** X15: staging a file that does not exist under /tmp raises
    [FileNotFoundError] before anything is given to the connection. When the file is there, the
    connection is given USE SCHEMA, PUT and COPY INTO in that order, up to
    the first one it rejects: the statements it ran are a prefix of these
    three, none of them rejected; staging returns normally exactly when all
    three ran, and otherwise raises the connection's error at a rejected
    statement. Staging changes neither the files nor the clock. *)
Theorem stage_runs_a_prefix (file_name table_name : string) (w : warehouse) :
  match files w !! ("/tmp/" +:+ file_name) with
  | None => stage_file_in_snowflake file_name table_name w = (Raise FileNotFoundError, w)
  | Some _ =>
      let r := (stage_file_in_snowflake file_name table_name w).1 in
      let w' := (stage_file_in_snowflake file_name table_name w).2 in
      ∃ k,
        w' = ran_all (take k (stage_statements file_name table_name)) w
        ∧ Forall (fun s => rejects w s = false)
            (take k (stage_statements file_name table_name))
        ∧ (r = Ok () ∧ w' = ran_all (stage_statements file_name table_name) w
           ∨ r = Raise DatabaseError
             ∧ ∃ s, stage_statements file_name table_name !! k = Some s
                    ∧ rejects w s = true)
  end.
Proof.
  destruct (files w !! ("/tmp/" +:+ file_name)) as [content|] eqn:Hfile.
  - rewrite stage_is_execute_all by (by rewrite Hfile).
    rewrite execute_all_run. cbn [fst snd].
    destruct (accepted_prefix (rejects w) (stage_statements file_name table_name))
      as (k & Hk & Hacc & Hr).
    exists k. rewrite <- Hk. repeat split; [by rewrite Hk|].
    destruct Hr as [[-> ->]|[-> Hs]]; [by left|by right].
  - unfold stage_file_in_snowflake. cbv zeta.
    unfold mbind at 1, db_bind at 1, open_rb. by rewrite Hfile.
Qed.

(** ** The three loaders *)

Lemma stage_then_merge {M : Type} `{BaseModel M} (first : M) (rest : list M)
    (file_name table_name staging_table target_table run_id : string)
    (id_matching_columns : option (list string)) (w : warehouse) :
  is_Some (files w !! ("/tmp/" +:+ file_name)) →
  (_ ← stage_file_in_snowflake file_name table_name;
   columns ← first_keys (first :: rest);
   merge_staging_table_into_target_table staging_table target_table columns run_id
     id_matching_columns) w
  = execute_all
      (stage_statements file_name table_name
       ++ [merge_of staging_table target_table (keys (model_dump first)) run_id
             id_matching_columns]) w.
Proof.
  intros Hfile. rewrite execute_all_app. unfold mbind at 1 3, db_bind at 1 3.
  rewrite stage_is_execute_all by done.
  destruct (execute_all (stage_statements file_name table_name) w) as [[[]|e] w1]; [|done].
  cbn [first_keys execute_all]. rewrite execute_then.
  unfold mbind, db_bind, mret, db_ret, merge_staging_table_into_target_table.
  cbv zeta. rewrite execute_last. reflexivity.
Qed.

Lemma load_run {M : Type} `{BaseModel M} (first : M) (rest : list M)
    (file_name table_name staging_table target_table run_id : string)
    (id_matching_columns : option (list string)) (w : warehouse) :
  NoDup (keys (model_dump first) ++ ["run_id"; "inserted_at"]) →
  Forall (fun r => keys (model_dump r) = keys (model_dump first)
                   ∧ forallb (fun kv => writable (snd kv)) (model_dump r) = true)
    (first :: rest) →
  (_ ← export_data_to_csv (first :: rest) file_name run_id;
   _ ← stage_file_in_snowflake file_name table_name;
   columns ← first_keys (first :: rest);
   merge_staging_table_into_target_table staging_table target_table columns run_id
     id_matching_columns) w
  = (outcome (rejects w)
       (stage_statements file_name table_name
        ++ [merge_of staging_table target_table (keys (model_dump first)) run_id
              id_matching_columns]),
     ran_all
       (accepted (rejects w)
          (stage_statements file_name table_name
           ++ [merge_of staging_table target_table (keys (model_dump first)) run_id
                 id_matching_columns]))
       (exported file_name run_id (List.map model_dump (first :: rest)) w)).
Proof.
  intros Hnd Hall. unfold mbind at 1, db_bind at 1.
  rewrite (export_ok first rest file_name run_id w Hnd Hall).
  rewrite (stage_then_merge first rest).
  2:{ cbn [files]. by rewrite lookup_insert_eq. }
  rewrite execute_all_run. unfold exported.
  cbn [rejects List.map hd length]. by rewrite length_map.
Qed.

Lemma account_rows_exportable (rows : list GeneralLedgerAccountFlattened.t)
    (first : GeneralLedgerAccountFlattened.t) :
  Forall (fun r => keys (model_dump r) = keys (model_dump first)
                   ∧ forallb (fun kv => writable (snd kv)) (model_dump r) = true) rows.
Proof.
  apply Forall_forall. intros r _. split; [reflexivity|].
  destruct r as [? [?|] ? [?|] ? ? ? [?|] ? ? [?|] ? ? [?|]]; reflexivity.
Qed.

Lemma participation_rows_exportable (rows : list GeneralLedgerAccountTransactions.t)
    (first : GeneralLedgerAccountTransactions.t) :
  Forall (fun r => keys (model_dump r) = keys (model_dump first)
                   ∧ forallb (fun kv => writable (snd kv)) (model_dump r) = true) rows.
Proof. apply Forall_forall. intros r _. by split. Qed.

Lemma load_accounts_run (first : GeneralLedgerAccountFlattened.t)
    (rest : list GeneralLedgerAccountFlattened.t) (run_id : string) (w : warehouse) :
  load_general_ledger_accounts_into_snowflake (first :: rest) run_id w
  = (outcome (rejects w)
       (stage_statements ("general_ledger_accounts_" +:+ run_id +:+ ".csv") "account"
        ++ [merge_of "general_ledger_staging.account" "general_ledger.account"
              (keys (model_dump first)) run_id None]),
     ran_all
       (accepted (rejects w)
          (stage_statements ("general_ledger_accounts_" +:+ run_id +:+ ".csv") "account"
           ++ [merge_of "general_ledger_staging.account" "general_ledger.account"
                 (keys (model_dump first)) run_id None]))
       (exported ("general_ledger_accounts_" +:+ run_id +:+ ".csv") run_id
          (List.map model_dump (first :: rest)) w)).
Proof.
  unfold load_general_ledger_accounts_into_snowflake. cbv zeta.
  apply (load_run first rest); [|apply account_rows_exportable].
  cbn. repeat constructor; set_solver.
Qed.

Lemma load_participation_run (first : GeneralLedgerAccountTransactions.t)
    (rest : list GeneralLedgerAccountTransactions.t) (run_id : string) (w : warehouse) :
  load_general_ledger_account_transactions_into_snowflake (first :: rest) run_id w
  = (outcome (rejects w)
       (stage_statements ("general_ledger_account_transactions_" +:+ run_id +:+ ".csv")
          "account_transactions"
        ++ [merge_of "general_ledger_staging.account_transactions"
              "general_ledger.account_transactions" (keys (model_dump first)) run_id
              (Some ["account_id"; "transaction_id"])]),
     ran_all
       (accepted (rejects w)
          (stage_statements ("general_ledger_account_transactions_" +:+ run_id +:+ ".csv")
             "account_transactions"
           ++ [merge_of "general_ledger_staging.account_transactions"
                 "general_ledger.account_transactions" (keys (model_dump first)) run_id
                 (Some ["account_id"; "transaction_id"])]))
       (exported ("general_ledger_account_transactions_" +:+ run_id +:+ ".csv") run_id
          (List.map model_dump (first :: rest)) w)).
Proof.
  unfold load_general_ledger_account_transactions_into_snowflake. cbv zeta.
  apply (load_run first rest); [|apply participation_rows_exportable].
  cbn. repeat constructor; set_solver.
Qed.

(** X16: the account loader and the participation loader, whose records
    hold no nested value, never fail while exporting a non-empty batch: the
    file holds the header and one row per record, and the connection is
    given USE SCHEMA, PUT, COPY INTO and the MERGE in that order. The loader
    returns normally when none of the four is rejected; otherwise it raises
    the connection's error and the statements before the rejected one have
    run. The merge inserts the fields of the first record, matching on [id]
    for accounts and on [account_id] and [transaction_id] for participation
    rows. *)
Theorem scalar_loaders_run (run_id : string) (w : warehouse) :
  (∀ (first : GeneralLedgerAccountFlattened.t) rest,
     let file_name := "general_ledger_accounts_" +:+ run_id +:+ ".csv" in
     let statements :=
       stage_statements file_name "account"
       ++ [merge_of "general_ledger_staging.account" "general_ledger.account"
             (keys (model_dump first)) run_id None] in
     load_general_ledger_accounts_into_snowflake (first :: rest) run_id w
     = (outcome (rejects w) statements,
        ran_all (accepted (rejects w) statements)
          (exported file_name run_id (List.map model_dump (first :: rest)) w)))
  ∧ (∀ (first : GeneralLedgerAccountTransactions.t) rest,
       let file_name := "general_ledger_account_transactions_" +:+ run_id +:+ ".csv" in
       let statements :=
         stage_statements file_name "account_transactions"
         ++ [merge_of "general_ledger_staging.account_transactions"
               "general_ledger.account_transactions"
               (keys (model_dump first)) run_id
               (Some ["account_id"; "transaction_id"])] in
       load_general_ledger_account_transactions_into_snowflake (first :: rest) run_id w
       = (outcome (rejects w) statements,
          ran_all (accepted (rejects w) statements)
            (exported file_name run_id (List.map model_dump (first :: rest)) w)))
  ∧ (∀ first : GeneralLedgerAccountTransactions.t,
       keys (model_dump first) = ["account_id"; "transaction_id"])
  ∧ (∀ ss, ∃ k, accepted (rejects w) ss = take k ss
                ∧ Forall (fun s => rejects w s = false) (accepted (rejects w) ss)
                ∧ (outcome (rejects w) ss = Ok () ↔ accepted (rejects w) ss = ss)).
Proof.
  split; [|split; [|split]].
  - intros first rest. apply load_accounts_run.
  - intros first rest. apply load_participation_run.
  - reflexivity.
  - intros ss. destruct (accepted_prefix (rejects w) ss) as (k & Hk & Hacc & Hr).
    exists k. rewrite Hk. repeat split; [done|..].
    + intros Hok. destruct Hr as [[_ Hall]|[Hbad _]]; [by rewrite <- Hk|congruence].
    + intros Hall. destruct Hr as [[Hok _]|[_ (s & Hs & Hrej)]]; [done|].
      rewrite Forall_forall in Hacc. rewrite Hall in Hacc.
      apply list_elem_of_lookup_2 in Hs. by rewrite (Hacc s Hs) in Hrej.
Qed.

Lemma lines_serialisable (lines : list JournalLineTransformed.t) :
  forallb json_serialisable
    (List.map (fun l => PDict (JournalLineTransformed.model_dump l)) lines) = true.
Proof.
  apply forallb_forall. intros v (l & <- & _)%in_map_iff.
  destruct l as [? ? [?|] ? ? [? ? ? [? ?]]]; reflexivity.
Qed.

Lemma transaction_rows_exportable (rows : list GeneralLedgerTransactionTransformed.t)
    (first : GeneralLedgerTransactionTransformed.t) :
  Forall (fun x =>
    forallb json_serialisable
      (DepositDetails.payment_transactions
         (GeneralLedgerTransactionTransformed.deposit_details x)) = true) rows →
  Forall (fun r => keys (model_dump r) = keys (model_dump first)
                   ∧ forallb (fun kv => writable (snd kv)) (model_dump r) = true) rows.
Proof.
  intros Hall. eapply Forall_impl; [exact Hall|]. intros x Hx. split; [reflexivity|].
  destruct x as [? ? ? ? ? [? ? ?] ? ? [? [?|] ? [?|]] [[?|] items] ? lines ?];
    cbn [GeneralLedgerTransactionTransformed.deposit_details
         DepositDetails.payment_transactions] in Hx;
    unfold model_dump, GeneralLedgerTransactionTransformed_model,
      GeneralLedgerTransactionTransformed.model_dump;
    cbn [forallb snd writable json_serialisable
         GeneralLedgerTransactionTransformed.id GeneralLedgerTransactionTransformed.date
         GeneralLedgerTransactionTransformed.transaction_type
         GeneralLedgerTransactionTransformed.total_amount
         GeneralLedgerTransactionTransformed.check_number
         GeneralLedgerTransactionTransformed.unit_agreement
         GeneralLedgerTransactionTransformed.unit_id
         GeneralLedgerTransactionTransformed.unit_number
         GeneralLedgerTransactionTransformed.payment_detail
         GeneralLedgerTransactionTransformed.deposit_details
         GeneralLedgerTransactionTransformed.journal_memo
         GeneralLedgerTransactionTransformed.lines
         GeneralLedgerTransactionTransformed.last_updated_date_time
         UnitAgreement.model_dump PaymentDetail.model_dump DepositDetails.model_dump
         DepositDetails.bank_gl_account_id DepositDetails.payment_transactions
         of_opt_int of_opt_str andb];
    rewrite ?Hx, ?lines_serialisable; reflexivity.
Qed.

Lemma load_transactions_run (first : GeneralLedgerTransactionTransformed.t)
    (rest : list GeneralLedgerTransactionTransformed.t) (run_id : string) (w : warehouse) :
  Forall (fun x =>
    forallb json_serialisable
      (DepositDetails.payment_transactions
         (GeneralLedgerTransactionTransformed.deposit_details x)) = true)
    (first :: rest) →
  load_general_ledger_transactions_into_snowflake (first :: rest) run_id w
  = (outcome (rejects w)
       (stage_statements ("general_ledger_transactions_" +:+ run_id +:+ ".csv")
          "transaction"
        ++ [merge_of "general_ledger_staging.transaction" "general_ledger.transaction"
              (keys (model_dump first)) run_id None]),
     ran_all
       (accepted (rejects w)
          (stage_statements ("general_ledger_transactions_" +:+ run_id +:+ ".csv")
             "transaction"
           ++ [merge_of "general_ledger_staging.transaction" "general_ledger.transaction"
                 (keys (model_dump first)) run_id None]))
       (exported ("general_ledger_transactions_" +:+ run_id +:+ ".csv") run_id
          (List.map model_dump (first :: rest)) w)).
Proof.
  intros Hall. unfold load_general_ledger_transactions_into_snowflake. cbv zeta.
  apply (load_run first rest); [|by apply transaction_rows_exportable].
  cbn. repeat constructor; set_solver.
Qed.

(** X17: the transaction loader, given a non-empty batch in which every
    item kept under [payment_transactions] can be written as JSON, does not
    fail while exporting: unit agreement, payment detail, deposit details
    and lines go into the file as JSON text, the two dates as they are. The
    connection is then given USE SCHEMA, PUT, COPY INTO and the MERGE on
    [id] in that order, up to the first one it rejects. *)
Theorem transaction_loader_runs (first : GeneralLedgerTransactionTransformed.t)
    (rest : list GeneralLedgerTransactionTransformed.t) (run_id : string) (w : warehouse) :
  Forall (fun x =>
    forallb json_serialisable
      (DepositDetails.payment_transactions
         (GeneralLedgerTransactionTransformed.deposit_details x)) = true)
    (first :: rest) →
  let file_name := "general_ledger_transactions_" +:+ run_id +:+ ".csv" in
  let statements :=
    stage_statements file_name "transaction"
    ++ [merge_of "general_ledger_staging.transaction" "general_ledger.transaction"
          (keys (model_dump first)) run_id None] in
  load_general_ledger_transactions_into_snowflake (first :: rest) run_id w
  = (outcome (rejects w) statements,
     ran_all (accepted (rejects w) statements)
       (exported file_name run_id (List.map model_dump (first :: rest)) w))
  ∧ List.map (fun kv => cell_of (snd kv)) (model_dump first)
    = [ Plain (PInt (GeneralLedgerTransactionTransformed.id first));
        Plain (PDate (GeneralLedgerTransactionTransformed.date first));
        Plain (PStr (GeneralLedgerTransactionTransformed.transaction_type first));
        Plain (PFloat (GeneralLedgerTransactionTransformed.total_amount first));
        Plain (PStr (GeneralLedgerTransactionTransformed.check_number first));
        Dumped (Json (PDict (UnitAgreement.model_dump
                               (GeneralLedgerTransactionTransformed.unit_agreement first))));
        Plain (PInt (GeneralLedgerTransactionTransformed.unit_id first));
        Plain (PStr (GeneralLedgerTransactionTransformed.unit_number first));
        Dumped (Json (PDict (PaymentDetail.model_dump
                               (GeneralLedgerTransactionTransformed.payment_detail first))));
        Dumped (Json (PDict (DepositDetails.model_dump
                               (GeneralLedgerTransactionTransformed.deposit_details first))));
        Plain (PStr (GeneralLedgerTransactionTransformed.journal_memo first));
        Dumped (Json (PList (List.map (fun l => PDict (JournalLineTransformed.model_dump l))
                               (GeneralLedgerTransactionTransformed.lines first))));
        Plain (PDateTime (GeneralLedgerTransactionTransformed.last_updated_date_time first)) ].
Proof.
  intros Hall. cbv zeta. split; [|reflexivity].
  by apply load_transactions_run.
Qed.

Lemma transaction_loader_runs_witness :
  (load_general_ledger_transactions_into_snowflake
     [flatten_transaction (Sample.transaction 1 "Rent" [101])] "run-1"
     Sample.empty_warehouse).1 = Ok ()
  ∧ length (executed
      (load_general_ledger_transactions_into_snowflake
         [flatten_transaction (Sample.transaction 1 "Rent" [101])] "run-1"
         Sample.empty_warehouse).2) = 4%nat.
Proof.
  rewrite (proj1 (transaction_loader_runs
                    (flatten_transaction (Sample.transaction 1 "Rent" [101])) [] "run-1"
                    Sample.empty_warehouse ltac:(repeat constructor))).
  split; reflexivity.
Defined.

(** ** The script as a whole *)

Lemma accepted_all (rejects : statement → bool) (ss : list statement) :
  (∀ s, rejects s = false) → accepted rejects ss = ss ∧ outcome rejects ss = Ok ().
Proof.
  intros Hnone. unfold outcome. induction ss as [|s ss [IH1 IH2]]; [done|].
  cbn [accepted existsb]. rewrite (Hnone s), IH1. cbn [orb].
  by destruct (existsb rejects ss).
Qed.

Lemma kept_first_cons (x : GeneralLedgerTransaction.t)
    (rest : list GeneralLedgerTransaction.t) :
  kept ∅ (x :: rest) = x :: kept ({[ GeneralLedgerTransaction.id x ]}) rest.
Proof.
  cbn [kept]. case_bool_decide as Hin; [set_solver|]. by rewrite (left_id_L ∅ (∪)).
Qed.

Section MainProperties.

Variable set_order : gset Z → list Z.
Variable validate_account : pyval → option GeneralLedgerAccount.t.
Variable validate_transaction : pyval → option GeneralLedgerTransaction.t.

Lemma participation_world (ids : list Z) (payload : json_text) (w : world)
    (st : list GeneralLedgerAccountTransactions.t * list GeneralLedgerTransaction.t) :
  (for_each_io ids
     (fun (st : list GeneralLedgerAccountTransactions.t
                * list GeneralLedgerTransaction.t) account_id =>
       let '(transactions_per_account, all_transactions) := st in
       transactions ←
         get_general_ledger_transactions validate_transaction account_id None None
           (Some payload);
       match transactions with
       | [] => mret (transactions_per_account, all_transactions)
       | _ =>
           let all_transactions := all_transactions ++ transactions in
           let transactions_per_account :=
             fold_left (fun acc transaction =>
               acc ++ [GeneralLedgerAccountTransactions.Build account_id
                         (GeneralLedgerTransaction.id transaction)])
               transactions transactions_per_account in
           mret (transactions_per_account, all_transactions)
       end) st w).2 = w.
Proof.
  revert st. induction ids as [|a ids IH]; intros [rows txs]; [done|].
  cbn [for_each_io]. unfold mbind at 1, io_bind at 1. unfold mbind at 1, io_bind at 1.
  rewrite get_transactions_offline_world.
  destruct (get_general_ledger_transactions validate_transaction a None None
              (Some payload) w).1 as [[|x rest]|e]; cbn [mret io_ret]; [apply IH..|done].
Qed.

Lemma accounts_offline_world (payload : json_text) (w : world) :
  (get_general_ledger_accounts validate_account (Some payload) w).2 = w.
Proof.
  unfold get_general_ledger_accounts, mbind, io_bind, mret, io_ret, lift.
  by destruct (GeneralLedgerAccounts_validate_json validate_account payload).
Qed.

(** X18: the script never calls the API and never sleeps (both fetchers
    are given the payloads read from the files) and loading comes last. If
    reading and validating the accounts fails, the script ends with exactly
    that error; if that succeeds and flattening fails, with the flattener's
    error; if those succeed and the mapping over the flattened accounts' ids
    fails, with the mapper's error; in these three cases nothing has been
    written or given to the connection. If the three steps succeed, the
    outcome of the script is exactly that of the three loaders run on the
    flattened accounts, the accumulated transactions with repeats dropped
    and the participation rows, in that order, each only if the one before
    returned normally. *)
Theorem main_loads_last (general_ledger_json_data general_ledger_transactions_json_data
    : json_text) (run_id : string) (w : world) (wh : warehouse) :
  (main set_order validate_account validate_transaction general_ledger_json_data
     general_ledger_transactions_json_data run_id w wh).1.2 = w
  ∧ (∀ e w1,
       get_general_ledger_accounts validate_account (Some general_ledger_json_data) w
       = (Raise e, w1) →
       main set_order validate_account validate_transaction general_ledger_json_data
         general_ledger_transactions_json_data run_id w wh
       = (Raise e, w, wh))
  ∧ (∀ accounts e w1,
       get_general_ledger_accounts validate_account (Some general_ledger_json_data) w
       = (Ok accounts, w1) →
       transform_general_ledger_accounts accounts = Raise e →
       main set_order validate_account validate_transaction general_ledger_json_data
         general_ledger_transactions_json_data run_id w wh
       = (Raise e, w, wh))
  ∧ (∀ accounts flattened e w1 w2,
       get_general_ledger_accounts validate_account (Some general_ledger_json_data) w
       = (Ok accounts, w1) →
       transform_general_ledger_accounts accounts = Ok flattened →
       map_account_participation validate_transaction
         (set_order (list_to_set
            (List.map GeneralLedgerAccountFlattened.id flattened)))
         general_ledger_transactions_json_data w
       = (Raise e, w2) →
       main set_order validate_account validate_transaction general_ledger_json_data
         general_ledger_transactions_json_data run_id w wh
       = (Raise e, w, wh))
  ∧ (∀ accounts flattened rows all_transactions w1 w2,
       get_general_ledger_accounts validate_account (Some general_ledger_json_data) w
       = (Ok accounts, w1) →
       transform_general_ledger_accounts accounts = Ok flattened →
       map_account_participation validate_transaction
         (set_order (list_to_set
            (List.map GeneralLedgerAccountFlattened.id flattened)))
         general_ledger_transactions_json_data w
       = (Ok (rows, all_transactions), w2) →
       main set_order validate_account validate_transaction general_ledger_json_data
         general_ledger_transactions_json_data run_id w wh
       = (((_ ← load_general_ledger_accounts_into_snowflake flattened run_id;
            _ ← load_general_ledger_transactions_into_snowflake
                  (List.map flatten_transaction (kept ∅ all_transactions)) run_id;
            load_general_ledger_account_transactions_into_snowflake rows run_id) wh).1,
          w,
          ((_ ← load_general_ledger_accounts_into_snowflake flattened run_id;
            _ ← load_general_ledger_transactions_into_snowflake
                  (List.map flatten_transaction (kept ∅ all_transactions)) run_id;
            load_general_ledger_account_transactions_into_snowflake rows run_id) wh).2)).
Proof.
  pose proof (accounts_offline_world general_ledger_json_data w) as Hw1.
  assert (Hw2 : ∀ ids,
            (map_account_participation validate_transaction ids
               general_ledger_transactions_json_data w).2 = w).
  { intros ids. apply participation_world. }
  split; [|split; [|split; [|split]]].
  - unfold main.
    destruct (get_general_ledger_accounts validate_account (Some general_ledger_json_data) w)
      as [[accounts|e] w1]; cbn [snd] in Hw1; subst w1; [|done].
    destruct (transform_general_ledger_accounts accounts) as [flattened|e]; [|done].
    cbv zeta.
    specialize (Hw2 (set_order (list_to_set
                       (List.map GeneralLedgerAccountFlattened.id flattened)))).
    destruct (map_account_participation validate_transaction
                (set_order (list_to_set
                   (List.map GeneralLedgerAccountFlattened.id flattened)))
                general_ledger_transactions_json_data w)
      as [[[rows txs]|e] w2]; cbn [snd] in Hw2; subst w2; [|done].
    destruct (transform_general_ledger_transactions txs); [|done].
    by destruct (load_all _ _ _ _ _).
  - intros e w1 Hget. rewrite Hget in Hw1. cbn [snd] in Hw1. subst w1.
    unfold main. by rewrite Hget.
  - intros accounts e w1 Hget Hflat. rewrite Hget in Hw1. cbn [snd] in Hw1. subst w1.
    unfold main. by rewrite Hget, Hflat.
  - intros accounts flattened e w1 w2 Hget Hflat Hmap.
    rewrite Hget in Hw1. cbn [snd] in Hw1. subst w1.
    pose proof (Hw2 (set_order (list_to_set
                       (List.map GeneralLedgerAccountFlattened.id flattened)))) as Hw.
    rewrite Hmap in Hw. cbn [snd] in Hw. subst w2.
    unfold main. rewrite Hget, Hflat. cbv zeta. by rewrite Hmap.
  - intros accounts flattened rows txs w1 w2 Hget Hflat Hmap.
    rewrite Hget in Hw1. cbn [snd] in Hw1. subst w1.
    pose proof (Hw2 (set_order (list_to_set
                       (List.map GeneralLedgerAccountFlattened.id flattened)))) as Hw.
    rewrite Hmap in Hw. cbn [snd] in Hw. subst w2.
    unfold main. rewrite Hget, Hflat. cbv zeta. rewrite Hmap.
    rewrite transform_transactions_kept. unfold load_all.
    by destruct ((_ ← load_general_ledger_accounts_into_snowflake flattened run_id;
                  _ ← load_general_ledger_transactions_into_snowflake
                        (List.map flatten_transaction (kept ∅ txs)) run_id;
                  load_general_ledger_account_transactions_into_snowflake rows run_id) wh).
Qed.

(** X19: when the accounts are read and flattened to at least one
    account but no transaction of the payload touches any of them, the
    script cannot succeed. The accounts
    are exported, staged and merged first; if the connection accepts these
    four statements, the transaction loader then raises [IndexError] on its
    empty batch, leaving an empty transactions file, with the four account
    statements run; otherwise the script ends with the connection's error.
    The participation loader is never reached. *)
Theorem main_without_transactions (general_ledger_json_data
    general_ledger_transactions_json_data : json_text) (run_id : string) (w w' : world)
    (wh : warehouse) (accounts : list GeneralLedgerAccount.t)
    (first : GeneralLedgerAccountFlattened.t)
    (rest : list GeneralLedgerAccountFlattened.t) :
  get_general_ledger_accounts validate_account (Some general_ledger_json_data) w
  = (Ok accounts, w) →
  transform_general_ledger_accounts accounts = Ok (first :: rest) →
  map_account_participation validate_transaction
    (set_order (list_to_set
       (List.map GeneralLedgerAccountFlattened.id (first :: rest))))
    general_ledger_transactions_json_data w
  = (Ok ([], []), w') →
  let file_name := "general_ledger_accounts_" +:+ run_id +:+ ".csv" in
  let statements :=
    stage_statements file_name "account"
    ++ [merge_of "general_ledger_staging.account" "general_ledger.account"
          (keys (model_dump first)) run_id None] in
  let merged :=
    ran_all (accepted (rejects wh) statements)
      (exported file_name run_id (List.map model_dump (first :: rest)) wh) in
  main set_order validate_account validate_transaction general_ledger_json_data
    general_ledger_transactions_json_data run_id w wh
  = if existsb (rejects wh) statements then (Raise DatabaseError, w', merged)
    else (Raise IndexError, w',
          truncated ("/tmp/general_ledger_transactions_" +:+ run_id +:+ ".csv") merged).
Proof.
  intros Hget Hflat Hmap. cbv zeta. unfold main. rewrite Hget, Hflat. cbv zeta.
  rewrite Hmap. rewrite transform_transactions_kept. cbn [kept List.map].
  unfold load_all. unfold mbind at 1, db_bind at 1.
  rewrite load_accounts_run. unfold outcome.
  destruct (existsb (rejects wh) _); reflexivity.
Qed.

(** X20: a complete run. When the accounts are read and flattened, the
    mapper returns at least one transaction, every item kept under
    [payment_transactions] can be written as JSON and the connection rejects
    nothing, the script returns normally without any call to the API. The
    three batches are non-empty; for each in turn (accounts, then the
    transactions with repeats dropped, then the participation rows) the file
    is written with one row per record and the connection runs USE SCHEMA,
    PUT, COPY INTO and MERGE: twelve statements in all, and the clock is read
    once per exported record. *)
Theorem main_loads_everything (general_ledger_json_data
    general_ledger_transactions_json_data : json_text) (run_id : string) (w w' : world)
    (wh : warehouse) (accounts : list GeneralLedgerAccount.t)
    (flattened : list GeneralLedgerAccountFlattened.t)
    (rows : list GeneralLedgerAccountTransactions.t)
    (all_transactions : list GeneralLedgerTransaction.t) :
  (∀ s x, x ∈ set_order s → x ∈ s) →
  get_general_ledger_accounts validate_account (Some general_ledger_json_data) w
  = (Ok accounts, w) →
  transform_general_ledger_accounts accounts = Ok flattened →
  map_account_participation validate_transaction
    (set_order (list_to_set (List.map GeneralLedgerAccountFlattened.id flattened)))
    general_ledger_transactions_json_data w
  = (Ok (rows, all_transactions), w') →
  all_transactions ≠ [] →
  Forall (fun x =>
    forallb json_serialisable
      (DepositDetails.payment_transactions
         (GeneralLedgerTransaction.deposit_details x)) = true) all_transactions →
  (∀ s, rejects wh s = false) →
  ∃ first_account first_transaction first_row other_transactions wh',
    In first_account flattened
    ∧ In first_row rows
    ∧ List.map flatten_transaction (kept ∅ all_transactions)
      = first_transaction :: other_transactions
    ∧ main set_order validate_account validate_transaction general_ledger_json_data
        general_ledger_transactions_json_data run_id w wh
      = (Ok (), w, wh')
    ∧ w' = w
    ∧ executed wh'
      = executed wh
        ++ (stage_statements ("general_ledger_accounts_" +:+ run_id +:+ ".csv") "account"
            ++ [merge_of "general_ledger_staging.account" "general_ledger.account"
                  (keys (model_dump first_account)) run_id None])
        ++ (stage_statements ("general_ledger_transactions_" +:+ run_id +:+ ".csv")
              "transaction"
            ++ [merge_of "general_ledger_staging.transaction" "general_ledger.transaction"
                  (keys (model_dump first_transaction)) run_id None])
        ++ (stage_statements
              ("general_ledger_account_transactions_" +:+ run_id +:+ ".csv")
              "account_transactions"
            ++ [merge_of "general_ledger_staging.account_transactions"
                  "general_ledger.account_transactions" (keys (model_dump first_row))
                  run_id (Some ["account_id"; "transaction_id"])])
    ∧ length (executed wh') = (length (executed wh) + 12)%nat
    ∧ ticks wh'
      = (ticks wh + length flattened + length (kept ∅ all_transactions) + length rows)%nat
    ∧ length rows = length all_transactions.
Proof.
  intros Hsound Hget Hflat Hmap Hsome Hjson Hnone.
  pose proof Hmap as Hmap'. unfold map_account_participation in Hmap'.
  apply (participation_loop_returns validate_transaction) in Hmap'
    as (-> & rows1 & txs1 & Hrows & Htxs & Hids & Hin).
  cbn [app] in Hrows, Htxs. subst rows1 txs1.
  assert (Hlen : length rows = length all_transactions).
  { apply (f_equal length) in Hids. by rewrite !length_map in Hids. }
  destruct all_transactions as [|x txs]; [done|].
  destruct rows as [|first_row rows]; [done|].
  destruct flattened as [|first_account flattened].
  { apply Forall_cons in Hin as [Hin _]. apply Hsound in Hin. set_solver. }
  assert (Hout : Forall (fun y =>
            forallb json_serialisable
              (DepositDetails.payment_transactions
                 (GeneralLedgerTransactionTransformed.deposit_details y)) = true)
            (List.map flatten_transaction (kept ∅ (x :: txs)))).
  { apply Forall_forall. intros y (z & <- & Hz)%list_elem_of_In%in_map_iff.
    rewrite Forall_forall in Hjson. apply Hjson.
    eapply elem_of_sublist; [|apply kept_sublist]. by apply list_elem_of_In. }
  rewrite kept_first_cons in Hout. cbn [List.map] in Hout.
  exists first_account, (flatten_transaction x), first_row,
    (List.map flatten_transaction (kept {[ GeneralLedgerTransaction.id x ]} txs)).
  eexists. split; [by left|]. split; [by left|].
  rewrite kept_first_cons. split; [done|].
  split.
  { unfold main. rewrite Hget, Hflat. cbv zeta. rewrite Hmap.
    rewrite transform_transactions_kept, kept_first_cons. cbn [List.map].
    unfold load_all. unfold mbind at 1, db_bind at 1.
    rewrite load_accounts_run.
    destruct (accepted_all (rejects wh)
                (stage_statements ("general_ledger_accounts_" +:+ run_id +:+ ".csv")
                   "account"
                 ++ [merge_of "general_ledger_staging.account" "general_ledger.account"
                       (keys (model_dump first_account)) run_id None]) Hnone) as [-> ->].
    unfold mbind at 1, db_bind at 1.
    rewrite (load_transactions_run _ _ _ _ Hout).
    match goal with
    | |- context [outcome (rejects ?w1) ?ss] =>
        destruct (accepted_all (rejects w1) ss Hnone) as [-> ->]
    end.
    rewrite load_participation_run.
    match goal with
    | |- context [outcome (rejects ?w2) ?ss] =>
        destruct (accepted_all (rejects w2) ss Hnone) as [-> ->]
    end.
    reflexivity. }
  split; [done|]. split; [|split; [|split]].
  - unfold ran_all, exported. cbn [executed]. by rewrite <- !app_assoc.
  - unfold ran_all, exported. cbn [executed]. rewrite !length_app.
    cbn [length stage_statements]. lia.
  - unfold ran_all, exported. cbn [ticks]. rewrite !length_map. cbn [length]. rewrite !length_map. lia.
  - exact Hlen.
Qed.

End MainProperties.

Lemma main_without_transactions_witness :
  (main (elements : gset Z → list Z) Strict.validate_account Strict.validate_transaction
     (Json (PList [Sample.account_json 101 "Cash"])) (Json (PList [])) "run-1"
     Sample.offline Sample.empty_warehouse).1.1
  = Raise IndexError.
Proof.
  rewrite (main_without_transactions (elements : gset Z → list Z) Strict.validate_account
             Strict.validate_transaction (Json (PList [Sample.account_json 101 "Cash"]))
             (Json (PList [])) "run-1" Sample.offline Sample.offline Sample.empty_warehouse
             [Sample.account 101 "Cash" (Some [])]
             (flatten_account (Sample.account 101 "Cash" (Some []))) []).
  - reflexivity.
  - vm_compute. reflexivity.
  - vm_compute. reflexivity.
  - vm_compute. reflexivity.
Defined.

Lemma main_loads_everything_witness :
  ∃ wh',
    main (elements : gset Z → list Z) Strict.validate_account Strict.validate_transaction
      (Json (PList [Sample.account_json 101 "Cash"]))
      (Json (PList [Sample.transaction_json 1 "Rent" [101]])) "run-1"
      Sample.offline Sample.empty_warehouse
    = (Ok (), Sample.offline, wh')
    ∧ length (executed wh') = 12%nat.
Proof.
  destruct (main_loads_everything (elements : gset Z → list Z) Strict.validate_account
              Strict.validate_transaction (Json (PList [Sample.account_json 101 "Cash"]))
              (Json (PList [Sample.transaction_json 1 "Rent" [101]])) "run-1"
              Sample.offline Sample.offline Sample.empty_warehouse
              [Sample.account 101 "Cash" (Some [])]
              [flatten_account (Sample.account 101 "Cash" (Some []))]
              [GeneralLedgerAccountTransactions.Build 101 1]
              [Sample.transaction 1 "Rent" [101]])
    as (first_account & first_transaction & first_row & others & wh'
        & _ & _ & _ & Hmain & _ & _ & Hlen & _).
  - intros s x Hx. by apply elem_of_elements.
  - vm_compute. reflexivity.
  - vm_compute. reflexivity.
  - vm_compute. reflexivity.
  - discriminate.
  - repeat constructor.
  - reflexivity.
  - exists wh'. split; [exact Hmain|exact Hlen].
Defined.

Lemma main_loads_last_witness :
  main (elements : gset Z → list Z) Strict.validate_account Strict.validate_transaction
    NotJson (Json (PList [Sample.transaction_json 1 "Rent" [101]])) "run-1"
    Sample.offline Sample.empty_warehouse
  = (Raise ValidationError, Sample.offline, Sample.empty_warehouse).
Proof.
  apply (proj1 (proj2 (main_loads_last (elements : gset Z → list Z)
                         Strict.validate_account Strict.validate_transaction
                         NotJson (Json (PList [Sample.transaction_json 1 "Rent" [101]]))
                         "run-1" Sample.offline Sample.empty_warehouse))
           ValidationError Sample.offline).
  reflexivity.
Defined.
